(** * pandas-msgpack: the encode/decode tagging protocol and the value
      converter of [pandas_msgpack/packers.py], as a shallow embedding.

    Python objects are one inductive type [value]; a [dict] is a finite map
    from strings to values; [isinstance] is membership of a class in the
    method-resolution order of the object's class; exceptions are the
    [Raise] case of [result]; warnings are collected by the writer [W].
    What the module imports from numpy, pandas, zlib, blosc, dateutil and the
    Python runtime is modelled by small executable definitions next to the
    place they are used, or taken from the record [Env]. *)

From Stdlib Require Import ZArith Lia List String Ascii.
From Stdlib Require Strings.Byte.
From stdpp Require Import base option list gmap strings pretty.

#[local] Set Warnings "-register-all".
#[local] Open Scope string_scope.
#[local] Open Scope Z_scope.

Abbreviation byte := Byte.byte.

(** ** Exceptions, results and warnings *)

Inductive exn : Type :=
| ImportError (msg : string)
| ValueError (msg : string)
| KeyError (key : string)
| IndexError (msg : string)
| OverflowError (msg : string)
| TypeError (msg : string)
| AttributeError (msg : string)
| LibraryError (msg : string)
| UnknownTimeZoneError (zone : string)
| PyException (msg : string).

Inductive result (A : Type) : Type :=
| Ok (a : A)
| Raise (e : exn).
Arguments Ok {A} a.
Arguments Raise {A} e.

#[global] Instance result_ret : MRet result := @Ok.
#[global] Instance result_bind : MBind result :=
  λ A B f m, match m with Ok a => f a | Raise e => Raise e end.
#[global] Instance result_fmap : FMap result :=
  λ A B f m, match m with Ok a => Ok (f a) | Raise e => Raise e end.

Definition raises {A} (m : result A) : Prop := ∃ e, m = Raise e.

Fixpoint mapM_result {A B} (f : A → result B) (l : list A) : result (list B) :=
  match l with
  | [] => Ok []
  | x :: l' => y ← f x; ys ← mapM_result f l'; Ok (y :: ys)
  end.

Inductive warning : Type :=
| PerformanceWarning (msg : string).

(** A computation that may call [warnings.warn] before it returns or
    raises. *)
Record W (A : Type) : Type := mkW { warnings : list warning; outcome : result A }.
Arguments mkW {A} warnings outcome.
Arguments warnings {A} w.
Arguments outcome {A} w.

Definition liftW {A} (m : result A) : W A := mkW [] m.
Definition warn (w : warning) : W unit := mkW [w] (Ok tt).

#[global] Instance W_ret : MRet W := λ A a, mkW [] (Ok a).
#[global] Instance W_bind : MBind W :=
  λ A B f m,
    match outcome m with
    | Ok a => mkW (warnings m ++ warnings (f a)) (outcome (f a))
    | Raise e => mkW (warnings m) (Raise e)
    end.

Fixpoint mapM_W {A B} (f : A → W B) (l : list A) : W (list B) :=
  match l with
  | [] => mret []
  | x :: l' => y ← f x; ys ← mapM_W f l'; mret (y :: ys)
  end.

(** [if c: ... else: ...] on a test that may raise. *)
Definition W_if {A} (c : result bool) (yes no : W A) : W A :=
  match c with
  | Ok true => yes
  | Ok false => no
  | Raise e => liftW (Raise e)
  end.

Notation "'ifW' c 'then' a 'else' b" := (W_if c a b)
  (at level 10, c at level 200, a at level 200, b at level 200).

(** ** Bytes and fixed-width integers *)

Definition byte_of_Z (z : Z) : byte :=
  default Byte.x00 (Byte.of_N (Z.to_N (z mod 256))).
Definition Z_of_byte (b : byte) : Z := Z.of_N (Byte.to_N b).

(** [n] bytes of [z], least significant first (two's complement). *)
Fixpoint le_bytes (n : nat) (z : Z) : list byte :=
  match n with
  | O => []
  | S n' => byte_of_Z z :: le_bytes n' (Z.shiftr z 8)
  end.

Fixpoint le_value (bs : list byte) : Z :=
  match bs with
  | [] => 0
  | b :: r => Z_of_byte b + Z.shiftl (le_value r) 8
  end.

Definition int64_to_bytes (z : Z) : list byte := le_bytes 8 z.
Definition int64_of_bytes (bs : list byte) : Z :=
  let u := le_value bs in if u <? 2 ^ 63 then u else u - 2 ^ 64.

Definition int64_range (z : Z) : Prop := - 2 ^ 63 <= z < 2 ^ 63.
Definition in_int64 (z : Z) : bool := (- 2 ^ 63 <=? z) && (z <? 2 ^ 63).

(** The items of a buffer, [k] bytes each. *)
Fixpoint chunks_fuel {A} (fuel k : nat) (l : list A) : list (list A) :=
  match fuel with
  | O => []
  | S f =>
      match l with
      | [] => []
      | _ => take k l :: chunks_fuel f k (drop k l)
      end
  end.
Definition chunks {A} (k : nat) (l : list A) : list (list A) :=
  chunks_fuel (length l) k l.

Definition int64s_to_bytes (zs : list Z) : list byte :=
  concat (map int64_to_bytes zs).
Definition int64s_of_bytes (bs : list byte) : list Z :=
  map int64_of_bytes (chunks 8 bs).

(** ** Python floats, their [repr] and the [complex(str)] parser *)

Module PyFloat.

Inductive digit : Type := d0 | d1 | d2 | d3 | d4 | d5 | d6 | d7 | d8 | d9.

(** A float is kept as the decimal text [repr] prints for it: sign, integer
    digits, fraction digits (none when [repr] prints no point) and the
    exponent ([e-05] is [(true, [d0; d5])]).  [-0.0] is
    [FFinite true [d0] [d0] None]. *)
Inductive pyfloat : Type :=
| FNan
| FInf (neg : bool)
| FFinite (neg : bool) (ip fp : list digit) (ex : option (bool * list digit)).

Definition digit_char (d : digit) : ascii :=
  match d with
  | d0 => "0" | d1 => "1" | d2 => "2" | d3 => "3" | d4 => "4"
  | d5 => "5" | d6 => "6" | d7 => "7" | d8 => "8" | d9 => "9"
  end%char.

Definition char_digit (c : ascii) : option digit :=
  match c with
  | "0" => Some d0 | "1" => Some d1 | "2" => Some d2 | "3" => Some d3
  | "4" => Some d4 | "5" => Some d5 | "6" => Some d6 | "7" => Some d7
  | "8" => Some d8 | "9" => Some d9 | _ => None
  end%char.

Fixpoint digits_str (ds : list digit) : string :=
  match ds with
  | [] => ""
  | d :: r => String (digit_char d) (digits_str r)
  end.

Definition sign_str (neg : bool) : string := if neg then "-" else "".

Definition exp_str (ex : option (bool * list digit)) : string :=
  match ex with
  | None => ""
  | Some (eneg, ds) => "e" +:+ (if eneg then "-" else "+") +:+ digits_str ds
  end.

Definition frac_str (fp : list digit) : string :=
  match fp with
  | [] => ""
  | _ => "." +:+ digits_str fp
  end.

(** [float.__repr__] *)
Definition float_repr (x : pyfloat) : string :=
  match x with
  | FNan => "nan"
  | FInf neg => sign_str neg +:+ "inf"
  | FFinite neg ip fp ex =>
      sign_str neg +:+ digits_str ip +:+ frac_str fp +:+ exp_str ex
  end.

(** The texts [repr] can print: at least one integer digit, and a
    fraction or an exponent with at least one digit. *)
Definition well_formed (x : pyfloat) : bool :=
  match x with
  | FNan | FInf _ => true
  | FFinite _ ip fp ex =>
      match ip with [] => false | _ => true end
      && match ex with
         | None => match fp with [] => false | _ => true end
         | Some (_, []) => false
         | Some _ => true
         end
  end.

(** The sign bit, which is what [repr] prints as a leading minus. *)
Definition signbit (x : pyfloat) : bool :=
  match x with
  | FNan => false
  | FInf neg => neg
  | FFinite neg _ _ _ => neg
  end.

Definition all_zero (ds : list digit) : bool :=
  forallb (λ d, match d with d0 => true | _ => false end) ds.

Definition is_zero (x : pyfloat) : bool :=
  match x with
  | FFinite _ ip fp _ => all_zero ip && all_zero fp
  | _ => false
  end.

(** [x >= 0] and [x < 0] as Python compares floats: [nan] satisfies
    neither, and [-0.0 >= 0] holds. *)
Definition nonnegative (x : pyfloat) : bool :=
  match x with
  | FNan => false
  | FInf neg => negb neg
  | FFinite neg _ _ _ => negb neg || is_zero x
  end.

Definition negative (x : pyfloat) : bool :=
  match x with
  | FNan => false
  | FInf neg => neg
  | FFinite neg _ _ _ => neg && negb (is_zero x)
  end.

Fixpoint scan_digits (s : string) : list digit * string :=
  match s with
  | String c r =>
      match char_digit c with
      | Some d => let '(ds, r') := scan_digits r in (d :: ds, r')
      | None => ([], s)
      end
  | EmptyString => ([], "")
  end.

Definition scan_sign (s : string) : bool * string :=
  match s with
  | String "-" r => (true, r)
  | String "+" r => (false, r)
  | _ => (false, s)
  end.

(** The exponent is consumed only when digits follow it. *)
Definition scan_exponent (s : string) : option (bool * list digit) * string :=
  match s with
  | String c r =>
      if bool_decide (c = "e"%char) || bool_decide (c = "E"%char) then
        let '(eneg, r1) := scan_sign r in
        match scan_digits r1 with
        | ([], _) => (None, s)
        | (ds, r2) => (Some (eneg, ds), r2)
        end
      else (None, s)
  | EmptyString => (None, s)
  end.

Fixpoint strip_prefix (p s : string) : option string :=
  match p with
  | EmptyString => Some s
  | String c p' =>
      match s with
      | String c' s' => if Ascii.eqb c c' then strip_prefix p' s' else None
      | EmptyString => None
      end
  end.

(** The digits of a float literal, or [inf], [infinity], [nan] (lower
    case only), after the sign. *)
Definition scan_unsigned (neg : bool) (r : string) : option (pyfloat * string) :=
  match strip_prefix "infinity" r with
  | Some r' => Some (FInf neg, r')
  | None =>
  match strip_prefix "inf" r with
  | Some r' => Some (FInf neg, r')
  | None =>
  match strip_prefix "nan" r with
  | Some r' => Some (FNan, r')
  | None =>
      let '(ip, r1) := scan_digits r in
      let '(fp, r2) :=
        match r1 with
        | String "." r1' => scan_digits r1'
        | _ => ([], r1)
        end in
      match ip, fp with
      | [], [] => None
      | _, _ =>
          let '(ex, r3) := scan_exponent r2 in
          Some (FFinite neg ip fp ex, r3)
      end
  end end end.

(** [PyOS_string_to_double] with an end pointer: the longest float literal
    at the head of [s] and what follows it, [None] when [s] does not start
    with a float. *)
Definition scan_float (s : string) : option (pyfloat * string) :=
  let '(neg, r) := scan_sign s in scan_unsigned neg r.

(** [float(str)] *)
Definition float_of_string (s : string) : result pyfloat :=
  match scan_float s with
  | Some (x, "") => Ok x
  | _ => Raise (ValueError "could not convert string to float")
  end.

Definition one : pyfloat := FFinite false [d1] [d0] None.
Definition minus_one : pyfloat := FFinite true [d1] [d0] None.
Definition zero : pyfloat := FFinite false [d0] [d0] None.

Definition malformed : exn := ValueError "complex() arg is a malformed string".

(** [complex(str)], after CPython's [complex_from_string_inner]; the
    optional blanks and parentheses around the number are left out. *)
Definition complex_of_string (s : string) : result (pyfloat * pyfloat) :=
  let finish (x y : pyfloat) (rest : string) :=
    match rest with
    | "" => Ok (x, y)
    | _ => Raise malformed
    end in
  let expect_j (x y : pyfloat) (rest : string) :=
    match rest with
    | String c rest' =>
        if bool_decide (c = "j"%char) || bool_decide (c = "J"%char)
        then finish x y rest' else Raise malformed
    | EmptyString => Raise malformed
    end in
  match scan_float s with
  | Some (z, r) =>
      match r with
      | String c r' =>
          if bool_decide (c = "+"%char) || bool_decide (c = "-"%char) then
            (* <float><signed-float>j | <float><sign>j *)
            match scan_float r with
            | Some (y, r2) => expect_j z y r2
            | None =>
                expect_j z (if bool_decide (c = "+"%char) then one else minus_one) r'
            end
          else if bool_decide (c = "j"%char) || bool_decide (c = "J"%char) then
            finish zero z r'
          else Raise malformed
      | EmptyString => Ok (z, zero)
      end
  | None =>
      (* not starting with <float>; must be <sign>j or j *)
      let '(y, r) :=
        match s with
        | String "+" r => (one, r)
        | String "-" r => (minus_one, r)
        | _ => (one, s)
        end in
      expect_j zero y r
  end.

End PyFloat.
Export PyFloat.

(** ** numpy and pandas dtypes *)

Inductive dtype : Type :=
| object_ | bool_
| int8 | int16 | int32 | int64
| uint8 | uint16 | uint32 | uint64
| float32 | float64 | complex64 | complex128
| datetime64_ns | datetime64_us | timedelta64_ns | timedelta64_us.

#[global] Instance dtype_eq_dec : EqDecision dtype.
Proof. solve_decision. Defined.

Definition dtype_name (d : dtype) : string :=
  match d with
  | object_ => "object" | bool_ => "bool"
  | int8 => "int8" | int16 => "int16" | int32 => "int32" | int64 => "int64"
  | uint8 => "uint8" | uint16 => "uint16" | uint32 => "uint32" | uint64 => "uint64"
  | float32 => "float32" | float64 => "float64"
  | complex64 => "complex64" | complex128 => "complex128"
  | datetime64_ns => "datetime64[ns]" | datetime64_us => "datetime64[us]"
  | timedelta64_ns => "timedelta64[ns]" | timedelta64_us => "timedelta64[us]"
  end.

Definition itemsize (d : dtype) : nat :=
  match d with
  | bool_ | int8 | uint8 => 1
  | int16 | uint16 => 2
  | int32 | uint32 | float32 => 4
  | object_ | int64 | uint64 | float64 | complex64
  | datetime64_ns | datetime64_us | timedelta64_ns | timedelta64_us => 8
  | complex128 => 16
  end.

Definition is_datetimelike (d : dtype) : bool :=
  match d with
  | datetime64_ns | datetime64_us | timedelta64_ns | timedelta64_us => true
  | _ => false
  end.

Definition is_np_number (d : dtype) : bool :=
  match d with
  | object_ | bool_ | datetime64_ns | datetime64_us
  | timedelta64_ns | timedelta64_us => false
  | _ => true
  end.

Definition is_complex (d : dtype) : bool :=
  match d with complex64 | complex128 => true | _ => false end.

(** The time zone objects.  Those of pytz have the attribute [zone]: the
    name of a named zone and [None] for a fixed offset.  Those of other
    libraries ([dateutil], [datetime.timezone]) have no such attribute. *)
Inductive tzinfo : Type :=
| TzNamed (zone : string)
| TzFixedOffset (minutes : Z)
| TzOther (repr : string).

Definition tz_str (tz : tzinfo) : string :=
  match tz with
  | TzNamed z => z
  | TzFixedOffset m => "pytz.FixedOffset(" +:+ pretty m +:+ ")"
  | TzOther r => r
  end.

(** Whatever the code passes where a dtype is expected: a [np.dtype], a numpy
    scalar type such as [np.int64], a pandas extension dtype, a string, or
    something else [dtype_for] handed back unchanged. *)
Inductive dtype_like : Type :=
| NpDtype (d : dtype)
| NpType (d : dtype)
| CategoricalDtype
| PeriodDtype (freq : string)
| DatetimeTZDtype (tz : tzinfo)
| DtypeStr (s : string)
| DtypeNone
| DtypeOther.

Definition dtype_like_name (d : dtype_like) : option string :=
  match d with
  | NpDtype d => Some (dtype_name d)
  | CategoricalDtype => Some "category"
  | PeriodDtype f => Some ("period[" +:+ f +:+ "]")
  | DatetimeTZDtype tz => Some ("datetime64[ns, " +:+ tz_str tz +:+ "]")
  | _ => None
  end.

(** ** Python objects *)

Inductive index_class : Type :=
| KIndex | KInt64Index | KUInt64Index | KFloat64Index | KCategoricalIndex.

Inductive block_class : Type :=
| FloatBlock | IntBlock | BoolBlock | ComplexBlock | ObjectBlock
| DatetimeBlock | DatetimeTZBlock | TimeDeltaBlock | CategoricalBlock.

#[global] Instance block_class_eq_dec : EqDecision block_class.
Proof. solve_decision. Defined.

Record pydate : Type := mkDate { year : Z; month : Z; day : Z }.
Record pydatetime : Type :=
  mkDatetime { on_date : pydate; hour : Z; minute : Z; second : Z; microsecond : Z }.

Inductive value : Type :=
(* builtins *)
| VNone
| VBool (b : bool)
| VInt (n : Z)
| VFloat (x : pyfloat)
| VComplex (re im : pyfloat)
| VStr (s : string)
| VBytes (data : list byte)
| VTuple (xs : list value)
| VList (xs : list value)
| VDict (d : gmap string value)
| VExtType (code : Z) (data : list byte)
(* datetime *)
| VDate (d : pydate)
| VDatetime (d : pydatetime)
| VTimedelta (days seconds microseconds : Z)
| VTz (tz : tzinfo)
(* numpy *)
| VDtype (d : dtype_like)
| VNdarray (dt : dtype) (shape : list nat) (buf : list byte)
| VObjArray (shape : list nat) (elems : list value)
| VNpInt (dt : dtype) (n : Z)
| VNpFloat (dt : dtype) (x : pyfloat)
| VNpComplex (dt : dtype) (re im : pyfloat)
| VDatetime64 (n : Z) (unit : string)
| VTimedelta64 (n : Z) (unit : string)
(* pandas scalars *)
| VOffset (freqstr : string)
| VTimestamp (val : Z) (freq : option string) (tz : option tzinfo)
| VNaT
| VPeriod (ordinal : Z) (freq : string)
(* pandas containers *)
| VRangeIndex (name : value) (start stop step : Z)
| VPeriodIndex (name : value) (freq : string) (ordinals : list Z)
| VDatetimeIndex (name : value) (freq : option string) (tz : option tzinfo)
    (asi8 : list Z)
| VMultiIndex (names : list value) (tuples : list (list value))
| VIndex (klass : index_class) (name : value) (values : value)
| VCategorical (codes categories : value) (ordered : bool)
| VDatetimeArray (tz : tzinfo) (asi8 : list Z)
| VSeries (name index values : value)
| VBlock (klass : block_class) (mgr_locs : list Z) (values : value)
| VBlockManager (blocks axes : list value)
| VDataFrame (data : value).

Definition opt_str (o : option string) : value :=
  match o with Some s => VStr s | None => VNone end.
Definition opt_tz (o : option tzinfo) : value :=
  match o with Some tz => VTz tz | None => VNone end.
Definition opt_offset (o : option string) : value :=
  match o with Some s => VOffset s | None => VNone end.

(** ** Classes and [isinstance] *)

Inductive pyclass : Type :=
| C_object | C_NoneType | C_bool | C_int | C_float | C_complex | C_str
| C_bytes | C_tuple | C_list | C_dict | C_ExtType
| C_date | C_datetime | C_timedelta | C_tzinfo
| C_np_dtype | C_ndarray | C_np_generic | C_np_number | C_np_scalar (d : dtype)
| C_np_datetime64 | C_np_timedelta64
| C_DateOffset | C_Timestamp | C_NaTType | C_Period
| C_Index | C_Int64Index | C_UInt64Index | C_Float64Index | C_CategoricalIndex
| C_RangeIndex | C_PeriodIndex | C_DatetimeIndex | C_MultiIndex
| C_Categorical | C_DatetimeArray | C_NDFrame | C_Series | C_DataFrame
| C_Block (k : block_class) | C_BlockManager.

#[global] Instance pyclass_eq_dec : EqDecision pyclass.
Proof. solve_decision. Defined.

Definition index_pyclass (k : index_class) : pyclass :=
  match k with
  | KIndex => C_Index
  | KInt64Index => C_Int64Index
  | KUInt64Index => C_UInt64Index
  | KFloat64Index => C_Float64Index
  | KCategoricalIndex => C_CategoricalIndex
  end.

(** [type(obj)] *)
Definition type_of (v : value) : pyclass :=
  match v with
  | VNone => C_NoneType
  | VBool _ => C_bool
  | VInt _ => C_int
  | VFloat _ => C_float
  | VComplex _ _ => C_complex
  | VStr _ => C_str
  | VBytes _ => C_bytes
  | VTuple _ => C_tuple
  | VList _ => C_list
  | VDict _ => C_dict
  | VExtType _ _ => C_ExtType
  | VDate _ => C_date
  | VDatetime _ => C_datetime
  | VTimedelta _ _ _ => C_timedelta
  | VTz _ => C_tzinfo
  | VDtype _ => C_np_dtype
  | VNdarray _ _ _ | VObjArray _ _ => C_ndarray
  | VNpInt d _ | VNpFloat d _ | VNpComplex d _ _ => C_np_scalar d
  | VDatetime64 _ _ => C_np_datetime64
  | VTimedelta64 _ _ => C_np_timedelta64
  | VOffset _ => C_DateOffset
  | VTimestamp _ _ _ => C_Timestamp
  | VNaT => C_NaTType
  | VPeriod _ _ => C_Period
  | VRangeIndex _ _ _ _ => C_RangeIndex
  | VPeriodIndex _ _ _ => C_PeriodIndex
  | VDatetimeIndex _ _ _ _ => C_DatetimeIndex
  | VMultiIndex _ _ => C_MultiIndex
  | VIndex k _ _ => index_pyclass k
  | VCategorical _ _ _ => C_Categorical
  | VDatetimeArray _ _ => C_DatetimeArray
  | VSeries _ _ _ => C_Series
  | VBlock k _ _ => C_Block k
  | VBlockManager _ _ => C_BlockManager
  | VDataFrame _ => C_DataFrame
  end.

(** The method-resolution order of each class, as far as the classes named
    in this module go. *)
Definition mro (c : pyclass) : list pyclass :=
  match c with
  | C_object => [C_object]
  | C_bool => [C_bool; C_int; C_object]
  | C_ExtType => [C_ExtType; C_tuple; C_object]
  | C_datetime => [C_datetime; C_date; C_object]
  | C_Timestamp => [C_Timestamp; C_datetime; C_date; C_object]
  | C_NaTType => [C_NaTType; C_datetime; C_date; C_object]
  | C_np_number => [C_np_number; C_np_generic; C_object]
  | C_np_scalar d =>
      C_np_scalar d
      :: (if is_np_number d then [C_np_number] else [])
      ++ [C_np_generic]
      ++ match d with
         | float64 => [C_float]
         | complex128 => [C_complex]
         | _ => []
         end
      ++ [C_object]
  | C_np_datetime64 => [C_np_datetime64; C_np_generic; C_object]
  | C_np_timedelta64 => [C_np_timedelta64; C_np_number; C_np_generic; C_object]
  | C_Int64Index => [C_Int64Index; C_Index; C_object]
  | C_UInt64Index => [C_UInt64Index; C_Index; C_object]
  | C_Float64Index => [C_Float64Index; C_Index; C_object]
  | C_CategoricalIndex => [C_CategoricalIndex; C_Index; C_object]
  | C_RangeIndex => [C_RangeIndex; C_Int64Index; C_Index; C_object]
  | C_PeriodIndex => [C_PeriodIndex; C_Int64Index; C_Index; C_object]
  | C_DatetimeIndex => [C_DatetimeIndex; C_Int64Index; C_Index; C_object]
  | C_MultiIndex => [C_MultiIndex; C_Index; C_object]
  | C_Series => [C_Series; C_NDFrame; C_object]
  | C_DataFrame => [C_DataFrame; C_NDFrame; C_object]
  | c => [c; C_object]
  end.

Definition subclass_in (m : list pyclass) (c : pyclass) : bool :=
  bool_decide (c ∈ m).
Definition issubclass (t c : pyclass) : bool := subclass_in (mro t) c.
Definition isinstance (obj : value) (c : pyclass) : bool :=
  issubclass (type_of obj) c.
Definition isinstance_any (obj : value) (cs : list pyclass) : bool :=
  existsb (isinstance obj) cs.

Definition block_class_name (k : block_class) : string :=
  match k with
  | FloatBlock => "FloatBlock" | IntBlock => "IntBlock"
  | BoolBlock => "BoolBlock" | ComplexBlock => "ComplexBlock"
  | ObjectBlock => "ObjectBlock" | DatetimeBlock => "DatetimeBlock"
  | DatetimeTZBlock => "DatetimeTZBlock" | TimeDeltaBlock => "TimeDeltaBlock"
  | CategoricalBlock => "CategoricalBlock"
  end.

(** [cls.__name__] *)
Definition class_name (c : pyclass) : string :=
  match c with
  | C_object => "object" | C_NoneType => "NoneType" | C_bool => "bool"
  | C_int => "int" | C_float => "float" | C_complex => "complex"
  | C_str => "str" | C_bytes => "bytes" | C_tuple => "tuple"
  | C_list => "list" | C_dict => "dict" | C_ExtType => "ExtType"
  | C_date => "date" | C_datetime => "datetime" | C_timedelta => "timedelta"
  | C_tzinfo => "tzinfo" | C_np_dtype => "dtype" | C_ndarray => "ndarray"
  | C_np_generic => "generic" | C_np_number => "number"
  | C_np_scalar d => dtype_name d
  | C_np_datetime64 => "datetime64" | C_np_timedelta64 => "timedelta64"
  | C_DateOffset => "DateOffset" | C_Timestamp => "Timestamp"
  | C_NaTType => "NaTType" | C_Period => "Period"
  | C_Index => "Index" | C_Int64Index => "Int64Index"
  | C_UInt64Index => "UInt64Index" | C_Float64Index => "Float64Index"
  | C_CategoricalIndex => "CategoricalIndex" | C_RangeIndex => "RangeIndex"
  | C_PeriodIndex => "PeriodIndex" | C_DatetimeIndex => "DatetimeIndex"
  | C_MultiIndex => "MultiIndex" | C_Categorical => "Categorical"
  | C_DatetimeArray => "DatetimeArray" | C_NDFrame => "NDFrame"
  | C_Series => "Series" | C_DataFrame => "DataFrame"
  | C_Block k => block_class_name k | C_BlockManager => "BlockManager"
  end.

(** ** Attributes, items and truth values *)

Fixpoint assoc {A} (k : string) (l : list (string * A)) : option A :=
  match l with
  | [] => None
  | (k', v) :: r => if String.eqb k' k then Some v else assoc k r
  end.

Definition size_of (shape : list nat) : nat := foldr Nat.mul 1%nat shape.

Definition int64_array (zs : list Z) : value :=
  VNdarray int64 [length zs] (int64s_to_bytes zs).
Definition shape_tuple (shape : list nat) : value :=
  VTuple (map (λ n, VInt (Z.of_nat n)) shape).

(** [arr.dtype] of an array-like. *)
Definition array_dtype (v : value) : option dtype_like :=
  match v with
  | VNdarray dt _ _ => Some (NpDtype dt)
  | VObjArray _ _ => Some (NpDtype object_)
  | VCategorical _ _ _ => Some CategoricalDtype
  | VDatetimeArray tz _ => Some (DatetimeTZDtype tz)
  | _ => None
  end.

Definition array_shape (v : value) : option (list nat) :=
  match v with
  | VNdarray _ shape _ | VObjArray shape _ => Some shape
  | VDatetimeArray _ l => Some [length l]
  | _ => None
  end.

Definition opt_attr (k : string) (o : option value) : list (string * value) :=
  match o with Some v => [(k, v)] | None => [] end.

(** The attributes of an object that this module reads. *)
Definition attrs (v : value) : list (string * value) :=
  match v with
  | VComplex re im => [("real", VFloat re); ("imag", VFloat im)]
  | VExtType c d => [("code", VInt c); ("data", VBytes d)]
  | VTimedelta d s us =>
      [("days", VInt d); ("seconds", VInt s); ("microseconds", VInt us)]
  | VTz (TzNamed z) => [("zone", VStr z)]
  | VTz (TzFixedOffset _) => [("zone", VNone)]
  | VTz (TzOther _) => []
  | VDtype d => opt_attr "name" (VStr <$> dtype_like_name d)
  | VNdarray dt shape _ =>
      [("dtype", VDtype (NpDtype dt)); ("shape", shape_tuple shape);
       ("ndim", VInt (Z.of_nat (length shape)))]
  | VObjArray shape _ =>
      [("dtype", VDtype (NpDtype object_)); ("shape", shape_tuple shape);
       ("ndim", VInt (Z.of_nat (length shape)))]
  | VNpInt dt _ => [("dtype", VDtype (NpDtype dt))]
  | VNpFloat dt _ => [("dtype", VDtype (NpDtype dt))]
  | VNpComplex dt re im =>
      let ft := match dt with complex64 => float32 | _ => float64 end in
      [("dtype", VDtype (NpDtype dt)); ("real", VNpFloat ft re);
       ("imag", VNpFloat ft im)]
  | VOffset f => [("freqstr", VStr f)]
  | VTimestamp val freq tz =>
      [("value", VInt val); ("freq", opt_offset freq); ("tzinfo", opt_tz tz)]
  | VPeriod ordinal freq => [("ordinal", VInt ordinal); ("freq", VOffset freq)]
  | VRangeIndex name start stop step =>
      [("name", name); ("start", VInt start); ("stop", VInt stop);
       ("step", VInt step); ("dtype", VDtype (NpDtype int64))]
  | VPeriodIndex name freq ordinals =>
      [("name", name); ("freqstr", VStr freq);
       ("dtype", VDtype (PeriodDtype freq)); ("asi8", int64_array ordinals)]
  | VDatetimeIndex name freq tz asi8 =>
      [("name", name); ("freqstr", opt_str freq); ("tz", opt_tz tz);
       ("dtype", VDtype (match tz with
                         | Some z => DatetimeTZDtype z
                         | None => NpDtype datetime64_ns
                         end));
       ("asi8", int64_array asi8)]
  | VMultiIndex names tuples =>
      [("names", VList names); ("dtype", VDtype (NpDtype object_));
       ("values", VObjArray [length tuples] (map VTuple tuples))]
  | VIndex _ name values =>
      [("name", name); ("values", values)]
      ++ opt_attr "dtype" (VDtype <$> array_dtype values)
  | VCategorical codes categories ordered =>
      [("codes", codes); ("categories", categories); ("ordered", VBool ordered);
       ("dtype", VDtype CategoricalDtype)]
      ++ opt_attr "shape" (shape_tuple <$> array_shape codes)
  | VDatetimeArray tz asi8 =>
      [("dtype", VDtype (DatetimeTZDtype tz)); ("asi8", int64_array asi8);
       ("shape", shape_tuple [length asi8])]
  | VSeries name index values =>
      [("name", name); ("index", index);
       (* a zone-aware column hands out its UTC instants as datetime64[ns] *)
       ("values", match values with
                  | VDatetimeArray _ l =>
                      VNdarray datetime64_ns [length l] (int64s_to_bytes l)
                  | _ => values
                  end)]
      ++ opt_attr "dtype" (VDtype <$> array_dtype values)
  | VBlock _ locs values =>
      [("mgr_locs", int64_array locs); ("values", values)]
      ++ opt_attr "dtype" (VDtype <$> array_dtype values)
  | VBlockManager blocks axes => [("blocks", VList blocks); ("axes", VList axes)]
  | VDataFrame data => [("_data", data)]
  | _ => []
  end.

(** [obj.a] and [getattr(obj, a, default)] *)
Definition getattr (obj : value) (a : string) : result value :=
  match assoc a (attrs obj) with
  | Some v => Ok v
  | None =>
      Raise (AttributeError (class_name (type_of obj) +:+ " object has no attribute " +:+ a))
  end.
Definition getattr_or (obj : value) (a : string) (dflt : value) : value :=
  default dflt (assoc a (attrs obj)).

(** [obj.__class__.__name__] *)
Definition klass_of (obj : value) : value := VStr (class_name (type_of obj)).

(** [d[k]], [d.get(k)] and [k in d] on a mapping. *)
Definition getitem (d : gmap string value) (k : string) : result value :=
  match d !! k with
  | Some v => Ok v
  | None => Raise (KeyError k)
  end.
Definition dict_get (d : gmap string value) (k : string) : value :=
  default VNone (d !! k).
Definition dict_has (d : gmap string value) (k : string) : bool :=
  bool_decide (is_Some (d !! k)).

Definition is_none (v : value) : bool :=
  match v with VNone => true | _ => false end.

(** The truth value of an object in [if obj:]. *)
Definition truthy (v : value) : bool :=
  match v with
  | VNone => false
  | VBool b => b
  | VInt n => negb (n =? 0)
  | VFloat x => negb (is_zero x)
  | VStr s => negb (String.eqb s "")
  | VBytes l => negb (bool_decide (l = []))
  | VTuple l | VList l => match l with [] => false | _ => true end
  | VDict d => negb (bool_decide (d = ∅))
  | _ => true
  end.

(** The items of a Python sequence: a tuple, a list, or an extension value,
    which is a named tuple of its code and its data. *)
Definition seq_items (v : value) : option (list value) :=
  match v with
  | VTuple xs | VList xs => Some xs
  | VExtType c d => Some [VInt c; VBytes d]
  | _ => None
  end.

(** The objects numpy stores in an object array as they are: the values of
    Python that are no sequences (strings and bytes are scalars to it),
    numpy's own scalars and the scalars of pandas.  Arrays and the
    containers of pandas are neither items nor plain sequences. *)
Definition np_item (v : value) : bool :=
  match v with
  | VNone | VBool _ | VInt _ | VFloat _ | VComplex _ _ | VStr _ | VBytes _
  | VDict _ | VDate _ | VDatetime _ | VTimedelta _ _ _ | VTz _
  | VNpInt _ _ | VNpFloat _ _ | VNpComplex _ _ _
  | VDatetime64 _ _ | VTimedelta64 _ _
  | VOffset _ | VTimestamp _ _ _ | VNaT | VPeriod _ _ => true
  | _ => false
  end.

(** ** What the module takes from its surroundings *)

(** A [bytes] object as a decompressor returns it: its contents, and whether
    something else still refers to the object (a cached or interned
    result). *)
Record pybytes : Type := mkBytes { contents : list byte; shared : bool }.

Record Env : Type := mkEnv {
  (* import zlib / import blosc *)
  zlib_installed : bool;
  zlib_compress : list byte → list byte;
  zlib_decompress : list byte → result pybytes;
  blosc_installed : bool;
  blosc_compress : list byte → nat → list byte;
  blosc_decompress : list byte → result pybytes;
  (* from pandas_msgpack import _is_pandas_legacy_version *)
  _is_pandas_legacy_version : bool;
  (* PeriodIndex(data, name=, freq=) of a legacy pandas *)
  legacy_PeriodIndex : value → value → value → result value;
  (* BlockManager.is_consolidated() and .consolidate() *)
  is_consolidated : value → bool;
  consolidate : value → value;
  (* Index.get_indexer(items) *)
  get_indexer : value → value → result value;
  (* ndarray.tolist() on a numeric buffer, and its items as numpy scalars *)
  np_tolist : dtype → list byte → list value;
  np_scalars : dtype → list byte → list value;
  (* date.isoformat(), datetime.isoformat(), str(np.datetime64),
     dateutil.parser.parse, np.datetime64(datetime) *)
  date_isoformat : pydate → string;
  datetime_isoformat : pydatetime → string;
  datetime64_str : Z → string → string;
  dateutil_parse : string → result pydatetime;
  datetime64_of_datetime : pydatetime → value;
  (* ftype(r) + 1j * ftype(i) in numpy's arithmetic, as a scalar of the
     named complex type *)
  np_complex_of_parts : dtype → pyfloat → pyfloat → value;
  (* [v == s] and the truth value of what it returns, for an object [v] of
     numpy or pandas: an array, an index or a series compares item by item,
     and the truth value of the outcome may raise *)
  lib_str_eq : value → string → result bool;
  (* np.array(values, dtype=object) on values that hold arrays or
     containers of pandas, or that are nested deeper than numpy has
     dimensions *)
  np_array_nested : value → result value;
  (* the keys of np.typeDict besides the names listed in [typeDict]:
     aliases such as double, character codes such as i8 and type numbers,
     which differ between platforms and versions of numpy *)
  typeDict_other : value → option dtype;
  (* a scalar type of numpy, int(x) and float(x) on an argument that is not
     one of the texts read by the definitions below *)
  np_scalar_call : dtype → value → result value;
  int_other : value → result Z;
  float_other : dtype → value → result pyfloat;
  (* the frequencies of pandas: the name of the offset a text stands for
     (to_offset), the name of the frequency of a period, and the frequency
     DatetimeIndex gives an index of these instants when it is called with
     the text, which raises when the text names no frequency or the
     instants do not conform to it *)
  to_offset : string → option string;
  period_freq : string → option string;
  index_freq : string → list Z → result (option string);
  (* pytz.timezone(name), for the names other than UTC *)
  timezone : string → option tzinfo;
}.

Section Packers.

Context (E : Env).

(** [v == s] for a string [s], as the [if] that tests it takes it.  Between
    values of Python itself the comparison is plain: a string equals the
    strings of the same text and nothing else.  An object of numpy or
    pandas compares by its own [__eq__]. *)
Definition str_eq (v : value) (s : string) : result bool :=
  match v with
  | VStr s' => Ok (String.eqb s' s)
  | VNone | VBool _ | VInt _ | VFloat _ | VComplex _ _ | VBytes _
  | VTuple _ | VList _ | VDict _ | VExtType _ _
  | VDate _ | VDatetime _ | VTimedelta _ _ _ | VTz _ => Ok false
  | _ => lib_str_eq E v s
  end.

(** [pytz.timezone(name)]: UTC is built in, the other names are looked up
    in the zone database. *)
Definition zone_of_name (name : string) : result tzinfo :=
  if String.eqb name "UTC" then Ok (TzNamed "UTC")
  else match timezone E name with
       | Some tz => Ok tz
       | None => Raise (UnknownTimeZoneError name)
       end.

(** ** numpy arrays *)

Fixpoint common_prefix (a b : list nat) : list nat :=
  match a, b with
  | x :: a', y :: b' => if Nat.eqb x y then x :: common_prefix a' b' else []
  | _, _ => []
  end.

Definition common_shape (shapes : list (list nat)) : list nat :=
  match shapes with
  | [] => []
  | s :: r => foldl common_prefix s r
  end.

(** The shape numpy discovers for nested sequences: the lengths the items
    agree on, level by level, to at most [fuel] dimensions. *)
Fixpoint discover_shape (fuel : nat) (v : value) : list nat :=
  match fuel with
  | O => []
  | S f =>
      match seq_items v with
      | None => []
      | Some xs => length xs :: common_shape (map (discover_shape f) xs)
      end
  end.

Fixpoint flatten_to (depth : nat) (v : value) : list value :=
  match depth with
  | O => [v]
  | S d =>
      match seq_items v with
      | Some xs => flat_map (flatten_to d) xs
      | None => [v]
      end
  end.

Definition NPY_MAXDIMS : nat := 32.

(** Whether [v] is built from tuples and lists over items alone, nested to
    at most [fuel] levels. *)
Fixpoint plain_nesting (fuel : nat) (v : value) : bool :=
  match fuel with
  | O => np_item v
  | S f =>
      match seq_items v with
      | Some xs => forallb (plain_nesting f) xs
      | None => np_item v
      end
  end.

(** [np.array(values, dtype=object)]: an object array is copied, and
    nested tuples and lists of agreeing lengths become further dimensions.
    Arrays and containers among the items are nested too, by numpy's rules
    for them, which the surroundings give. *)
Definition np_array_object (values : value) : result value :=
  match values with
  | VObjArray shape elems => Ok (VObjArray shape elems)
  | _ =>
      if plain_nesting NPY_MAXDIMS values then
        let shape := discover_shape NPY_MAXDIMS values in
        Ok (VObjArray shape (flatten_to (length shape) values))
      else np_array_nested E values
  end.

(** [np.frombuffer(buf, dtype=dtype)] *)
Definition frombuffer (buf : list byte) (dt : dtype) : result value :=
  match dt with
  | object_ => Raise (ValueError "cannot create an OBJECT array from memory buffer")
  | _ =>
      if (length buf mod itemsize dt =? 0)%nat
      then Ok (VNdarray dt [(length buf / itemsize dt)%nat] buf)
      else Raise (ValueError "buffer size must be a multiple of element size")
  end.

(** [arr.ravel()], [arr.view("i8")], [arr.tostring()] *)
Definition ravel (v : value) : result value :=
  match v with
  | VNdarray dt shape buf => Ok (VNdarray dt [size_of shape] buf)
  | VObjArray shape elems => Ok (VObjArray [size_of shape] elems)
  | _ => Raise (AttributeError "ravel")
  end.

Definition view_i8 (v : value) : result value :=
  match v with
  | VNdarray dt shape buf =>
      if (itemsize dt =? 8)%nat then Ok (VNdarray int64 shape buf)
      else Raise (ValueError "view: the item size changes")
  | VDatetimeArray _ l => Ok (int64_array l)
  | _ => Raise (AttributeError "view")
  end.

Definition tostring (v : value) : result (list byte) :=
  match v with
  | VNdarray _ _ buf => Ok buf
  | _ => Raise (AttributeError "tostring")
  end.

Definition shape_of_value (v : value) : result (list nat) :=
  match v with
  | VTuple xs | VList xs =>
      mapM_result (λ x, match x with
                        | VInt n =>
                            if 0 <=? n then Ok (Z.to_nat n)
                            else Raise (ValueError "negative dimensions are not allowed")
                        | _ => Raise (TypeError "an integer is required")
                        end) xs
  | VInt n =>
      if 0 <=? n then Ok [Z.to_nat n]
      else Raise (ValueError "negative dimensions are not allowed")
  | _ => Raise (TypeError "expected a sequence of integers")
  end.

(** [arr.reshape(shape)] *)
Definition reshape (v : value) (new_shape : value) : result value :=
  shape ← shape_of_value new_shape;
  match v with
  | VNdarray dt old buf =>
      if (size_of old =? size_of shape)%nat then Ok (VNdarray dt shape buf)
      else Raise (ValueError "cannot reshape array")
  | VObjArray old elems =>
      if (size_of old =? size_of shape)%nat then Ok (VObjArray shape elems)
      else Raise (ValueError "cannot reshape array")
  | _ => Raise (AttributeError "reshape")
  end.

(** [pandas.core.internals._safe_reshape]: a series gives its array, and an
    extension array is left as it is. *)
Definition _safe_reshape (arr : value) (new_shape : value) : result value :=
  let arr := match arr with VSeries _ _ values => values | _ => arr end in
  match arr with
  | VCategorical _ _ _ | VDatetimeArray _ _ => Ok arr
  | _ => reshape arr new_shape
  end.

(** ** dtype resolution *)

(** [np.typeDict]: the names of the fixed-width types, which every numpy
    has, and the further keys of the platform at hand. *)
Definition typeDict (k : value) : option dtype :=
  match k with
  | VStr s =>
      match assoc s
              [("object", object_); ("object_", object_); ("bool", bool_);
               ("bool_", bool_); ("int8", int8); ("int16", int16);
               ("int32", int32); ("int64", int64); ("uint8", uint8);
               ("uint16", uint16); ("uint32", uint32); ("uint64", uint64);
               ("float32", float32); ("float64", float64); ("float", float64);
               ("complex64", complex64); ("complex128", complex128);
               ("complex", complex128)] with
      | Some d => Some d
      | None => typeDict_other E k
      end
  | _ => typeDict_other E k
  end.

(** The names [np.dtype(name)] resolves. *)
Definition np_dtype_of_name (s : string) : option dtype :=
  match typeDict (VStr s) with
  | Some d => Some d
  | None =>
      assoc s
        [("datetime64[ns]", datetime64_ns); ("datetime64[us]", datetime64_us);
         ("timedelta64[ns]", timedelta64_ns); ("timedelta64[us]", timedelta64_us);
         ("M8[ns]", datetime64_ns); ("m8[ns]", timedelta64_ns); ("O", object_);
         ("i8", int64); ("f8", float64)]
  end.

Definition strip_suffix (p s : string) : option string :=
  if (String.length p <=? String.length s)%nat
     && String.eqb (String.substring (String.length s - String.length p) (String.length p) s) p
  then Some (String.substring 0 (String.length s - String.length p) s)
  else None.

Definition bracketed (opening s : string) : option string :=
  r ← strip_prefix opening s; strip_suffix "]" r.

(** [dtype_dict] and [dtype_for]: my dtype mapping, whether number or name. *)
Definition dtype_dict (t : value) : option dtype_like :=
  match t with
  | VInt 21 => Some (NpDtype datetime64_ns)
  | VInt 22 => Some (NpDtype timedelta64_ns)
  | VInt 7 => Some (NpDtype int64)
  | VStr s =>
      assoc s
        [("datetime64[ns]", NpDtype datetime64_ns);
         ("datetime64[us]", NpDtype datetime64_us);
         ("timedelta64[ns]", NpDtype timedelta64_ns);
         ("timedelta64[us]", NpDtype timedelta64_us);
         ("category", DtypeStr "category")]
  | _ => None
  end.

Definition dtype_for (t : value) : dtype_like :=
  match dtype_dict t with
  | Some d => d
  | None =>
      (* np.typeDict.get(t, t) *)
      match typeDict t with
      | Some d => NpType d
      | None =>
          match t with
          | VStr s => DtypeStr s
          | VDtype d => d
          | VNone => DtypeNone
          | _ => DtypeOther
          end
      end
  end.

(** [pandas_dtype]: the registry of extension dtypes first, then
    [np.dtype].  A zone-aware name needs a zone that exists, and a period
    name a frequency of periods. *)
Definition pandas_dtype (d : dtype_like) : result dtype_like :=
  match d with
  | NpType d => Ok (NpDtype d)
  | DtypeNone => Ok (NpDtype float64)
  | DtypeOther => Raise (TypeError "data type not understood")
  | DtypeStr s =>
      let by_name :=
        match np_dtype_of_name s with
        | Some d => Ok (NpDtype d)
        | None => Raise (TypeError "data type not understood")
        end in
      if String.eqb s "category" then Ok CategoricalDtype
      else match bracketed "datetime64[ns, " s with
           | Some z => tz ← zone_of_name z; Ok (DatetimeTZDtype tz)
           | None =>
           match bracketed "period[" s with
           | Some f =>
               match period_freq E f with
               | Some f' => Ok (PeriodDtype f')
               | None => by_name
               end
           | None => by_name
           end end
  | d => Ok d
  end.

(** [dtype.base] *)
Definition dtype_base (d : dtype_like) : result dtype :=
  match d with
  | NpDtype d => Ok d
  | DatetimeTZDtype _ => Ok datetime64_ns
  | CategoricalDtype | PeriodDtype _ => Ok object_
  | _ => Raise (AttributeError "base")
  end.

Definition is_categorical_dtype_like (d : dtype_like) : bool :=
  match d with
  | CategoricalDtype => true
  | DtypeStr s => String.eqb s "category"
  | _ => false
  end.

(** [is_categorical_dtype(arr_or_dtype)] on an array. *)
Definition is_categorical_dtype (v : value) : bool :=
  match array_dtype v with
  | Some d => is_categorical_dtype_like d
  | None => false
  end.

Definition is_object_dtype (d : dtype_like) : bool :=
  match d with
  | CategoricalDtype | PeriodDtype _ | DatetimeTZDtype _ => false
  | _ =>
      match pandas_dtype d with
      | Ok (NpDtype object_) => true
      | _ => false
      end
  end.

Definition needs_i8_conversion (d : dtype_like) : bool :=
  match d with
  | NpDtype d => is_datetimelike d
  | PeriodDtype _ | DatetimeTZDtype _ => true
  | _ => false
  end.

(** Modelled from the spec: [pandas_msgpack._move] is not among the sources.
    [move_into_mutable_buffer] takes over the storage of a [bytes] object
    that nothing else refers to; when the decompressor cached or reused the
    object the move fails with [BadMove], which carries the object so that
    the caller can copy it. *)
Inductive moved : Type :=
| Moved (buf : list byte)
| BadMove (arg : pybytes).

Definition _move_into_mutable_buffer (b : pybytes) : moved :=
  if shared b then BadMove b else Moved (contents b).

Definition copy_warning : warning :=
  PerformanceWarning
    "copying data after decompressing; this may mean that decompress is caching its result".

(** [values[i]] *)
Definition subscript (v : value) (i : nat) : result value :=
  match seq_items v with
  | Some xs =>
      match xs !! i with
      | Some x => Ok x
      | None => Raise (IndexError "index out of range")
      end
  | None =>
      match v with
      | VBytes b =>
          match b !! i with
          | Some x => Ok (VInt (Z_of_byte x))
          | None => Raise (IndexError "index out of range")
          end
      | VStr s =>
          match String.get i s with
          | Some c => Ok (VStr (String c ""))
          | None => Raise (IndexError "string index out of range")
          end
      | _ => Raise (TypeError "object is not subscriptable")
      end
  end.

(** The buffer of a bytes-like object. *)
Definition as_bytes (v : value) : result (list byte) :=
  match v with
  | VBytes b => Ok b
  | VNdarray _ _ buf => Ok buf
  | _ => Raise (TypeError "a bytes-like object is required")
  end.

Definition dtype_itemsize (d : dtype_like) : result nat :=
  match d with
  | NpDtype d => Ok (itemsize d)
  | PeriodDtype _ | DatetimeTZDtype _ => Ok 8%nat
  | _ => Raise (AttributeError "itemsize")
  end.

Definition is_np_object (d : dtype_like) : bool :=
  match d with NpDtype object_ | NpType object_ => true | _ => false end.

Definition _check_zlib : result unit :=
  if zlib_installed E then Ok tt else Raise (ImportError "zlib is not installed").
Definition _check_blosc : result unit :=
  if blosc_installed E then Ok tt else Raise (ImportError "blosc is not installed").

(** [arr.tolist()] of a raveled array. *)
Definition tolist (v : value) : result value :=
  match v with
  | VObjArray _ elems => Ok (VList elems)
  | VNdarray dt _ buf => Ok (VList (np_tolist E dt buf))
  | _ => Raise (AttributeError "tolist")
  end.

(** ** [convert]: convert the numpy values to a list.  [compressor] is the
    module-level variable the function reads. *)
Definition convert (compressor : value) (values : value) : result value :=
  dtype ← match array_dtype values with
          | Some d => Ok d
          | None => Raise (AttributeError "dtype")
          end;
  if is_categorical_dtype values then Ok values
  else if is_object_dtype dtype then
    v ← ravel values; tolist v
  else
    values ← (if needs_i8_conversion dtype then view_i8 values else Ok values);
    v ← ravel values;
    is_zlib ← str_eq compressor "zlib";
    if (is_zlib : bool) then
      _ ← _check_zlib;
      (* return string arrays like they are *)
      if is_np_object dtype then tolist v
      else
        (* convert to a bytes array *)
        b ← tostring v;
        Ok (VExtType 0 (zlib_compress E b))
    else
      is_blosc ← str_eq compressor "blosc";
      if (is_blosc : bool) then
        _ ← _check_blosc;
        if is_np_object dtype then tolist v
        else
          b ← tostring v;
          ts ← dtype_itemsize dtype;
          Ok (VExtType 0 (blosc_compress E b ts))
      else
        (* ndarray (on original dtype) *)
        b ← tostring v;
        Ok (VExtType 0 b).

(** ** [unconvert] *)
Definition unconvert (values : value) (dtype : dtype_like) (compress : value)
  : W value :=
  let as_is_ext := match values with VExtType 0 _ => true | _ => false end in
  let values := match values with
                | VExtType 0 data => VBytes data
                | _ => values
                end in
  if is_categorical_dtype_like dtype then mret values
  else if is_object_dtype dtype then liftW (np_array_object values)
  else
    dtype ← liftW (d ← pandas_dtype dtype; dtype_base d);
    values ← liftW (if as_is_ext then Ok values else subscript values 1);
    if truthy compress then
      decompress ← liftW (
        is_zlib ← str_eq compress "zlib";
        if (is_zlib : bool) then
          _ ← _check_zlib; Ok (zlib_decompress E)
        else
          is_blosc ← str_eq compress "blosc";
          if (is_blosc : bool) then
            _ ← _check_blosc; Ok (blosc_decompress E)
          else Raise (ValueError "compress must be one of 'zlib' or 'blosc'"));
      data ← liftW (as_bytes values);
      d ← liftW (decompress data);
      match _move_into_mutable_buffer d with
      | Moved buf => liftW (frombuffer buf dtype)
      | BadMove v =>
          (* Pull the decompressed data off of the BadMove exception. *)
          let values := contents v in
          _ ← (if (1 <? length values)%nat then warn copy_warning else mret tt);
          (* Copy the string into a numpy array. *)
          liftW (frombuffer values dtype)
      end
    else
      (* Copy the string into a numpy array. *)
      data ← liftW (as_bytes values);
      liftW (frombuffer data dtype).

(** ** Methods of the objects [encode] and [decode] call *)

(** A dict display. *)
Definition record (kvs : list (string * value)) : value :=
  VDict (list_to_map kvs).

(** [idx.tz_convert(tz)]: the instants stay, the zone changes; a zone
    given by name has to exist, and a naive index has no zone to convert
    from. *)
Definition tz_convert (obj : value) (tz : value) : result value :=
  match obj with
  | VDatetimeIndex name freq (Some _) asi8 =>
      match tz with
      | VStr zone =>
          z ← zone_of_name zone; Ok (VDatetimeIndex name freq (Some z) asi8)
      | VTz z => Ok (VDatetimeIndex name freq (Some z) asi8)
      | VNone => Ok (VDatetimeIndex name freq None asi8)
      | _ => Raise (TypeError "tz_convert: not a time zone")
      end
  | VDatetimeIndex _ _ None _ =>
      Raise (TypeError "Cannot convert tz-naive timestamps, use tz_localize to localize")
  | _ => Raise (AttributeError "tz_convert")
  end.

(** [idx.tz_localize("UTC")]: a naive index is read as UTC wall times, so
    the instants stay; an aware index cannot be localized again. *)
Definition tz_localize_UTC (obj : value) : result value :=
  match obj with
  | VDatetimeIndex name freq None asi8 =>
      Ok (VDatetimeIndex name freq (Some (TzNamed "UTC")) asi8)
  | VDatetimeIndex _ _ (Some _) _ =>
      Raise (TypeError "Already tz-aware, use tz_convert to convert.")
  | _ => Raise (AttributeError "tz_localize")
  end.

(** [obj.view("i8")] of a [np.timedelta64] scalar. *)
Definition scalar_view_i8 (obj : value) : result value :=
  match obj with
  | VTimedelta64 n _ => Ok (VNpInt int64 n)
  | VDatetime64 n _ => Ok (VNpInt int64 n)
  | _ => Raise (AttributeError "view")
  end.

(** [obj.isoformat()] and [str(obj)] of the datetime kinds. *)
Definition isoformat (obj : value) : result value :=
  match obj with
  | VDatetime d => Ok (VStr (datetime_isoformat E d))
  | VDate d => Ok (VStr (date_isoformat E d))
  | _ => Raise (AttributeError "isoformat")
  end.

Definition str_of (obj : value) : result value :=
  match obj with
  | VDatetime64 n unit => Ok (VStr (datetime64_str E n unit))
  | VStr s => Ok (VStr s)
  | _ => Raise (TypeError "str")
  end.

(** [obj.__repr__()] of the numbers. *)
Definition repr_of (obj : value) : result value :=
  match obj with
  | VInt n | VNpInt _ n => Ok (VStr (pretty n))
  | VFloat x | VNpFloat _ x => Ok (VStr (float_repr x))
  | _ => Raise (TypeError "__repr__")
  end.

(** [np.iscomplexobj(obj)] *)
Definition iscomplexobj (obj : value) : bool :=
  match obj with
  | VNpComplex _ _ _ | VComplex _ _ => true
  | _ => false
  end.

(** [obj.dtype.name] *)
Definition dtype_name_of (obj : value) : result value :=
  d ← getattr obj "dtype"; getattr d "name".

(** [for b in seq] over a list or tuple. *)
Definition list_items (v : value) : result (list value) :=
  match v with
  | VList xs | VTuple xs => Ok xs
  | _ => Raise (TypeError "object is not iterable")
  end.

Definition temporal_classes : list pyclass :=
  [C_datetime; C_date; C_np_datetime64; C_timedelta; C_np_timedelta64; C_NaTType].

Definition cannot_encode : exn :=
  PyException "cannot encode this datetimelike object".

(** One entry of the ["blocks"] list of a block manager record. *)
Definition encode_block (compressor : value) (b : value) : result value :=
  locs ← getattr b "mgr_locs";
  bvalues ← getattr b "values";
  values ← convert compressor bvalues;
  shape ← getattr bvalues "shape";
  dname ← dtype_name_of b;
  Ok (record [("locs", locs); ("values", values); ("shape", shape);
              ("dtype", dname); ("klass", klass_of b); ("compress", compressor)]).

(** ** [encode]: data encoder *)
Definition encode (compressor : value) (obj : value) : result value :=
  let tobj := type_of obj in
  if isinstance obj C_Index then
    if isinstance obj C_RangeIndex then
      Ok (record [("typ", VStr "range_index");
                  ("klass", klass_of obj);
                  ("name", getattr_or obj "name" VNone);
                  ("start", getattr_or obj "start" VNone);
                  ("stop", getattr_or obj "stop" VNone);
                  ("step", getattr_or obj "step" VNone)])
    else if isinstance obj C_PeriodIndex then
      dname ← dtype_name_of obj;
      asi8 ← getattr obj "asi8";
      data ← convert compressor asi8;
      Ok (record [("typ", VStr "period_index");
                  ("klass", klass_of obj);
                  ("name", getattr_or obj "name" VNone);
                  ("freq", getattr_or obj "freqstr" VNone);
                  ("dtype", dname);
                  ("data", data);
                  ("compress", compressor)])
    else if isinstance obj C_DatetimeIndex then
      let tz := getattr_or obj "tz" VNone in
      (* store tz info and data as UTC *)
      '(tz, obj) ← (if negb (is_none tz)
                    then z ← getattr tz "zone";
                         o ← tz_convert obj (VStr "UTC");
                         Ok (z, o)
                    else Ok (tz, obj));
      dname ← dtype_name_of obj;
      asi8 ← getattr obj "asi8";
      data ← convert compressor asi8;
      Ok (record [("typ", VStr "datetime_index");
                  ("klass", klass_of obj);
                  ("name", getattr_or obj "name" VNone);
                  ("dtype", dname);
                  ("data", data);
                  ("freq", getattr_or obj "freqstr" VNone);
                  ("tz", tz);
                  ("compress", compressor)])
    else if isinstance obj C_MultiIndex then
      dname ← dtype_name_of obj;
      values ← getattr obj "values";
      data ← convert compressor values;
      Ok (record [("typ", VStr "multi_index");
                  ("klass", klass_of obj);
                  ("names", getattr_or obj "names" VNone);
                  ("dtype", dname);
                  ("data", data);
                  ("compress", compressor)])
    else
      dname ← dtype_name_of obj;
      values ← getattr obj "values";
      data ← convert compressor values;
      Ok (record [("typ", VStr "index");
                  ("klass", klass_of obj);
                  ("name", getattr_or obj "name" VNone);
                  ("dtype", dname);
                  ("data", data);
                  ("compress", compressor)])
  else if isinstance obj C_Categorical then
    codes ← getattr obj "codes";
    categories ← getattr obj "categories";
    ordered ← getattr obj "ordered";
    Ok (record [("typ", VStr "category");
                ("klass", klass_of obj);
                ("name", getattr_or obj "name" VNone);
                ("codes", codes);
                ("categories", categories);
                ("ordered", ordered);
                ("compress", compressor)])
  else if isinstance obj C_Series then
    index ← getattr obj "index";
    dname ← dtype_name_of obj;
    values ← getattr obj "values";
    data ← convert compressor values;
    Ok (record [("typ", VStr "series");
                ("klass", klass_of obj);
                ("name", getattr_or obj "name" VNone);
                ("index", index);
                ("dtype", dname);
                ("data", data);
                ("compress", compressor)])
  else if issubclass tobj C_NDFrame then
    data ← getattr obj "_data";
    let data := if negb (is_consolidated E data) then consolidate E data else data in
    (* the block manager *)
    axes ← getattr data "axes";
    bs ← getattr data "blocks";
    bs ← list_items bs;
    blocks ← mapM_result (encode_block compressor) bs;
    Ok (record [("typ", VStr "block_manager");
                ("klass", klass_of obj);
                ("axes", axes);
                ("blocks", VList blocks)])
  else if isinstance_any obj temporal_classes then
    if isinstance obj C_Timestamp then
      tz ← getattr obj "tzinfo";
      tz ← (if negb (is_none tz) then getattr tz "zone" else Ok tz);
      freq ← getattr obj "freq";
      freq ← (if negb (is_none freq) then getattr freq "freqstr" else Ok freq);
      val ← getattr obj "value";
      Ok (record [("typ", VStr "timestamp"); ("value", val);
                  ("freq", freq); ("tz", tz)])
    else if isinstance obj C_NaTType then
      Ok (record [("typ", VStr "nat")])
    else if isinstance obj C_np_timedelta64 then
      data ← scalar_view_i8 obj;
      Ok (record [("typ", VStr "timedelta64"); ("data", data)])
    else if isinstance obj C_timedelta then
      days ← getattr obj "days";
      seconds ← getattr obj "seconds";
      microseconds ← getattr obj "microseconds";
      Ok (record [("typ", VStr "timedelta");
                  ("data", VTuple [days; seconds; microseconds])])
    else if isinstance obj C_np_datetime64 then
      data ← str_of obj;
      Ok (record [("typ", VStr "datetime64"); ("data", data)])
    else if isinstance obj C_datetime then
      data ← isoformat obj;
      Ok (record [("typ", VStr "datetime"); ("data", data)])
    else if isinstance obj C_date then
      data ← isoformat obj;
      Ok (record [("typ", VStr "date"); ("data", data)])
    else Raise cannot_encode
  else if isinstance obj C_Period then
    ordinal ← getattr obj "ordinal";
    freq ← getattr obj "freq";
    Ok (record [("typ", VStr "period"); ("ordinal", ordinal); ("freq", freq)])
  else if isinstance obj C_ndarray then
    shape ← getattr obj "shape";
    ndim ← getattr obj "ndim";
    dname ← dtype_name_of obj;
    data ← convert compressor obj;
    Ok (record [("typ", VStr "ndarray");
                ("shape", shape);
                ("ndim", ndim);
                ("dtype", dname);
                ("data", data);
                ("compress", compressor)])
  else if isinstance obj C_np_number then
    if iscomplexobj obj then
      dname ← dtype_name_of obj;
      re ← getattr obj "real";
      re ← repr_of re;
      im ← getattr obj "imag";
      im ← repr_of im;
      Ok (record [("typ", VStr "np_scalar");
                  ("sub_typ", VStr "np_complex");
                  ("dtype", dname);
                  ("real", re);
                  ("imag", im)])
    else
      dname ← dtype_name_of obj;
      data ← repr_of obj;
      Ok (record [("typ", VStr "np_scalar");
                  ("dtype", dname);
                  ("data", data)])
  else if isinstance obj C_complex then
    re ← getattr obj "real";
    re ← repr_of re;
    im ← getattr obj "imag";
    im ← repr_of im;
    Ok (record [("typ", VStr "np_complex"); ("real", re); ("imag", im)])
  else Ok obj.

(** ** What [decode] constructs *)

(** The classes bound in the module's globals. *)
Definition globals (name : string) : option pyclass :=
  assoc name
    [("Timestamp", C_Timestamp); ("Period", C_Period);
     ("PeriodIndex", C_PeriodIndex); ("Series", C_Series);
     ("DataFrame", C_DataFrame); ("Index", C_Index);
     ("MultiIndex", C_MultiIndex); ("Float64Index", C_Float64Index);
     ("Int64Index", C_Int64Index); ("RangeIndex", C_RangeIndex);
     ("DatetimeIndex", C_DatetimeIndex); ("Categorical", C_Categorical);
     ("CategoricalIndex", C_CategoricalIndex);
     ("DatetimeArray", C_DatetimeArray); ("NDFrame", C_NDFrame);
     ("BlockManager", C_BlockManager); ("datetime", C_datetime);
     ("date", C_date); ("timedelta", C_timedelta); ("ExtType", C_ExtType)].

(** [globals()[klass]] *)
Definition globals_klass (klass : value) : result pyclass :=
  match klass with
  | VStr s => match globals s with Some c => Ok c | None => Raise (KeyError s) end
  | _ => Raise (KeyError "klass")
  end.

Definition all_block_classes : list block_class :=
  [FloatBlock; IntBlock; BoolBlock; ComplexBlock; ObjectBlock;
   DatetimeBlock; DatetimeTZBlock; TimeDeltaBlock; CategoricalBlock].

(** [getattr(internals, name)], for the block classes. *)
Definition internals_getattr (name : value) : result block_class :=
  match name with
  | VStr s =>
      match assoc s (map (λ k, (block_class_name k, k)) all_block_classes) with
      | Some k => Ok k
      | None => Raise (AttributeError s)
      end
  | _ => Raise (TypeError "getattr(): attribute name must be string")
  end.

Definition digit_Z (d : digit) : Z :=
  match d with
  | d0 => 0 | d1 => 1 | d2 => 2 | d3 => 3 | d4 => 4
  | d5 => 5 | d6 => 6 | d7 => 7 | d8 => 8 | d9 => 9
  end.

(** The integer a decimal text stands for: an optional sign and digits. *)
Definition int_of_text (s : string) : option Z :=
  let '(neg, r) := scan_sign s in
  match scan_digits r with
  | (d :: ds, "") =>
      let n := foldl (λ acc d, 10 * acc + digit_Z d) 0 (d :: ds) in
      Some (if neg then - n else n)
  | _ => None
  end.

(** [int(x)]: integers, and texts of the plain decimal form, are read here;
    the other texts [int] accepts (blanks around the number, underscores
    between digits) and the other arguments are left to the
    surroundings. *)
Definition py_int (v : value) : result Z :=
  match v with
  | VInt n | VNpInt _ n => Ok n
  | VBool b => Ok (if b then 1 else 0)
  | VStr s =>
      match int_of_text s with
      | Some n => Ok n
      | None => int_other E v
      end
  | _ => int_other E v
  end.

Definition as_int (v : value) : result Z :=
  match v with
  | VInt n | VNpInt _ n => Ok n
  | VBool b => Ok (if b then 1 else 0)
  | _ => Raise (TypeError "an integer is required")
  end.

Definition as_opt_freq (v : value) : result (option string) :=
  match v with
  | VNone => Ok None
  | VStr s | VOffset s => Ok (Some s)
  | _ => Raise (TypeError "not a frequency")
  end.

Definition as_opt_tz (v : value) : result (option tzinfo) :=
  match v with
  | VNone => Ok None
  | VStr z => tz ← zone_of_name z; Ok (Some tz)
  | VTz t => Ok (Some t)
  | _ => Raise (TypeError "not a time zone")
  end.

(** The value pandas keeps for a missing instant or period. *)
Definition iNaT : Z := - 2 ^ 63.

(** The offset a frequency argument stands for. *)
Definition as_offset (freq : value) : result (option string) :=
  f ← as_opt_freq freq;
  match f with
  | None => Ok None
  | Some s =>
      match to_offset E s with
      | Some s' => Ok (Some s')
      | None => Raise (ValueError "Invalid frequency")
      end
  end.

(** [Timestamp(value, tz=tz, freq=freq)] on an integer of nanoseconds
    since the epoch: the instant is kept and shown in the zone; the value
    of a missing instant gives NaT. *)
Definition Timestamp_new (val tz freq : value) : result value :=
  match val with
  | VInt n | VNpInt _ n =>
      f ← as_offset freq; z ← as_opt_tz tz;
      if n =? iNaT then Ok VNaT
      else if in_int64 n then Ok (VTimestamp n f z)
      else Raise (OverflowError "Python int too large to convert to C long")
  | _ => Raise (TypeError "Cannot convert input to Timestamp")
  end.

(** [Period(ordinal=ordinal, freq=freq)]: the frequency has to be one of
    periods, and the ordinal of a missing period gives NaT. *)
Definition Period_new (ordinal freq : value) : result value :=
  f ← as_opt_freq freq;
  f ← match f with
      | None => Ok None
      | Some s =>
          match period_freq E s with
          | Some s' => Ok (Some s')
          | None => Raise (ValueError "Invalid frequency")
          end
      end;
  match ordinal with
  | VInt n | VNpInt _ n =>
      match f with
      | Some f => Ok (if n =? iNaT then VNaT else VPeriod n f)
      | None => Raise (ValueError "Must supply freq for ordinal value")
      end
  | _ => Raise (ValueError "Ordinal must be an integer")
  end.

Definition index_class_of (cls : pyclass) : option index_class :=
  match cls with
  | C_Index => Some KIndex
  | C_Int64Index => Some KInt64Index
  | C_UInt64Index => Some KUInt64Index
  | C_Float64Index => Some KFloat64Index
  | C_CategoricalIndex => Some KCategoricalIndex
  | _ => None
  end.

(** [cls(data, dtype=dtype, name=name)] for the plain index classes, on
    data that already has the dtype. *)
Definition Index_new (cls : pyclass) (data : value) (name : value) : result value :=
  match index_class_of cls, array_dtype data with
  | Some k, Some _ => Ok (VIndex k name data)
  | Some _, None => Raise (TypeError "Index(...) must be called with a collection of some kind")
  | None, _ => Raise (TypeError "unexpected arguments for this class")
  end.

(** [cls(start, stop, step, name=name)] *)
Definition RangeIndex_new (cls : pyclass) (start stop step name : value)
  : result value :=
  match cls with
  | C_RangeIndex =>
      a ← as_int start; b ← as_int stop; c ← as_int step;
      if c =? 0 then Raise (ValueError "Step must not be zero")
      else Ok (VRangeIndex name a b c)
  | _ => Raise (TypeError "unexpected arguments for this class")
  end.

Definition rows {A} (n k : nat) (l : list A) : list (list A) :=
  if (k =? 0)%nat then replicate n [] else chunks k l.

(** The items of a numeric buffer as numpy scalars. *)
Definition np_items (dt : dtype) (buf : list byte) : list value :=
  match dt with
  | int64 => map (VNpInt int64) (int64s_of_bytes buf)
  | _ => np_scalars E dt buf
  end.

(** [for x in obj] *)
Definition iter_items (v : value) : result (list value) :=
  match v with
  | VList xs | VTuple xs => Ok xs
  | VObjArray [] _ | VNdarray _ [] _ => Raise (TypeError "iteration over a 0-d array")
  | VObjArray [_] elems => Ok elems
  | VObjArray (n :: rest) elems =>
      Ok (map (VObjArray rest) (rows n (size_of rest) elems))
  | VNdarray dt [_] buf => Ok (np_items dt buf)
  | VNdarray dt (n :: rest) buf =>
      Ok (map (VNdarray dt rest) (rows n (itemsize dt * size_of rest) buf))
  | _ => Raise (TypeError "object is not iterable")
  end.

(** [MultiIndex.from_tuples(data, names=names)] *)
Definition from_tuples (cls : pyclass) (data : list (list value)) (names : value)
  : result value :=
  match cls with
  | C_MultiIndex =>
      match data with
      | [] => Raise (TypeError "Cannot infer number of levels from empty list")
      | t :: _ =>
          names ← match names with
                  | VNone => Ok (replicate (length t) VNone)
                  | _ => list_items names
                  end;
          Ok (VMultiIndex names data)
      end
  | _ => Raise (AttributeError "from_tuples")
  end.

(** The frequency of the first period among the items. *)
Fixpoint first_freq (values : list value) : option string :=
  match values with
  | [] => None
  | VPeriod _ f :: _ => Some f
  | _ :: r => first_freq r
  end.

(** [PeriodIndex(values)] on a list of periods and NaT: the frequency is
    that of the first period, a NaT keeps the ordinal of a missing period,
    and there is no name.  Without a period among the items no frequency
    can be inferred. *)
Definition PeriodIndex_new (values : list value) : result value :=
  match first_freq values with
  | Some f =>
      ords ← mapM_result
               (λ v, match v with
                     | VPeriod n f' =>
                         if String.eqb f f' then Ok n
                         else Raise (ValueError "Input has different freq")
                     | VNaT => Ok iNaT
                     | _ => Raise (TypeError "not a period")
                     end) values;
      Ok (VPeriodIndex VNone f ords)
  | None => Raise (ValueError "freq not specified and cannot be inferred")
  end.

(** The frequency of a new datetime index: none when none is passed, and
    else what pandas makes of the text for these instants; it raises when
    the instants do not conform to the frequency. *)
Definition checked_freq (f : option string) (asi8 : list Z) : result (option string) :=
  match f with
  | None => Ok None
  | Some s => index_freq E s asi8
  end.

(** [cls(data, name=name, freq=freq)] on int64 instants: a frequency that
    is passed is checked against the instants. *)
Definition DatetimeIndex_new (cls : pyclass) (data name freq : value) : result value :=
  match cls, data with
  | C_DatetimeIndex, VNdarray int64 [_] buf =>
      f ← as_opt_freq freq;
      let asi8 := int64s_of_bytes buf in
      f ← checked_freq f asi8;
      Ok (VDatetimeIndex name f None asi8)
  | _, _ => Raise (TypeError "unexpected arguments for this class")
  end.

(** [cls.from_codes(codes=, categories=, ordered=)]; pandas' check of the
    codes against the categories is not part of the model. *)
Definition from_codes (cls : pyclass) (codes categories ordered : value)
  : result value :=
  match cls with
  | C_Categorical =>
      match ordered with
      | VBool b => Ok (VCategorical codes categories b)
      | VNone => Ok (VCategorical codes categories false)
      | _ => Raise (TypeError "'ordered' must either be 'True' or 'False'")
      end
  | _ => Raise (AttributeError "from_codes")
  end.

(** [cls(data, index=index, dtype=dtype, name=name)] on one-dimensional
    data that has the dtype already, or on UTC instants with a zone-aware
    dtype. *)
Definition Series_new (cls : pyclass) (data index : value) (dtype : dtype_like)
    (name : value) : result value :=
  match cls with
  | C_Series =>
      match data, dtype with
      | VNdarray datetime64_ns [_] buf, DatetimeTZDtype tz =>
          Ok (VSeries name index (VDatetimeArray tz (int64s_of_bytes buf)))
      | VNdarray dt [_] _, NpDtype dt' =>
          if bool_decide (dt = dt') then Ok (VSeries name index data)
          else Raise (TypeError "the data needs a cast to the dtype")
      | VObjArray [_] _, NpDtype object_ => Ok (VSeries name index data)
      | VCategorical _ _ _, CategoricalDtype => Ok (VSeries name index data)
      | VNdarray _ _ _, _ | VObjArray _ _, _ =>
          Raise (ValueError "Data must be 1-dimensional, of the dtype")
      | _, _ => Raise (TypeError "unexpected data for a series")
      end
  | _ => Raise (TypeError "unexpected arguments for this class")
  end.

(** [make_block(values=, klass=, placement=, dtype=)] *)
Definition make_block (values : value) (klass : block_class) (placement : value)
  : result value :=
  locs ← match placement with
         | VNdarray int64 [_] buf => Ok (int64s_of_bytes buf)
         | VList xs | VTuple xs => mapM_result as_int xs
         | _ => Raise (TypeError "placement")
         end;
  Ok (VBlock klass locs values).

(** [BlockManager(blocks, axes)] and [cls(manager)] *)
Definition BlockManager_new (blocks : list value) (axes : value) : result value :=
  axes ← list_items axes; Ok (VBlockManager blocks axes).

Definition frame_new (cls : pyclass) (mgr : value) : result value :=
  match cls with
  | C_DataFrame => Ok (VDataFrame mgr)
  | _ => Raise (TypeError "unexpected arguments for this class")
  end.

(** [timedelta] applied to the items of its argument list: days, seconds, microseconds, milliseconds,
    minutes, hours, weeks, normalized. *)
Definition timedelta_new (args : list value) : result value :=
  ns ← mapM_result as_int args;
  if (7 <? length ns)%nat then Raise (TypeError "timedelta: too many arguments")
  else
    let arg i := nth i ns 0 in
    let us := ((((arg 6%nat * 7 + arg 0%nat) * 24 + arg 5%nat) * 60 + arg 4%nat) * 60
               + arg 1%nat) * 1000000 + arg 3%nat * 1000 + arg 2%nat in
    let days := us / 86400000000 in
    let rest := us mod 86400000000 in
    if 999999999 <? Z.abs days then Raise (OverflowError "days out of range")
    else Ok (VTimedelta days (rest / 1000000) (rest mod 1000000)).

(** [ftype(x)] for a float type of numpy: the texts of the plain decimal
    form, [inf] and [nan] are read here. *)
Definition np_float (ft : dtype) (x : value) : result pyfloat :=
  match x with
  | VStr s =>
      match float_of_string s with
      | Ok x => Ok x
      | Raise _ => float_other E ft x
      end
  | _ => float_other E ft x
  end.

(** The integers a fixed-width integer type holds. *)
Definition int_bounds (d : dtype) : option (Z * Z) :=
  match d with
  | int8 => Some (- 2 ^ 7, 2 ^ 7) | int16 => Some (- 2 ^ 15, 2 ^ 15)
  | int32 => Some (- 2 ^ 31, 2 ^ 31) | int64 => Some (- 2 ^ 63, 2 ^ 63)
  | uint8 => Some (0, 2 ^ 8) | uint16 => Some (0, 2 ^ 16)
  | uint32 => Some (0, 2 ^ 32) | uint64 => Some (0, 2 ^ 64)
  | _ => None
  end.

Definition int_fits (d : dtype) (n : Z) : bool :=
  match int_bounds d with
  | Some (lo, hi) => (lo <=? n) && (n <? hi)
  | None => false
  end.

(** [dtype(x)] for a scalar type of numpy.  Read here are the texts that
    [repr] prints for a scalar of the type: for an integer type a decimal
    text of an integer the type holds, for a float type a float text, for a
    complex type a complex text.  What the type makes of any other argument
    is numpy's business. *)
Definition np_type_call (d : dtype) (data : value) : result value :=
  match data with
  | VStr s =>
      match d with
      | float32 | float64 =>
          match float_of_string s with
          | Ok x => Ok (VNpFloat d x)
          | Raise _ => np_scalar_call E d data
          end
      | complex64 | complex128 =>
          match complex_of_string s with
          | Ok (re, im) => Ok (VNpComplex d re im)
          | Raise _ => np_scalar_call E d data
          end
      | _ =>
          match int_of_text s with
          | Some n =>
              if int_fits d n then Ok (VNpInt d n) else np_scalar_call E d data
          | None => np_scalar_call E d data
          end
      end
  | _ => np_scalar_call E d data
  end.

Definition c2f_dict (name : string) : option dtype :=
  assoc name [("complex", float64); ("complex128", float64); ("complex64", float32)].

(** [c2f]: convert strings to complex number instance with specified
    numpy type. *)
Definition c2f (r i ctype_name : value) : result value :=
  match ctype_name with
  | VStr n =>
      match c2f_dict n with
      | Some ftype =>
          match typeDict ctype_name with
          | Some ct =>
              re ← np_float ftype r; im ← np_float ftype i;
              Ok (np_complex_of_parts E ct re im)
          | None => Raise (KeyError n)
          end
      | None => Raise (KeyError n)
      end
  | _ => Raise (KeyError "ctype_name")
  end.

(** [a + b] on strings. *)
Definition str_add (a b : value) : result value :=
  match a, b with
  | VStr a, VStr b => Ok (VStr (a +:+ b))
  | _, _ => Raise (TypeError "can only concatenate str to str")
  end.

(** [complex(s)] *)
Definition complex_new (s : value) : result value :=
  match s with
  | VStr s => '(re, im) ← complex_of_string s; Ok (VComplex re im)
  | _ => Raise (TypeError "complex() argument must be a string or a number")
  end.

Definition parse (s : value) : result pydatetime :=
  match s with
  | VStr s => dateutil_parse E s
  | _ => Raise (TypeError "Parser must be a string or character stream")
  end.

Definition tz_block_error : exn :=
  ValueError "Lost the ability to parse datetime with timezone. Sorry".

(** The inner function [create_block] of the block manager branch. *)
Definition create_block (axes : value) (b : value) : W value :=
  match b with
  | VDict b =>
      bvalues ← liftW (getitem b "values");
      bdtype ← liftW (getitem b "dtype");
      bcompress ← liftW (getitem b "compress");
      arr ← unconvert bvalues (dtype_for bdtype) bcompress;
      liftW (
        shape ← getitem b "shape";
        values ← _safe_reshape arr shape;
        (* locs handles duplicate column names, and should be used instead
           of items; see GH 9618 *)
        placement ← (if dict_has b "locs" then getitem b "locs"
                     else ax ← subscript axes 0;
                          items ← getitem b "items";
                          get_indexer E ax items);
        kname ← getitem b "klass";
        klass ← internals_getattr kname;
        if bool_decide (klass = DatetimeTZBlock) then Raise tz_block_error
        else
          kname ← getitem b "klass";
          klass ← internals_getattr kname;
          make_block values klass placement)
  | _ => liftW (Raise (TypeError "a block record must be a mapping"))
  end.

(** ** [decode]: decoder for deserializing numpy data types *)
Definition decode (obj : value) : W value :=
  match obj with
  | VDict d =>
      let typ := dict_get d "typ" in
      if is_none typ then mret obj
      else ifW str_eq typ "timestamp" then
        liftW (
          freq ← (if dict_has d "freq" then getitem d "freq" else getitem d "offset");
          val ← getitem d "value";
          tz ← getitem d "tz";
          Timestamp_new val tz freq)
      else ifW str_eq typ "nat" then mret VNaT
      else ifW str_eq typ "period" then
        liftW (
          ordinal ← getitem d "ordinal";
          freq ← getitem d "freq";
          Period_new ordinal freq)
      else ifW str_eq typ "index" then
        dt ← liftW (getitem d "dtype");
        let dtype := dtype_for dt in
        data ← liftW (getitem d "data");
        data ← unconvert data dtype (dict_get d "compress");
        liftW (
          klass ← getitem d "klass";
          cls ← globals_klass klass;
          name ← getitem d "name";
          Index_new cls data name)
      else ifW str_eq typ "range_index" then
        liftW (
          klass ← getitem d "klass";
          cls ← globals_klass klass;
          start ← getitem d "start";
          stop ← getitem d "stop";
          step ← getitem d "step";
          name ← getitem d "name";
          RangeIndex_new cls start stop step name)
      else ifW str_eq typ "multi_index" then
        dt ← liftW (getitem d "dtype");
        let dtype := dtype_for dt in
        data ← liftW (getitem d "data");
        data ← unconvert data dtype (dict_get d "compress");
        liftW (
          xs ← iter_items data;
          data ← mapM_result iter_items xs;
          klass ← getitem d "klass";
          cls ← globals_klass klass;
          names ← getitem d "names";
          from_tuples cls data names)
      else ifW str_eq typ "period_index" then
        data ← liftW (getitem d "data");
        data ← unconvert data (NpType int64) (dict_get d "compress");
        liftW (
          name ← getitem d "name";
          freq ← getitem d "freq";
          if _is_pandas_legacy_version E then
            (* legacy *)
            klass ← getitem d "klass";
            _ ← globals_klass klass;
            legacy_PeriodIndex E data name freq
          else
            if is_none freq then
              Raise (ValueError "freq is not specified and cannot be inferred")
            else
              xs ← iter_items data;
              values ← mapM_result (λ x, Period_new x freq) xs;
              PeriodIndex_new values)
      else ifW str_eq typ "datetime_index" then
        data ← liftW (getitem d "data");
        data ← unconvert data (NpType int64) (dict_get d "compress");
        liftW (
          name ← getitem d "name";
          freq ← getitem d "freq";
          klass ← getitem d "klass";
          cls ← globals_klass klass;
          result ← DatetimeIndex_new cls data name freq;
          tz ← getitem d "tz";
          (* reverse tz conversion *)
          if negb (is_none tz) then
            localized ← tz_localize_UTC result;
            tz_convert localized tz
          else Ok result)
      else ifW str_eq typ "category" then
        liftW (
          klass ← getitem d "klass";
          cls ← globals_klass klass;
          codes ← getitem d "codes";
          categories ← getitem d "categories";
          ordered ← getitem d "ordered";
          from_codes cls codes categories ordered)
      else ifW str_eq typ "series" then
        dt ← liftW (getitem d "dtype");
        let dtype := dtype_for dt in
        pd_dtype ← liftW (pandas_dtype dtype);
        index ← liftW (getitem d "index");
        cls ← liftW (klass ← getitem d "klass"; globals_klass klass);
        data ← liftW (getitem d "data");
        compress ← liftW (getitem d "compress");
        data ← unconvert data dtype compress;
        liftW (
          name ← getitem d "name";
          Series_new cls data index pd_dtype name)
      else ifW str_eq typ "block_manager" then
        axes ← liftW (getitem d "axes");
        bs ← liftW (getitem d "blocks");
        bs ← liftW (iter_items bs);
        blocks ← mapM_W (create_block axes) bs;
        liftW (
          klass ← getitem d "klass";
          cls ← globals_klass klass;
          mgr ← BlockManager_new blocks axes;
          frame_new cls mgr)
      else ifW str_eq typ "datetime" then
        liftW (data ← getitem d "data"; dt ← parse data; Ok (VDatetime dt))
      else ifW str_eq typ "datetime64" then
        liftW (data ← getitem d "data"; dt ← parse data;
               Ok (datetime64_of_datetime E dt))
      else ifW str_eq typ "date" then
        liftW (data ← getitem d "data"; dt ← parse data; Ok (VDate (on_date dt)))
      else ifW str_eq typ "timedelta" then
        liftW (data ← getitem d "data"; args ← iter_items data; timedelta_new args)
      else ifW str_eq typ "timedelta64" then
        liftW (data ← getitem d "data"; n ← py_int data;
               Ok (VTimedelta64 n "generic"))
      else ifW str_eq typ "block_index" then
        liftW (
          klass ← getitem d "klass";
          _ ← globals_klass klass;
          _ ← getitem d "length"; _ ← getitem d "blocs"; _ ← getitem d "blengths";
          Raise (TypeError "unexpected arguments for this class"))
      else ifW str_eq typ "int_index" then
        liftW (
          klass ← getitem d "klass";
          _ ← globals_klass klass;
          _ ← getitem d "length"; _ ← getitem d "indices";
          Raise (TypeError "unexpected arguments for this class"))
      else ifW str_eq typ "ndarray" then
        data ← liftW (getitem d "data");
        dtype ← liftW (
          dt ← getitem d "dtype";
          match typeDict dt with
          | Some t => Ok (NpType t)
          | None => Raise (KeyError (match dt with VStr s => s | _ => "dtype" end))
          end);
        arr ← unconvert data dtype (dict_get d "compress");
        liftW (shape ← getitem d "shape"; reshape arr shape)
      else ifW str_eq typ "np_scalar" then
        ifW str_eq (dict_get d "sub_typ") "np_complex" then
          liftW (
            re ← getitem d "real"; im ← getitem d "imag"; dt ← getitem d "dtype";
            c2f re im dt)
        else
          liftW (
            dt ← getitem d "dtype";
            let dtype := dtype_for dt in
            match (data ← getitem d "data";
                   match dtype with
                   | NpType t => np_type_call t data
                   | _ => Raise (TypeError "object is not callable")
                   end) with
            | Ok v => Ok v
            | Raise _ =>
                (* except: return dtype.type(obj["data"]) *)
                match dtype with
                | NpDtype t => data ← getitem d "data"; np_type_call t data
                | _ => Raise (AttributeError "type")
                end
            end)
      else ifW str_eq typ "np_complex" then
        liftW (
          re ← getitem d "real";
          s ← str_add re (VStr "+");
          im ← getitem d "imag";
          s ← str_add s im;
          s ← str_add s (VStr "j");
          complex_new s)
      else mret obj
  | _ => liftW (Raise (AttributeError "get"))
  end.

End Packers.

(** ** Concrete surroundings, for evaluating the model *)

(** A stand-in for zlib that stores the data behind the header byte [0x78].
    With [caching] set the decompressor hands out an object it also keeps;
    otherwise only the interned objects of at most one byte are shared. *)
Definition stored_compress (b : list byte) : list byte := Byte.x78 :: b.
Definition stored_decompress (caching : bool) (b : list byte) : result pybytes :=
  match b with
  | Byte.x78 :: r => Ok (mkBytes r (caching || (length r <=? 1)%nat))
  | _ => Raise (LibraryError "incorrect header check")
  end.

(** A few frequencies and zones stand for the tables of pandas and of the
    zone database: the fixed frequencies with their step in nanoseconds,
    the other names, and three zones. *)
Definition stored_steps : list (string * Z) :=
  [("D", 86400000000000); ("H", 3600000000000); ("T", 60000000000);
   ("S", 1000000000)].

Definition stored_offset (s : string) : option string :=
  if existsb (String.eqb s)
       ["D"; "H"; "T"; "S"; "B"; "M"; "MS"; "A-DEC"; "Q-DEC"; "W-SUN"]
  then Some s else None.

Definition stored_period_freq (s : string) : option string :=
  if existsb (String.eqb s) ["D"; "H"; "T"; "S"; "B"; "M"; "A-DEC"; "Q-DEC"; "W-SUN"]
  then Some s else None.

Fixpoint evenly_spaced (step : Z) (l : list Z) : bool :=
  match l with
  | a :: r =>
      match r with
      | b :: _ => (b - a =? step) && evenly_spaced step r
      | [] => true
      end
  | [] => true
  end.

Definition stored_index_freq (s : string) (asi8 : list Z) : result (option string) :=
  match assoc s stored_steps with
  | Some step =>
      if evenly_spaced step asi8 then Ok (Some s)
      else Raise (ValueError "the values do not conform to the passed frequency")
  | None => Raise (ValueError "Invalid frequency")
  end.

Definition stored_timezone (s : string) : option tzinfo :=
  if existsb (String.eqb s) ["Europe/Berlin"; "US/Eastern"; "Asia/Tokyo"]
  then Some (TzNamed s) else None.

(** An array or a series compared with a string has no truth value. *)
Definition stored_str_eq (v : value) (s : string) : result bool :=
  match v with
  | VNdarray _ _ _ | VObjArray _ _ | VSeries _ _ _ | VDataFrame _ =>
      Raise (ValueError "The truth value is ambiguous")
  | _ => Ok false
  end.

Definition stored_env (caching legacy : bool) : Env :=
  {| zlib_installed := true;
     zlib_compress := stored_compress;
     zlib_decompress := stored_decompress caching;
     blosc_installed := true;
     blosc_compress := λ b _, stored_compress b;
     blosc_decompress := stored_decompress caching;
     _is_pandas_legacy_version := legacy;
     legacy_PeriodIndex := λ _ _ _, Raise (TypeError "legacy pandas is not installed");
     is_consolidated := λ _, true;
     consolidate := λ mgr, mgr;
     get_indexer := λ _ _, Raise (TypeError "get_indexer");
     np_tolist := λ _ _, [];
     np_scalars := λ _ _, [];
     date_isoformat := λ _, "";
     datetime_isoformat := λ _, "";
     datetime64_str := λ _ _, "";
     dateutil_parse := λ _, Raise (ValueError "Unknown string format");
     datetime64_of_datetime := λ _, VNone;
     np_complex_of_parts := λ dt re im, VNpComplex dt re im;
     lib_str_eq := stored_str_eq;
     np_array_nested := λ _, Raise (ValueError "setting an array element with a sequence");
     typeDict_other := λ k, match k with
                            | VStr "double" => Some float64
                            | VStr "i8" => Some int64
                            | _ => None
                            end;
     np_scalar_call := λ _ _, Raise (ValueError "invalid literal");
     int_other := λ _, Raise (ValueError "invalid literal for int()");
     float_other := λ _ _, Raise (ValueError "could not convert string to float");
     to_offset := stored_offset;
     period_freq := stored_period_freq;
     index_freq := stored_index_freq;
     timezone := stored_timezone |}.

(** * Properties *)

(** The compression choices [to_msgpack] documents. *)
Inductive choice : Type := NoCompression | Zlib | Blosc.

Definition choice_value (c : choice) : value :=
  match c with
  | NoCompression => VNone
  | Zlib => VStr "zlib"
  | Blosc => VStr "blosc"
  end.

(** A backend is usable when it is installed and its decompressor undoes its
    compressor. *)
Definition backend_ok (E : Env) (c : choice) : Prop :=
  match c with
  | NoCompression => True
  | Zlib =>
      zlib_installed E = true
      ∧ ∀ b, contents <$> zlib_decompress E (zlib_compress E b) = Ok b
  | Blosc =>
      blosc_installed E = true
      ∧ ∀ b ts, contents <$> blosc_decompress E (blosc_compress E b ts) = Ok b
  end.

Lemma stored_env_backend_ok caching legacy c : backend_ok (stored_env caching legacy) c.
Proof. destruct c; simpl; auto. Qed.

Section ConverterFacts.

Context (E : Env).

Lemma itemsize_pos dt : (itemsize dt ≠ 0)%nat.
Proof. destruct dt; simpl; lia. Qed.

Lemma frombuffer_ok dt buf n :
  dt ≠ object_ →
  length buf = (itemsize dt * n)%nat →
  frombuffer buf dt = Ok (VNdarray dt [n] buf).
Proof.
  intros Hdt Hlen.
  assert (Hmod : (length buf mod itemsize dt =? 0)%nat = true).
  { rewrite Hlen, Nat.mul_comm, Nat.Div0.mod_mul. reflexivity. }
  assert (Hdiv : (length buf / itemsize dt)%nat = n).
  { rewrite Hlen, Nat.mul_comm. apply Nat.div_mul, itemsize_pos. }
  unfold frombuffer. rewrite Hmod, Hdiv. destruct dt; congruence.
Qed.

Lemma is_object_dtype_np dt : is_object_dtype E (NpDtype dt) = bool_decide (dt = object_).
Proof. destruct dt; reflexivity. Qed.

Lemma object_dtype_not_categorical d :
  is_object_dtype E d = true → is_categorical_dtype_like d = false.
Proof.
  destruct d as [| | | | |s| |]; simpl; try done.
  unfold is_object_dtype, pandas_dtype.
  destruct (String.eqb s "category"); done.
Qed.

(** On an object dtype [unconvert] goes straight to [np.array]. *)
Lemma unconvert_object d values compress :
  is_object_dtype E d = true →
  unconvert E values d compress
  = liftW (np_array_object E
             match values with VExtType 0 data => VBytes data | _ => values end).
Proof.
  intros Hobj. unfold unconvert.
  rewrite (object_dtype_not_categorical _ Hobj), Hobj. reflexivity.
Qed.

Lemma convert_object c shape elems :
  convert E c (VObjArray shape elems) = Ok (VList elems).
Proof. reflexivity. Qed.

(** What [convert] makes of a fixed-width array. *)
Definition payload (c : choice) (dt : dtype) (buf : list byte) : list byte :=
  match c with
  | NoCompression => buf
  | Zlib => zlib_compress E buf
  | Blosc => blosc_compress E buf (itemsize dt)
  end.

Lemma convert_numeric c dt shape buf :
  dt ≠ object_ →
  backend_ok E c →
  convert E (choice_value c) (VNdarray dt shape buf)
  = Ok (VExtType 0 (payload c dt buf)).
Proof.
  intros Hdt Hc. unfold convert. simpl array_dtype. cbn beta iota.
  change (Ok (NpDtype dt) ≫= ?f) with (f (NpDtype dt)). cbn beta.
  replace (is_categorical_dtype (VNdarray dt shape buf)) with false by reflexivity.
  rewrite is_object_dtype_np, bool_decide_eq_false_2 by done.
  assert (Hview : (if needs_i8_conversion (NpDtype dt)
                   then view_i8 (VNdarray dt shape buf)
                   else Ok (VNdarray dt shape buf))
                  = Ok (VNdarray (if is_datetimelike dt then int64 else dt) shape buf)).
  { destruct dt; reflexivity. }
  rewrite Hview. clear Hview.
  assert (Hno : is_np_object (NpDtype dt) = false) by (destruct dt; simpl; congruence).
  destruct c; simpl in *.
  - reflexivity.
  - destruct Hc as [Hi _]. unfold _check_zlib. rewrite Hi, Hno. reflexivity.
  - destruct Hc as [Hi _]. unfold _check_blosc. rewrite Hi, Hno. reflexivity.
Qed.

(** The warnings [unconvert] gives for a decompressed object. *)
Definition copy_warnings (d : pybytes) : list warning :=
  if shared d && (1 <? length (contents d))%nat then [copy_warning] else [].

Lemma unconvert_moved dt (d : pybytes) :
  match _move_into_mutable_buffer d with
  | Moved buf => liftW (frombuffer buf dt)
  | BadMove v =>
      _ ← (if (1 <? length (contents v))%nat then warn copy_warning else mret tt);
      liftW (frombuffer (contents v) dt)
  end
  = mkW (copy_warnings d) (frombuffer (contents d) dt).
Proof.
  unfold _move_into_mutable_buffer, copy_warnings.
  destruct (shared d); simpl; [|reflexivity].
  destruct (1 <? length (contents d))%nat; reflexivity.
Qed.

(** [unconvert] of a zlib payload, once zlib's answer is known. *)
Lemma unconvert_zlib dt data d :
  dt ≠ object_ →
  zlib_installed E = true →
  zlib_decompress E data = Ok d →
  unconvert E (VExtType 0 data) (NpDtype dt) (VStr "zlib")
  = mkW (copy_warnings d) (frombuffer (contents d) dt).
Proof.
  intros Hdt Hi Hd. unfold unconvert.
  rewrite is_object_dtype_np, bool_decide_eq_false_2 by done.
  cbn -[frombuffer _move_into_mutable_buffer].
  unfold _check_zlib. rewrite Hi.
  cbn -[frombuffer _move_into_mutable_buffer].
  rewrite Hd.
  cbn -[frombuffer _move_into_mutable_buffer].
  rewrite unconvert_moved. reflexivity.
Qed.

Lemma unconvert_blosc dt data d :
  dt ≠ object_ →
  blosc_installed E = true →
  blosc_decompress E data = Ok d →
  unconvert E (VExtType 0 data) (NpDtype dt) (VStr "blosc")
  = mkW (copy_warnings d) (frombuffer (contents d) dt).
Proof.
  intros Hdt Hi Hd. unfold unconvert.
  rewrite is_object_dtype_np, bool_decide_eq_false_2 by done.
  cbn -[frombuffer _move_into_mutable_buffer].
  unfold _check_blosc. rewrite Hi.
  cbn -[frombuffer _move_into_mutable_buffer].
  rewrite Hd.
  cbn -[frombuffer _move_into_mutable_buffer].
  rewrite unconvert_moved. reflexivity.
Qed.

Lemma unconvert_raw dt data :
  dt ≠ object_ →
  unconvert E (VExtType 0 data) (NpDtype dt) VNone = liftW (frombuffer data dt).
Proof.
  intros Hdt. unfold unconvert.
  rewrite is_object_dtype_np, bool_decide_eq_false_2 by done.
  cbn -[frombuffer]. destruct (frombuffer data dt); reflexivity.
Qed.

(** [unconvert] undoes [payload]. *)
Lemma unconvert_payload c dt buf n :
  dt ≠ object_ →
  backend_ok E c →
  length buf = (itemsize dt * n)%nat →
  outcome (unconvert E (VExtType 0 (payload c dt buf)) (NpDtype dt) (choice_value c))
  = Ok (VNdarray dt [n] buf).
Proof.
  intros Hdt Hc Hlen. destruct c; simpl in *.
  - rewrite unconvert_raw by done. simpl. by apply frombuffer_ok.
  - destruct Hc as [Hi Hinv]. specialize (Hinv buf).
    destruct (zlib_decompress E (zlib_compress E buf)) as [d|] eqn:Hd; [|done].
    simpl in Hinv. injection Hinv as Hinv.
    rewrite (unconvert_zlib _ _ d) by done. simpl. rewrite Hinv.
    by apply frombuffer_ok.
  - destruct Hc as [Hi Hinv]. specialize (Hinv buf (itemsize dt)).
    destruct (blosc_decompress E _) as [d|] eqn:Hd; [|done].
    simpl in Hinv. injection Hinv as Hinv.
    rewrite (unconvert_blosc _ _ d) by done. simpl. rewrite Hinv.
    by apply frombuffer_ok.
Qed.

End ConverterFacts.


(** ** Evaluating the dispatch *)

Arguments record : simpl never.

Ltac eval_isinstance :=
  repeat match goal with
    | |- context [isinstance ?v ?c] =>
        let b := eval vm_compute in (isinstance v c) in
        change (isinstance v c) with b
    | |- context [issubclass ?t ?c] =>
        let b := eval vm_compute in (issubclass t c) in
        change (issubclass t c) with b
    | |- context [isinstance_any ?v ?cs] =>
        let b := eval vm_compute in (isinstance_any v cs) in
        change (isinstance_any v cs) with b
    end;
  cbv beta iota.

(** [encode] followed by [decode], with the compression choice that was
    current while encoding. *)
Definition roundtrip (E : Env) (compressor : value) (obj : value) : W value :=
  match encode E compressor obj with
  | Ok r => decode E r
  | Raise e => liftW (Raise e)
  end.

(** ** The record of a ranged index *)

Definition range_index_keys : gset string :=
  {[ "typ"; "klass"; "name"; "start"; "stop"; "step" ]}.

Lemma encode_RangeIndex E c name start stop step :
  encode E c (VRangeIndex name start stop step)
  = Ok (record [("typ", VStr "range_index"); ("klass", VStr "RangeIndex");
                ("name", name); ("start", VInt start); ("stop", VInt stop);
                ("step", VInt step)]).
Proof. unfold encode. eval_isinstance. reflexivity. Qed.

Lemma isinstance_RangeIndex_inv obj :
  isinstance obj C_RangeIndex = true →
  ∃ name start stop step, obj = VRangeIndex name start stop step.
Proof.
  intros H.
  destruct obj;
    lazymatch goal with
    | |- ∃ _ _ _ _, VRangeIndex _ _ _ _ = _ => by repeat eexists
    | _ => exfalso; revert H
    end;
    try (vm_compute; discriminate);
    match goal with
    | k : index_class |- _ => destruct k
    | d : dtype |- _ => destruct d
    | k : block_class |- _ => destruct k
    end; vm_compute; discriminate.
Qed.

(** C9. Encoding a ranged index never materializes a data payload: the
    tagged record holds the tag, the class name, the name and the three
    integers start, stop and step, and nothing else; in particular it has no
    [data] and no [compress] field.  This holds for every instance of
    [RangeIndex] and under every compression choice. *)
Theorem range_index_record_is_compact (E : Env) (compressor obj : value) :
  isinstance obj C_RangeIndex = true →
  ∃ (r : gmap string value) (start stop step : Z),
    encode E compressor obj = Ok (VDict r)
    ∧ dom r = range_index_keys
    ∧ r !! "typ" = Some (VStr "range_index")
    ∧ r !! "start" = Some (VInt start)
    ∧ r !! "stop" = Some (VInt stop)
    ∧ r !! "step" = Some (VInt step)
    ∧ getattr obj "start" = Ok (VInt start)
    ∧ getattr obj "stop" = Ok (VInt stop)
    ∧ getattr obj "step" = Ok (VInt step)
    ∧ r !! "data" = None
    ∧ r !! "compress" = None.
Proof.
  intros Hobj.
  destruct (isinstance_RangeIndex_inv obj Hobj) as (name & start & stop & step & ->).
  eexists _, start, stop, step. rewrite encode_RangeIndex.
  split; [reflexivity|]. split.
  - unfold range_index_keys. rewrite dom_list_to_map_L. set_solver.
  - repeat split; reflexivity.
Qed.

Lemma range_index_record_is_compact_witness :
  ∃ (r : gmap string value) (start stop step : Z),
    encode (stored_env false false) (VStr "zlib") (VRangeIndex (VStr "row") 0 1000000 1)
    = Ok (VDict r)
    ∧ dom r = range_index_keys
    ∧ r !! "typ" = Some (VStr "range_index")
    ∧ r !! "start" = Some (VInt start)
    ∧ r !! "stop" = Some (VInt stop)
    ∧ r !! "step" = Some (VInt step)
    ∧ getattr (VRangeIndex (VStr "row") 0 1000000 1) "start" = Ok (VInt start)
    ∧ getattr (VRangeIndex (VStr "row") 0 1000000 1) "stop" = Ok (VInt stop)
    ∧ getattr (VRangeIndex (VStr "row") 0 1000000 1) "step" = Ok (VInt step)
    ∧ r !! "data" = None
    ∧ r !! "compress" = None.
Proof.
  apply (range_index_record_is_compact (stored_env false false) (VStr "zlib")
           (VRangeIndex (VStr "row") 0 1000000 1)).
  reflexivity.
Defined.

(** ** Object arrays *)

Lemma common_shape_nil (shapes : list (list nat)) :
  Forall (λ s, s = []) shapes → common_shape shapes = [].
Proof.
  destruct 1 as [|s r -> _]; [reflexivity|]. simpl.
  induction r as [|y r IH]; [reflexivity|]. simpl. exact IH.
Qed.

Lemma np_item_no_seq x : np_item x = true → seq_items x = None.
Proof. by destruct x. Qed.

Lemma discover_shape_scalar fuel x : seq_items x = None → discover_shape fuel x = [].
Proof. intros H. destruct fuel; simpl; [reflexivity|]. by rewrite H. Qed.

Lemma plain_nesting_item fuel x : np_item x = true → plain_nesting fuel x = true.
Proof.
  intros H. destruct fuel; simpl; [done|]. by rewrite (np_item_no_seq x H).
Qed.

Lemma forallb_items (f : value → bool) (elems : list value) :
  (∀ x, np_item x = true → f x = true) →
  forallb np_item elems = true → forallb f elems = true.
Proof.
  intros Hf. induction elems as [|x elems IH]; [done|]. simpl.
  intros [Hx Hr]%andb_prop. by rewrite (Hf x Hx), IH.
Qed.

Lemma flat_map_singleton {A} (l : list A) : flat_map (λ x, [x]) l = l.
Proof. induction l as [|x l IH]; simpl; [reflexivity|]. by rewrite IH. Qed.

(** [np.array] on a list of items gives the one-dimensional array of the
    items. *)
Lemma np_array_object_scalars E (elems : list value) :
  forallb np_item elems = true →
  np_array_object E (VList elems) = Ok (VObjArray [length elems] elems).
Proof.
  intros Hs. unfold np_array_object, NPY_MAXDIMS.
  assert (Hplain : plain_nesting 32 (VList elems) = true).
  { change (forallb (plain_nesting 31) elems = true).
    apply forallb_items; [|done]. intros x. apply plain_nesting_item. }
  rewrite Hplain.
  assert (Hshape : discover_shape 32 (VList elems) = [length elems]).
  { change (discover_shape 32 (VList elems))
      with (length elems :: common_shape (map (discover_shape 31) elems)).
    f_equal. apply common_shape_nil, Forall_map.
    clear Hplain. induction elems as [|x elems IH]; [done|].
    simpl in Hs. apply andb_prop in Hs as [Hx Hr].
    constructor; [|by apply IH].
    by apply discover_shape_scalar, np_item_no_seq. }
  rewrite Hshape. simpl. do 2 f_equal. apply flat_map_singleton.
Qed.

(** C4. For every object-dtype array, [convert] returns the explicit ordered
    element sequence, a list and not an extension payload, whatever the
    compression choice and whether or not a backend is installed; and
    [unconvert] on an object dtype rebuilds the array from an element
    sequence with [np.array] alone: the one-dimensional object array of the
    items comes back, no backend is consulted, no warning is given and
    nothing is read as bytes.  The items are objects that numpy stores as
    they are; sequences and arrays among them are nested by [np.array], and
    for every element sequence what [unconvert] returns is what [np.array]
    makes of it. *)
Theorem object_arrays_travel_as_lists (E : Env) (compressor compress : value)
    (shape : list nat) (elems items : list value) (d : dtype_like) :
  is_object_dtype E d = true →
  forallb np_item items = true →
  convert E compressor (VObjArray shape elems) = Ok (VList elems)
  ∧ unconvert E (VList items) d compress
    = mkW [] (Ok (VObjArray [length items] items))
  ∧ (∀ values : list value,
       unconvert E (VList values) d compress
       = mkW [] (np_array_object E (VList values))).
Proof.
  intros Hd Hitems. split; [|split].
  - apply convert_object.
  - rewrite unconvert_object by done. by rewrite np_array_object_scalars.
  - intros values. by rewrite unconvert_object.
Qed.

Lemma object_arrays_travel_as_lists_witness :
  convert (stored_env true false) (VStr "blosc")
    (VObjArray [2%nat; 1%nat] [VStr "a"; VNone])
  = Ok (VList [VStr "a"; VNone])
  ∧ unconvert (stored_env true false) (VList [VStr "a"; VNone; VInt 3])
      (NpDtype object_) (VStr "blosc")
    = mkW [] (Ok (VObjArray [3%nat] [VStr "a"; VNone; VInt 3]))
  ∧ (∀ values : list value,
       unconvert (stored_env true false) (VList values) (NpDtype object_)
         (VStr "blosc")
       = mkW [] (np_array_object (stored_env true false) (VList values))).
Proof.
  apply (object_arrays_travel_as_lists (stored_env true false) (VStr "blosc")
           (VStr "blosc") [2%nat; 1%nat] [VStr "a"; VNone]
           [VStr "a"; VNone; VInt 3] (NpDtype object_));
    reflexivity.
Defined.

(** ** The copy after a failed move *)

(** The decompressor [unconvert] picks for a compression choice. *)
Definition decompressor_of (E : Env) (c : choice)
  : option (list byte → result pybytes) :=
  match c with
  | NoCompression => None
  | Zlib => if zlib_installed E then Some (zlib_decompress E) else None
  | Blosc => if blosc_installed E then Some (blosc_decompress E) else None
  end.

(** The same surroundings with decompressors that hand out objects nobody
    else holds. *)
Definition unshare (d : pybytes) : pybytes := mkBytes (contents d) false.
Definition with_fresh_results (E : Env) : Env :=
  {| zlib_installed := zlib_installed E;
     zlib_compress := zlib_compress E;
     zlib_decompress := λ b, unshare <$> zlib_decompress E b;
     blosc_installed := blosc_installed E;
     blosc_compress := blosc_compress E;
     blosc_decompress := λ b, unshare <$> blosc_decompress E b;
     _is_pandas_legacy_version := _is_pandas_legacy_version E;
     legacy_PeriodIndex := legacy_PeriodIndex E;
     is_consolidated := is_consolidated E;
     consolidate := consolidate E;
     get_indexer := get_indexer E;
     np_tolist := np_tolist E;
     np_scalars := np_scalars E;
     date_isoformat := date_isoformat E;
     datetime_isoformat := datetime_isoformat E;
     datetime64_str := datetime64_str E;
     dateutil_parse := dateutil_parse E;
     datetime64_of_datetime := datetime64_of_datetime E;
     np_complex_of_parts := np_complex_of_parts E;
     lib_str_eq := lib_str_eq E;
     np_array_nested := np_array_nested E;
     typeDict_other := typeDict_other E;
     np_scalar_call := np_scalar_call E;
     int_other := int_other E;
     float_other := float_other E;
     to_offset := to_offset E;
     period_freq := period_freq E;
     index_freq := index_freq E;
     timezone := timezone E |}.

Lemma unconvert_decompressed E c f dt data d :
  dt ≠ object_ →
  decompressor_of E c = Some f →
  f data = Ok d →
  unconvert E (VExtType 0 data) (NpDtype dt) (choice_value c)
  = mkW (copy_warnings d) (frombuffer (contents d) dt).
Proof.
  intros Hdt Hf Hd. destruct c; simpl in Hf; [done| |].
  - destruct (zlib_installed E) eqn:Hi; [|done]. injection Hf as <-.
    by apply unconvert_zlib.
  - destruct (blosc_installed E) eqn:Hi; [|done]. injection Hf as <-.
    by apply unconvert_blosc.
Qed.

(** The warnings of a copy: one for data longer than one byte, none for the
    empty string and for a single byte. *)
Definition forced_copy_warnings (data : list byte) : list warning :=
  if (1 <? length data)%nat then [copy_warning] else [].

(** C8, as the code has it.  When the decompressor returned an object that
    is held elsewhere, so that the move into a mutable buffer fails and the
    bytes are copied, [unconvert] gives exactly one performance warning when
    the decompressed data is longer than one byte and none when it is at
    most one byte long; either way it returns the array [np.frombuffer]
    makes of the decompressed bytes, and with a decompressor whose results
    can be moved the same value comes back without a warning. *)
Theorem forced_copy_warns_and_keeps_data (E : Env) (c : choice)
    (f : list byte → result pybytes) (dt : dtype) (data : list byte) (d : pybytes) :
  dt ≠ object_ →
  decompressor_of E c = Some f →
  f data = Ok d →
  _move_into_mutable_buffer d = BadMove d →
  unconvert E (VExtType 0 data) (NpDtype dt) (choice_value c)
  = mkW (forced_copy_warnings (contents d)) (frombuffer (contents d) dt)
  ∧ unconvert (with_fresh_results E) (VExtType 0 data) (NpDtype dt) (choice_value c)
    = mkW [] (frombuffer (contents d) dt).
Proof.
  intros Hdt Hf Hd Hmove. split.
  - rewrite (unconvert_decompressed E c f dt data d) by done.
    unfold copy_warnings, forced_copy_warnings.
    unfold _move_into_mutable_buffer in Hmove.
    by destruct (shared d).
  - rewrite (unconvert_decompressed (with_fresh_results E) c
               (λ b, unshare <$> f b) dt data (unshare d)); [done|done| |].
    + destruct c; simpl in *; [done| |].
      * destruct (zlib_installed E); [|done]. by injection Hf as <-.
      * destruct (blosc_installed E); [|done]. by injection Hf as <-.
    + by rewrite Hd.
Qed.

Lemma forced_copy_warns_and_keeps_data_witness :
  (unconvert (stored_env true false)
     (VExtType 0 (stored_compress [Byte.x01; Byte.x00; Byte.x02; Byte.x00]))
     (NpDtype int16) (VStr "zlib")
   = mkW [copy_warning]
       (Ok (VNdarray int16 [2%nat] [Byte.x01; Byte.x00; Byte.x02; Byte.x00]))
   ∧ unconvert (with_fresh_results (stored_env true false))
       (VExtType 0 (stored_compress [Byte.x01; Byte.x00; Byte.x02; Byte.x00]))
       (NpDtype int16) (VStr "zlib")
     = mkW [] (Ok (VNdarray int16 [2%nat] [Byte.x01; Byte.x00; Byte.x02; Byte.x00])))
  ∧ (unconvert (stored_env true false) (VExtType 0 (stored_compress [Byte.x2a]))
       (NpDtype int8) (VStr "blosc")
     = mkW [] (Ok (VNdarray int8 [1%nat] [Byte.x2a]))
     ∧ unconvert (with_fresh_results (stored_env true false))
         (VExtType 0 (stored_compress [Byte.x2a])) (NpDtype int8) (VStr "blosc")
       = mkW [] (Ok (VNdarray int8 [1%nat] [Byte.x2a]))).
Proof.
  split.
  - apply (forced_copy_warns_and_keeps_data (stored_env true false) Zlib
             (stored_decompress true) int16
             (stored_compress [Byte.x01; Byte.x00; Byte.x02; Byte.x00])
             (mkBytes [Byte.x01; Byte.x00; Byte.x02; Byte.x00] true));
      [discriminate | reflexivity | reflexivity | reflexivity].
  - apply (forced_copy_warns_and_keeps_data (stored_env true false) Blosc
             (stored_decompress true) int8 (stored_compress [Byte.x2a])
             (mkBytes [Byte.x2a] true));
      [discriminate | reflexivity | reflexivity | reflexivity].
Defined.

(** C8 as stated fails: a copy forced by a caching decompressor goes
    unannounced when the decompressed data is a single byte.  The move fails,
    the byte is copied into the array, and no warning is given. *)
Lemma single_byte_copy_gives_no_warning :
  zlib_decompress (stored_env true false) (stored_compress [Byte.x2a])
  = Ok (mkBytes [Byte.x2a] true)
  ∧ _move_into_mutable_buffer (mkBytes [Byte.x2a] true)
    = BadMove (mkBytes [Byte.x2a] true)
  ∧ unconvert (stored_env true false) (VExtType 0 (stored_compress [Byte.x2a]))
      (NpDtype int8) (VStr "zlib")
    = mkW [] (Ok (VNdarray int8 [1%nat] [Byte.x2a])).
Proof. repeat split; reflexivity. Qed.

(** ** [unconvert] after [convert] *)

(** C2 as stated fails on object arrays whose items are sequences: the list
    [convert] returns is nested by [np.array] into a further dimension, so a
    one-dimensional array of two pairs comes back as a 2 x 2 array. *)
Lemma nested_object_array_changes_shape :
  convert (stored_env false false) VNone
    (VObjArray [2%nat] [VTuple [VInt 1; VInt 2]; VTuple [VInt 3; VInt 4]])
  = Ok (VList [VTuple [VInt 1; VInt 2]; VTuple [VInt 3; VInt 4]])
  ∧ outcome (unconvert (stored_env false false)
               (VList [VTuple [VInt 1; VInt 2]; VTuple [VInt 3; VInt 4]])
               (NpDtype object_) VNone)
    = Ok (VObjArray [2%nat; 2%nat] [VInt 1; VInt 2; VInt 3; VInt 4])
  ∧ VObjArray [2%nat; 2%nat] [VInt 1; VInt 2; VInt 3; VInt 4]
    ≠ VObjArray [2%nat] [VTuple [VInt 1; VInt 2]; VTuple [VInt 3; VInt 4]].
Proof. repeat split; try reflexivity. discriminate. Qed.

(** C2, as the code has it.  For the no-compression case and for each
    installed backend whose decompressor undoes its compressor,
    [unconvert(convert(array, choice), dtype, choice)] returns the raveled
    array: for a fixed-width dtype (integer, float, datetime-like) the same
    dtype and the same bytes, the payload being an extension value of code
    0; for the object dtype, when every item is an object that numpy stores
    as it is (no sequence, no array, no container of pandas), the same
    items, the payload being the plain list of the items, which no
    compressor sees.  A one-dimensional array is its own ravel. *)
Theorem convert_unconvert_identity (E : Env) (c : choice) :
  backend_ok E c →
  (∀ dt shape buf,
     dt ≠ object_ →
     length buf = (itemsize dt * size_of shape)%nat →
     ∃ p, convert E (choice_value c) (VNdarray dt shape buf) = Ok (VExtType 0 p)
          ∧ outcome (unconvert E (VExtType 0 p) (NpDtype dt) (choice_value c))
            = ravel (VNdarray dt shape buf))
  ∧ (∀ shape elems,
       forallb np_item elems = true →
       length elems = size_of shape →
       convert E (choice_value c) (VObjArray shape elems) = Ok (VList elems)
       ∧ outcome (unconvert E (VList elems) (NpDtype object_) (choice_value c))
         = ravel (VObjArray shape elems))
  ∧ (∀ dt n buf, ravel (VNdarray dt [n] buf) = Ok (VNdarray dt [n] buf))
  ∧ (∀ n elems, ravel (VObjArray [n] elems) = Ok (VObjArray [n] elems)).
Proof.
  intros Hc. split; [|split; [|split]].
  - intros dt shape buf Hdt Hlen. exists (payload E c dt buf). split.
    + by apply convert_numeric.
    + simpl. by apply unconvert_payload.
  - intros shape elems Hs Hlen. split; [apply convert_object|].
    rewrite unconvert_object by reflexivity.
    rewrite np_array_object_scalars by done. simpl. congruence.
  - intros dt n buf. simpl. by rewrite Nat.mul_1_r.
  - intros n elems. simpl. by rewrite Nat.mul_1_r.
Qed.

Lemma convert_unconvert_identity_witness :
  (∃ p, convert (stored_env false false) (VStr "zlib")
          (VNdarray int16 [2%nat; 1%nat] [Byte.x01; Byte.x00; Byte.x02; Byte.x00])
        = Ok (VExtType 0 p)
        ∧ outcome (unconvert (stored_env false false) (VExtType 0 p) (NpDtype int16)
                     (VStr "zlib"))
          = ravel (VNdarray int16 [2%nat; 1%nat]
                     [Byte.x01; Byte.x00; Byte.x02; Byte.x00]))
  ∧ (convert (stored_env false false) (VStr "zlib")
       (VObjArray [1%nat; 2%nat] [VStr "a"; VInt 7])
     = Ok (VList [VStr "a"; VInt 7])
     ∧ outcome (unconvert (stored_env false false) (VList [VStr "a"; VInt 7])
                  (NpDtype object_) (VStr "zlib"))
       = ravel (VObjArray [1%nat; 2%nat] [VStr "a"; VInt 7])).
Proof.
  pose proof (convert_unconvert_identity (stored_env false false) Zlib
                (stored_env_backend_ok false false Zlib)) as (Hfixed & Hobj & _).
  split.
  - apply (Hfixed int16 [2%nat; 1%nat] [Byte.x01; Byte.x00; Byte.x02; Byte.x00]).
    + discriminate.
    + reflexivity.
  - apply (Hobj [1%nat; 2%nat] [VStr "a"; VInt 7]); reflexivity.
Defined.

(** ** The temporal branch of [encode] *)

(** The classes the temporal branch tests, in its order, each with the tag
    of the record its test returns. *)
Definition temporal_variants : list (pyclass * string) :=
  [(C_Timestamp, "timestamp"); (C_NaTType, "nat");
   (C_np_timedelta64, "timedelta64"); (C_timedelta, "timedelta");
   (C_np_datetime64, "datetime64"); (C_datetime, "datetime"); (C_date, "date")].

Definition known_temporal_variants : list pyclass := temporal_variants.*1.

(** The tag of the first variant an object is an instance of. *)
Fixpoint first_variant (obj : value) (vs : list (pyclass * string)) : option string :=
  match vs with
  | [] => None
  | (c, tag) :: r => if isinstance obj c then Some tag else first_variant obj r
  end.

Definition temporal_tag (obj : value) : option string :=
  first_variant obj temporal_variants.

(** Whatever the class of an object is, when its MRO holds one of the guard's
    classes it holds one of the classes tested inside the branch: each class
    of the guard is tested again. *)
Lemma temporal_guard_covered (m : list pyclass) :
  existsb (subclass_in m) temporal_classes = true →
  existsb (subclass_in m) known_temporal_variants = true.
Proof.
  unfold temporal_classes, known_temporal_variants. simpl.
  destruct (subclass_in m C_datetime), (subclass_in m C_date),
    (subclass_in m C_np_datetime64), (subclass_in m C_timedelta),
    (subclass_in m C_np_timedelta64), (subclass_in m C_NaTType),
    (subclass_in m C_Timestamp); simpl; done.
Qed.

(** The zone object of a timestamp is read through its attribute [zone],
    which those of pytz have. *)
Definition zone_readable (obj : value) : bool :=
  match obj with
  | VTimestamp _ _ (Some (TzOther _)) => false
  | _ => true
  end.

(** What [encode] does with an object that passes the guard: it returns the
    record of the first variant the object matches, or, for a timestamp
    whose zone object has no [zone], raises the attribute error. *)
Definition encoded_as (E : Env) (compressor obj : value) (tag : string) : Prop :=
  if zone_readable obj
  then ∃ d : gmap string value,
         encode E compressor obj = Ok (VDict d) ∧ d !! "typ" = Some (VStr tag)
  else ∃ msg, encode E compressor obj = Raise (AttributeError msg).

Lemma encode_temporal (E : Env) (compressor obj : value) :
  isinstance_any obj temporal_classes = true →
  ∃ tag : string, temporal_tag obj = Some tag ∧ encoded_as E compressor obj tag.
Proof.
  intros Hguard.
  destruct obj;
    try match goal with
      | k : index_class |- _ => destruct k
      | d : dtype |- _ => destruct d
      | k : block_class |- _ => destruct k
      end;
    try (exfalso; revert Hguard; vm_compute; discriminate);
    clear Hguard; unfold encoded_as, encode; eval_isinstance.
  all: lazymatch goal with
       | freq : option string, tz : option tzinfo |- _ =>
           destruct freq, tz as [[?|?|?]|]
       | _ => idtac
       end.
  all: eexists; (split; [reflexivity|]);
    cbv beta iota delta [zone_readable]; eexists; by repeat split.
Qed.

Lemma encode_temporal_neq (E : Env) (compressor obj : value) (r : result value) :
  isinstance_any obj temporal_classes = true →
  (∀ d, r ≠ Ok (VDict d)) →
  (∀ msg, r ≠ Raise (AttributeError msg)) →
  encode E compressor obj ≠ r.
Proof.
  intros Hguard Hd Hmsg.
  destruct (encode_temporal E compressor obj Hguard) as (tag & _ & H).
  unfold encoded_as in H. destruct (zone_readable obj).
  - destruct H as (d & -> & _). intros H. by apply (Hd d).
  - destruct H as (msg & ->). intros H. by apply (Hmsg msg).
Qed.

(** C7 as stated fails in its last part: there is no input that passes the
    guard of the temporal branch and matches none of the variants tested
    inside it, and no input that passes the guard and makes [encode] raise
    the "cannot encode" error. *)
Lemma cannot_encode_is_unreachable :
  (¬ ∃ obj : value,
       isinstance_any obj temporal_classes = true
       ∧ isinstance_any obj known_temporal_variants = false)
  ∧ (¬ ∃ (E : Env) (compressor obj : value),
         isinstance_any obj temporal_classes = true
         ∧ encode E compressor obj = Raise cannot_encode).
Proof.
  split.
  - intros (obj & Hguard & Hnone).
    apply (temporal_guard_covered (mro (type_of obj))) in Hguard.
    change (existsb (subclass_in (mro (type_of obj))) known_temporal_variants = false)
      in Hnone.
    rewrite Hguard in Hnone. discriminate.
  - intros (E & c & obj & Hguard & H).
    by apply (encode_temporal_neq E c obj (Raise cannot_encode) Hguard).
Qed.

(** C7, as the code has it.  Every input that passes the guard of the
    temporal branch (an instance of datetime, date, datetime64, timedelta,
    timedelta64 or NaTType) is an instance of one of the variants tested
    inside the branch, because each class of the guard is tested again.  So
    [encode] returns for it the record of the first variant it matches,
    tagged timestamp, nat, timedelta64, timedelta, datetime64, datetime or
    date; the one exception is a timestamp whose zone object has no [zone]
    attribute, where reading it raises the attribute error.  In no case does
    [encode] raise the "cannot encode" error, which stands behind tests that
    cover the guard, and in no case does it hand the object on as it is. *)
Theorem temporal_inputs_match_a_known_variant (E : Env) (compressor obj : value) :
  isinstance_any obj temporal_classes = true →
  isinstance_any obj known_temporal_variants = true
  ∧ (∃ tag : string,
       temporal_tag obj = Some tag
       ∧ if zone_readable obj
         then ∃ d : gmap string value,
                encode E compressor obj = Ok (VDict d)
                ∧ d !! "typ" = Some (VStr tag)
         else ∃ msg, encode E compressor obj = Raise (AttributeError msg))
  ∧ encode E compressor obj ≠ Raise cannot_encode
  ∧ encode E compressor obj ≠ Ok obj.
Proof.
  intros Hguard.
  split; [exact (temporal_guard_covered (mro (type_of obj)) Hguard)|].
  split; [exact (encode_temporal E compressor obj Hguard)|].
  split; apply encode_temporal_neq; try done.
  intros d [= ->]. revert Hguard. vm_compute. discriminate.
Qed.

Lemma temporal_inputs_match_a_known_variant_witness :
  isinstance_any (VTimedelta 1 30 0) known_temporal_variants = true
  ∧ (∃ tag : string,
       temporal_tag (VTimedelta 1 30 0) = Some tag
       ∧ ∃ d : gmap string value,
           encode (stored_env false false) VNone (VTimedelta 1 30 0) = Ok (VDict d)
           ∧ d !! "typ" = Some (VStr tag))
  ∧ encode (stored_env false false) VNone (VTimedelta 1 30 0) ≠ Raise cannot_encode
  ∧ encode (stored_env false false) VNone (VTimedelta 1 30 0) ≠ Ok (VTimedelta 1 30 0).
Proof.
  apply (temporal_inputs_match_a_known_variant (stored_env false false) VNone
           (VTimedelta 1 30 0)).
  reflexivity.
Defined.

(** A timestamp in a zone of [dateutil] is not encoded. *)
Example encode_timestamp_of_another_zone_library :
  encode (stored_env false false) VNone
    (VTimestamp 1600000000000000000 None (Some (TzOther "tzutc()")))
  = Raise (AttributeError "tzinfo object has no attribute zone").
Proof. reflexivity. Qed.
(** ** Computations that raise *)

Definition W_raises {A} (m : W A) : Prop := ∃ e, outcome m = Raise e.

Lemma outcome_bind {A B} (m : W A) (f : A → W B) :
  outcome (m ≫= f)
  = match outcome m with Ok a => outcome (f a) | Raise e => Raise e end.
Proof. unfold mbind, W_bind. by destruct (outcome m). Qed.

Lemma outcome_liftW {A} (m : result A) : outcome (liftW m) = m.
Proof. reflexivity. Qed.

Lemma raises_bind {A B} (m : result A) (f : A → result B) :
  (∀ a, raises (f a)) → raises (m ≫= f).
Proof. intros Hf. destruct m as [a|e]; simpl; [apply Hf|by exists e]. Qed.

Lemma W_raises_bind {A B} (m : W A) (f : A → W B) :
  (∀ a, W_raises (f a)) → W_raises (m ≫= f).
Proof.
  intros Hf. unfold W_raises. rewrite outcome_bind.
  destruct (outcome m) as [a|e]; [apply Hf|by exists e].
Qed.

Lemma W_raises_bind_l {A B} (m : W A) (f : A → W B) :
  W_raises m → W_raises (m ≫= f).
Proof.
  intros [e He]. exists e. by rewrite outcome_bind, He.
Qed.

Lemma W_raises_liftW {A} (m : result A) : raises m → W_raises (liftW m).
Proof. intros [e ->]. by exists e. Qed.

Lemma W_raises_bind_Ok {A B} (a : A) (f : A → W B) :
  W_raises (f a) → W_raises (liftW (Ok a) ≫= f).
Proof. intros [e He]. exists e. by rewrite outcome_bind. Qed.

Lemma mapM_W_raises {A B} (f : A → W B) (l : list A) (x : A) :
  x ∈ l → W_raises (f x) → W_raises (mapM_W f l).
Proof.
  intros Hx Hf. induction l as [|y l IH]; [by apply elem_of_nil in Hx|].
  simpl. apply elem_of_cons in Hx as [->|Hx].
  - by apply W_raises_bind_l.
  - apply W_raises_bind. intros ?. apply W_raises_bind_l. by apply IH.
Qed.

Ltac raises_step :=
  lazymatch goal with
  | |- W_raises (liftW (Ok _) ≫= _) => apply W_raises_bind_Ok
  | |- W_raises (liftW _) => apply W_raises_liftW
  | |- W_raises (_ ≫= _) => apply W_raises_bind; intros ?
  | |- raises (Ok _ ≫= _) => cbn [mbind result_bind]; cbv beta
  | |- raises (_ ≫= _) => apply raises_bind; intros ?
  | |- raises (Raise ?e) => by exists e
  end.

(** ** Blocks of zone-aware timestamps *)

Lemma decode_block_manager E (d : gmap string value) :
  dict_get d "typ" = VStr "block_manager" →
  decode E (VDict d)
  = (axes ← liftW (getitem d "axes");
     bs ← liftW (getitem d "blocks");
     bs ← liftW (iter_items E bs);
     blocks ← mapM_W (create_block E axes) bs;
     liftW (
       klass ← getitem d "klass";
       cls ← globals_klass klass;
       mgr ← BlockManager_new blocks axes;
       frame_new cls mgr)).
Proof. intros H. unfold decode. rewrite H. reflexivity. Qed.

Lemma create_block_tz_raises E (axes : value) (b : gmap string value) :
  b !! "klass" = Some (VStr "DatetimeTZBlock") →
  W_raises (create_block E axes (VDict b)).
Proof.
  intros Hk.
  assert (Hget : getitem b "klass" = Ok (VStr "DatetimeTZBlock")).
  { unfold getitem. by rewrite Hk. }
  unfold create_block. rewrite !Hget.
  do 4 raises_step. raises_step. do 3 raises_step.
  raises_step. change (internals_getattr (VStr "DatetimeTZBlock")) with (Ok DatetimeTZBlock).
  raises_step. simpl. raises_step.
Qed.

(** C6. Decoding a block manager record that holds a block whose declared
    class is [DatetimeTZBlock] raises: [create_block] never returns a block
    for such a block record, whatever its payload (the class test stands
    before [make_block]), so [decode] of the whole record ends in an error
    and no frame is built. *)
Theorem tz_block_fails_fast (E : Env) (d b : gmap string value)
    (blocks : value) (bs : list value) :
  dict_get d "typ" = VStr "block_manager" →
  d !! "blocks" = Some blocks →
  iter_items E blocks = Ok bs →
  VDict b ∈ bs →
  b !! "klass" = Some (VStr "DatetimeTZBlock") →
  (∀ axes, ∃ e, outcome (create_block E axes (VDict b)) = Raise e)
  ∧ ∃ e, outcome (decode E (VDict d)) = Raise e.
Proof.
  intros Htyp Hblocks Hiter Hb Hk. split.
  - intros axes. by apply create_block_tz_raises.
  - assert (Hget : getitem d "blocks" = Ok blocks).
    { unfold getitem. by rewrite Hblocks. }
    rewrite decode_block_manager by done. rewrite Hget.
    change (W_raises
              (axes ← liftW (getitem d "axes");
               bs ← liftW (Ok blocks);
               bs ← liftW (iter_items E bs);
               blocks ← mapM_W (create_block E axes) bs;
               liftW (
                 klass ← getitem d "klass";
                 cls ← globals_klass klass;
                 mgr ← BlockManager_new blocks axes;
                 frame_new cls mgr))).
    raises_step. raises_step. rewrite Hiter. raises_step.
    apply W_raises_bind_l.
    apply (mapM_W_raises _ _ (VDict b)); [done|].
    by apply create_block_tz_raises.
Qed.

(** A frame with one column of UTC timestamps, and its record. *)
Definition tz_frame : value :=
  VDataFrame
    (VBlockManager
       [VBlock DatetimeTZBlock [0] (VDatetimeArray (TzNamed "UTC") [0; 1])]
       [VIndex KIndex VNone (VObjArray [1%nat] [VStr "when"]);
        VRangeIndex VNone 0 2 1]).

Definition tz_block_record : gmap string value :=
  list_to_map
    [("locs", int64_array [0]);
     ("values", VExtType 0 (int64s_to_bytes [0; 1]));
     ("shape", VTuple [VInt 2]);
     ("dtype", VStr "datetime64[ns, UTC]");
     ("klass", VStr "DatetimeTZBlock");
     ("compress", VNone)].

Definition tz_frame_record : gmap string value :=
  list_to_map
    [("typ", VStr "block_manager");
     ("klass", VStr "DataFrame");
     ("axes", VList [VIndex KIndex VNone (VObjArray [1%nat] [VStr "when"]);
                     VRangeIndex VNone 0 2 1]);
     ("blocks", VList [VDict tz_block_record])].

Lemma encode_tz_frame :
  encode (stored_env false false) VNone tz_frame = Ok (VDict tz_frame_record).
Proof. vm_compute. reflexivity. Qed.

Lemma tz_block_fails_fast_witness :
  (∀ axes, ∃ e,
     outcome (create_block (stored_env false false) axes (VDict tz_block_record))
     = Raise e)
  ∧ ∃ e, outcome (decode (stored_env false false) (VDict tz_frame_record)) = Raise e.
Proof.
  apply (tz_block_fails_fast (stored_env false false) tz_frame_record tz_block_record
           (VList [VDict tz_block_record]) [VDict tz_block_record]).
  - reflexivity.
  - reflexivity.
  - reflexivity.
  - by apply elem_of_cons; left.
  - reflexivity.
Defined.

(** A frame that holds a column of zone-aware timestamps is encoded, and
    decoding its record raises at the guard of [create_block]. *)
Lemma tz_frame_does_not_round_trip :
  encode (stored_env false false) VNone tz_frame = Ok (VDict tz_frame_record)
  ∧ decode (stored_env false false) (VDict tz_frame_record)
    = mkW [] (Raise tz_block_error)
  ∧ outcome (roundtrip (stored_env false false) VNone tz_frame)
    = Raise tz_block_error.
Proof. repeat split; vm_compute; reflexivity. Qed.

(** ** Buffers of 64-bit integers *)

Lemma chunks_fuel_concat {A} (k : nat) (ls : list (list A)) (fuel : nat) :
  (0 < k)%nat →
  Forall (λ l, length l = k) ls →
  (length ls ≤ fuel)%nat →
  chunks_fuel fuel k (concat ls) = ls.
Proof.
  intros Hk Hls. revert fuel.
  induction Hls as [|l ls Hl Hls IH]; intros fuel Hfuel.
  - by destruct fuel.
  - destruct fuel as [|fuel]; [simpl in Hfuel; lia|].
    destruct l as [|a l]; [simpl in Hl; lia|].
    change (concat ((a :: l) :: ls)) with ((a :: l) ++ concat ls)%list.
    change (chunks_fuel (S fuel) k ((a :: l) ++ concat ls)%list)
      with (take k ((a :: l) ++ concat ls)%list
            :: chunks_fuel fuel k (drop k ((a :: l) ++ concat ls)%list)).
    rewrite take_app_length', drop_app_length' by done.
    rewrite IH; [done|]. simpl in Hfuel. lia.
Qed.

Lemma chunks_concat {A} (k : nat) (ls : list (list A)) :
  (0 < k)%nat →
  Forall (λ l, length l = k) ls →
  chunks k (concat ls) = ls.
Proof.
  intros Hk Hls. unfold chunks. apply chunks_fuel_concat; [done|done|].
  rewrite (length_concat ls).
  induction Hls as [|l ls Hl Hls IH]; simpl; lia.
Qed.

Lemma Z_of_byte_of_Z (z : Z) : Z_of_byte (byte_of_Z z) = z mod 256.
Proof.
  unfold Z_of_byte, byte_of_Z.
  assert (Hr : 0 <= z mod 256 < 256) by (apply Z.mod_pos_bound; lia).
  destruct (Byte.of_N (Z.to_N (z mod 256))) as [b|] eqn:Hb; simpl.
  - apply Byte.to_of_N in Hb. rewrite Hb. lia.
  - apply Byte.of_N_None_iff in Hb. lia.
Qed.

Lemma length_le_bytes (n : nat) (z : Z) : length (le_bytes n z) = n.
Proof. revert z. induction n as [|n IH]; intros z; simpl; [done|]. by rewrite IH. Qed.

Lemma le_value_le_bytes (n : nat) (z : Z) :
  le_value (le_bytes n z) = z mod 2 ^ (8 * Z.of_nat n).
Proof.
  revert z. induction n as [|n IH]; intros z.
  - simpl. by rewrite Z.mod_1_r.
  - change (le_value (le_bytes (S n) z))
      with (Z_of_byte (byte_of_Z z) + Z.shiftl (le_value (le_bytes n (Z.shiftr z 8))) 8).
    rewrite IH, Z_of_byte_of_Z, Z.shiftl_mul_pow2, Z.shiftr_div_pow2 by lia.
    replace (8 * Z.of_nat (S n)) with (8 + 8 * Z.of_nat n) by lia.
    rewrite Z.pow_add_r by lia.
    change (2 ^ 8) with 256.
    rewrite Z.rem_mul_r by lia. lia.
Qed.

Lemma int64_of_to_bytes (z : Z) :
  int64_range z → int64_of_bytes (int64_to_bytes z) = z.
Proof.
  unfold int64_range, int64_of_bytes, int64_to_bytes. intros Hz.
  rewrite le_value_le_bytes. change (8 * Z.of_nat 8) with 64.
  destruct (Z.ltb_spec z 0) as [Hneg|Hpos].
  - rewrite <- (Z.mod_add z 1 (2 ^ 64)) by lia.
    rewrite Z.mod_small by lia.
    destruct (Z.ltb_spec (z + 1 * 2 ^ 64) (2 ^ 63)); lia.
  - rewrite Z.mod_small by lia.
    destruct (Z.ltb_spec z (2 ^ 63)); lia.
Qed.

Lemma int64s_of_to_bytes (zs : list Z) :
  Forall int64_range zs → int64s_of_bytes (int64s_to_bytes zs) = zs.
Proof.
  intros Hzs. unfold int64s_of_bytes, int64s_to_bytes.
  rewrite chunks_concat.
  - rewrite map_map. induction Hzs as [|z zs Hz Hzs IH]; [done|].
    simpl map. rewrite int64_of_to_bytes by done. by rewrite IH.
  - lia.
  - apply Forall_map, Forall_true. intros z. apply length_le_bytes.
Qed.

Lemma length_int64s_to_bytes (zs : list Z) :
  length (int64s_to_bytes zs) = (8 * length zs)%nat.
Proof.
  unfold int64s_to_bytes. induction zs as [|z zs IH]; [done|].
  change (concat (map int64_to_bytes (z :: zs)))
    with (int64_to_bytes z ++ concat (map int64_to_bytes zs))%list.
  rewrite length_app, IH.
  unfold int64_to_bytes. rewrite length_le_bytes. simpl. lia.
Qed.

(** ** Period indexes *)

Lemma unconvert_NpType E values dt compress :
  unconvert E values (NpType dt) compress = unconvert E values (NpDtype dt) compress.
Proof. unfold unconvert. destruct dt; reflexivity. Qed.

Lemma getitem_Some (d : gmap string value) k v : d !! k = Some v → getitem d k = Ok v.
Proof. unfold getitem. by intros ->. Qed.

Lemma getitem_None (d : gmap string value) k : d !! k = None → getitem d k = Raise (KeyError k).
Proof. unfold getitem. by intros ->. Qed.

Lemma dict_get_insert_ne (d : gmap string value) k k' v :
  k ≠ k' → dict_get (<[k := v]> d) k' = dict_get d k'.
Proof. intros H. unfold dict_get. by rewrite lookup_insert_ne. Qed.

Lemma getitem_insert_ne (d : gmap string value) k k' v :
  k ≠ k' → getitem (<[k := v]> d) k' = getitem d k'.
Proof. intros H. unfold getitem. by rewrite lookup_insert_ne. Qed.





Lemma decode_period_index E (d : gmap string value) :
  dict_get d "typ" = VStr "period_index" →
  decode E (VDict d)
  = (data ← liftW (getitem d "data");
     data ← unconvert E data (NpType int64) (dict_get d "compress");
     liftW (
       name ← getitem d "name";
       freq ← getitem d "freq";
       if _is_pandas_legacy_version E then
         klass ← getitem d "klass";
         _ ← globals_klass klass;
         legacy_PeriodIndex E data name freq
       else
         if is_none freq then
           Raise (ValueError "freq is not specified and cannot be inferred")
         else
           xs ← iter_items E data;
           values ← mapM_result (λ x, Period_new E x freq) xs;
           PeriodIndex_new values)).
Proof. intros H. unfold decode. rewrite H. reflexivity. Qed.

(** What [Period] makes of an ordinal: a period, or NaT for the ordinal of
    a missing period. *)
Definition period_or_nat (f : string) (n : Z) : value :=
  if n =? iNaT then VNaT else VPeriod n f.

Lemma mapM_Period_new E (f f' : string) (ords : list Z) :
  period_freq E f = Some f' →
  mapM_result (λ x, Period_new E x (VStr f)) (map (VNpInt int64) ords)
  = Ok (map (period_or_nat f') ords).
Proof.
  intros Hf.
  assert (H1 : ∀ n, Period_new E (VNpInt int64 n) (VStr f) = Ok (period_or_nat f' n)).
  { intros n. unfold Period_new. simpl. by rewrite Hf. }
  induction ords as [|n ords IH]; [done|].
  simpl. rewrite H1. simpl. rewrite IH. reflexivity.
Qed.

Lemma first_freq_periods (f : string) (ords : list Z) :
  Exists (λ n, n ≠ iNaT) ords →
  first_freq (map (period_or_nat f) ords) = Some f.
Proof.
  induction 1 as [n ords Hn|n ords _ IH]; simpl; unfold period_or_nat at 1.
  - by rewrite (proj2 (Z.eqb_neq _ _) Hn).
  - by destruct (n =? iNaT).
Qed.

(** The index pandas builds from the periods of a list of ordinals that
    are not all missing holds these ordinals. *)
Lemma PeriodIndex_new_periods (f : string) (ords : list Z) :
  Exists (λ n, n ≠ iNaT) ords →
  PeriodIndex_new (map (period_or_nat f) ords) = Ok (VPeriodIndex VNone f ords).
Proof.
  intros Hords.
  assert (H : ∀ l, mapM_result
                     (λ v, match v with
                           | VPeriod n f' =>
                               if String.eqb f f' then Ok n
                               else Raise (ValueError "Input has different freq")
                           | VNaT => Ok iNaT
                           | _ => Raise (TypeError "not a period")
                           end) (map (period_or_nat f) l) = Ok l).
  { induction l as [|m l IH]; [done|]. simpl. rewrite IH.
    unfold period_or_nat. destruct (Z.eqb_spec m iNaT) as [->|_]; [done|].
    by rewrite String.eqb_refl. }
  unfold PeriodIndex_new. rewrite (first_freq_periods f ords Hords).
  by rewrite H.
Qed.


Definition monthly_record : gmap string value :=
  list_to_map
    [("typ", VStr "period_index"); ("klass", VStr "PeriodIndex");
     ("name", VNone); ("freq", VStr "M"); ("dtype", VStr "period[M]");
     ("data", VExtType 0 (int64s_to_bytes [600; 601])); ("compress", VNone)].


(** A frequency that is no frequency of periods is refused by [Period], and
    a payload of missing periods only gives no index. *)
Example decode_record_with_bad_freq :
  outcome (decode (stored_env false false)
             (VDict (<["freq" := VStr "nope"]> monthly_record)))
  = Raise (ValueError "Invalid frequency")
  ∧ outcome (decode (stored_env false false)
               (VDict (<["data" := VExtType 0 (int64s_to_bytes [iNaT])]>
                         monthly_record)))
    = Raise (ValueError "freq not specified and cannot be inferred").
Proof. split; vm_compute; reflexivity. Qed.

(** ** Datetime indexes and their zone *)





Lemma decode_datetime_index E (d : gmap string value) :
  dict_get d "typ" = VStr "datetime_index" →
  decode E (VDict d)
  = (data ← liftW (getitem d "data");
     data ← unconvert E data (NpType int64) (dict_get d "compress");
     liftW (
       name ← getitem d "name";
       freq ← getitem d "freq";
       klass ← getitem d "klass";
       cls ← globals_klass klass;
       result ← DatetimeIndex_new E cls data name freq;
       tz ← getitem d "tz";
       if negb (is_none tz) then
         localized ← tz_localize_UTC result;
         tz_convert E localized tz
       else Ok result)).
Proof. intros H. unfold decode. rewrite H. reflexivity. Qed.


Definition berlin_index : value :=
  VDatetimeIndex (VStr "when") (Some "D") (Some (TzNamed "Europe/Berlin"))
    [1600000000000000000; 1600086400000000000].

Definition berlin_record : gmap string value :=
  list_to_map
    [("typ", VStr "datetime_index");
     ("klass", VStr "DatetimeIndex");
     ("name", VStr "when");
     ("dtype", VStr "datetime64[ns, UTC]");
     ("data", VExtType 0 (int64s_to_bytes [1600000000000000000; 1600086400000000000]));
     ("freq", VStr "D");
     ("tz", VStr "Europe/Berlin");
     ("compress", VNone)].

Example encode_berlin_index :
  encode (stored_env false false) VNone berlin_index = Ok (VDict berlin_record).
Proof. vm_compute. reflexivity. Qed.


(** The same index across the change to winter time: its days are not all
    24 hours of UTC apart, the frequency check refuses the instants and no
    index is built; and an unknown zone is refused by name. *)
Example decode_refuses_a_nonconforming_index :
  outcome (decode (stored_env false false)
             (VDict (<["data" := VExtType 0
                                  (int64s_to_bytes [1603490400000000000;
                                                    1603580400000000000])]>
                       berlin_record)))
  = Raise (ValueError "the values do not conform to the passed frequency")
  ∧ outcome (decode (stored_env false false)
               (VDict (<["tz" := VStr "Nowhere/Land"]> berlin_record)))
    = Raise (UnknownTimeZoneError "Nowhere/Land").
Proof. split; vm_compute; reflexivity. Qed.

(** ** Python's float texts and the complex parser *)

#[local] Arguments String.append !_ _ / : simpl nomatch.

Lemma string_app_assoc (a b c : string) : (a +:+ b) +:+ c = a +:+ b +:+ c.
Proof. induction a as [|x a IH]; simpl; [done|]. by rewrite IH. Qed.

Definition unsigned_repr (x : pyfloat) : string :=
  match x with
  | FNan => "nan"
  | FInf _ => "inf"
  | FFinite _ ip fp ex => digits_str ip +:+ frac_str fp +:+ exp_str ex
  end.

Lemma float_repr_sign (x : pyfloat) :
  float_repr x = sign_str (signbit x) +:+ unsigned_repr x.
Proof. by destruct x. Qed.

Lemma char_digit_char (d : digit) : char_digit (digit_char d) = Some d.
Proof. by destruct d. Qed.

(** What may follow a float inside the text of a complex number. *)
Definition ends_float (t : ascii) : Prop := t = "+"%char ∨ t = "j"%char.

Definition not_digit_head (r : string) : Prop :=
  match r with
  | String c _ => char_digit c = None
  | EmptyString => True
  end.

Lemma scan_digits_app (ds : list digit) (r : string) :
  not_digit_head r → scan_digits (digits_str ds +:+ r) = (ds, r).
Proof.
  intros Hr. induction ds as [|d ds IH].
  - simpl. destruct r as [|c r]; [done|]. simpl in *. by rewrite Hr.
  - simpl. by rewrite char_digit_char, IH.
Qed.

Lemma scan_exponent_app (ex : option (bool * list digit)) (t : ascii) (r : string) :
  match ex with Some (_, []) => False | _ => True end →
  ends_float t →
  scan_exponent (exp_str ex +:+ String t r) = (ex, String t r).
Proof.
  intros Hex Ht. destruct ex as [[eneg ds]|].
  - destruct ds as [|d ds]; [done|].
    assert (Hscan : scan_digits (digits_str (d :: ds) +:+ String t r)
                    = (d :: ds, String t r)).
    { apply scan_digits_app. by destruct Ht as [-> | ->]. }
    destruct eneg; simpl in *; by rewrite char_digit_char in *; rewrite Hscan.
  - by destruct Ht as [-> | ->].
Qed.

Lemma scan_unsigned_repr (x : pyfloat) (t : ascii) (r : string) :
  well_formed x = true →
  ends_float t →
  scan_unsigned (signbit x) (unsigned_repr x +:+ String t r) = Some (x, String t r).
Proof.
  intros Hwf Ht. destruct x as [|neg|neg ip fp ex].
  - by destruct Ht as [-> | ->].
  - by destruct Ht as [-> | ->].
  - destruct ip as [|d ip]; [done|].
    assert (Hex : match ex with Some (_, []) => False | _ => True end).
    { simpl in Hwf. destruct ex as [[? [|? ?]]|]; done. }
    assert (Hfp : ex = None → fp ≠ []).
    { intros ->. simpl in Hwf. by destruct fp. }
    pose proof (scan_exponent_app ex t r Hex Ht) as Hscan_ex.
    assert (Hhead : not_digit_head (exp_str ex +:+ String t r)).
    { destruct ex as [[? ?]|]; [done|]. by destruct Ht as [-> | ->]. }
    unfold scan_unsigned, unsigned_repr, signbit.
    rewrite !string_app_assoc.
    assert (Hpre : ∀ p, (p = "infinity" ∨ p = "inf" ∨ p = "nan") →
                        strip_prefix p (digits_str (d :: ip) +:+ frac_str fp
                                        +:+ exp_str ex +:+ String t r) = None).
    { intros p [-> | [-> | ->]]; by destruct d. }
    rewrite !Hpre by auto.
    destruct fp as [|e fp].
    + change (frac_str [] +:+ exp_str ex +:+ String t r)
        with (exp_str ex +:+ String t r).
      rewrite scan_digits_app by done.
      assert (Hnodot : (match exp_str ex +:+ String t r with
                        | String "." r1' => scan_digits r1'
                        | _ => ([], exp_str ex +:+ String t r)
                        end) = ([], exp_str ex +:+ String t r)).
      { destruct ex as [[? ?]|]; [done|]. by destruct Ht as [-> | ->]. }
      rewrite Hnodot, Hscan_ex. reflexivity.
    + change (frac_str (e :: fp) +:+ exp_str ex +:+ String t r)
        with (String "." (digits_str (e :: fp) +:+ exp_str ex +:+ String t r)).
      rewrite scan_digits_app by done.
      rewrite scan_digits_app by done.
      rewrite Hscan_ex. reflexivity.
Qed.

Lemma scan_float_repr (x : pyfloat) (t : ascii) (r : string) :
  well_formed x = true →
  ends_float t →
  scan_float (float_repr x +:+ String t r) = Some (x, String t r).
Proof.
  intros Hwf Ht. rewrite float_repr_sign, string_app_assoc.
  pose proof (scan_unsigned_repr x t r Hwf Ht) as Hscan.
  unfold scan_float.
  destruct (signbit x) eqn:Hs.
  - exact Hscan.
  - assert (Hsign : scan_sign (sign_str false +:+ unsigned_repr x +:+ String t r)
                    = (false, unsigned_repr x +:+ String t r)).
    { destruct x as [| |neg [|d ip] fp ex]; try done. by destruct d. }
    by rewrite Hsign.
Qed.

(** A text whose second float starts with a minus sign after the plus sign
    is malformed. *)
Lemma scan_unsigned_minus (neg : bool) (r : string) :
  scan_unsigned neg (String "-" r) = None.
Proof. reflexivity. Qed.

Lemma complex_of_string_repr (re im : pyfloat) :
  well_formed re = true →
  well_formed im = true →
  complex_of_string (float_repr re +:+ "+" +:+ float_repr im +:+ "j")
  = if signbit im then Raise malformed else Ok (re, im).
Proof.
  intros Hre Him. unfold complex_of_string.
  change ("+" +:+ float_repr im +:+ "j") with (String "+" (float_repr im +:+ "j")).
  rewrite (scan_float_repr re "+" _ Hre (or_introl eq_refl)).
  cbn [bool_decide decide_rel orb].
  rewrite bool_decide_eq_true_2 by done. cbn [orb].
  unfold scan_float at 1. cbn [scan_sign].
  rewrite (float_repr_sign im), string_app_assoc.
  destruct (signbit im) eqn:Hs.
  - change (sign_str true +:+ unsigned_repr im +:+ "j")
      with (String "-" (unsigned_repr im +:+ "j")).
    rewrite scan_unsigned_minus. reflexivity.
  - change (sign_str false +:+ unsigned_repr im +:+ "j")
      with (unsigned_repr im +:+ String "j" "").
    pose proof (scan_unsigned_repr im "j" "" Him (or_intror eq_refl)) as Hscan.
    rewrite Hs in Hscan. rewrite Hscan. reflexivity.
Qed.

(** ** Built-in complex numbers *)

Lemma encode_complex E c re im :
  encode E c (VComplex re im)
  = Ok (record [("typ", VStr "np_complex");
                ("real", VStr (float_repr re));
                ("imag", VStr (float_repr im))]).
Proof. unfold encode. eval_isinstance. reflexivity. Qed.

Lemma decode_np_complex E (d : gmap string value) :
  dict_get d "typ" = VStr "np_complex" →
  decode E (VDict d)
  = liftW (
      re ← getitem d "real";
      s ← str_add re (VStr "+");
      im ← getitem d "imag";
      s ← str_add s im;
      s ← str_add s (VStr "j");
      complex_new s).
Proof. intros H. unfold decode. rewrite H. reflexivity. Qed.

Lemma decode_complex_record E re im :
  decode E (record [("typ", VStr "np_complex");
                    ("real", VStr (float_repr re));
                    ("imag", VStr (float_repr im))])
  = liftW (complex_new (VStr (float_repr re +:+ "+" +:+ float_repr im +:+ "j"))).
Proof.
  unfold record. rewrite decode_np_complex by reflexivity.
  change (getitem _ "real") with (Ok (VStr (float_repr re))).
  change (getitem _ "imag") with (Ok (VStr (float_repr im))).
  cbn [mbind result_bind str_add].
  by rewrite !string_app_assoc.
Qed.

(** C10.  At [complex(1.0, -0.0)] the round trip fails: [-0.0 >= 0] holds,
    so the imaginary part is non-negative, yet its text is ["-0.0"], the
    text handed to [complex] is ["1.0+-0.0j"] and [decode] raises the parse
    error. *)
Lemma negative_zero_imag_does_not_round_trip :
  nonnegative (FFinite true [d0] [d0] None) = true
  ∧ negative (FFinite true [d0] [d0] None) = false
  ∧ encode (stored_env false false) VNone (VComplex one (FFinite true [d0] [d0] None))
    = Ok (record [("typ", VStr "np_complex"); ("real", VStr "1.0");
                  ("imag", VStr "-0.0")])
  ∧ outcome (roundtrip (stored_env false false) VNone
               (VComplex one (FFinite true [d0] [d0] None)))
    = Raise malformed.
Proof. repeat split; vm_compute; reflexivity. Qed.

(** X29.  For every built-in complex scalar [encode]
    stores the texts of the real and of the imaginary part separately, and
    [decode] parses the concatenation real + "+" + imag + "j".  The value
    comes back when the text of the imaginary part has no leading minus sign
    (a positive number, [0.0], [inf] or [nan]); when it has one (a negative
    number, [-0.0] or [-inf]) the concatenation holds ["+-"] and [decode]
    raises the parse error. *)
Theorem complex_round_trip_by_sign (E : Env) (compressor : value) (re im : pyfloat) :
  well_formed re = true →
  well_formed im = true →
  encode E compressor (VComplex re im)
  = Ok (record [("typ", VStr "np_complex");
                ("real", VStr (float_repr re));
                ("imag", VStr (float_repr im))])
  ∧ decode E (record [("typ", VStr "np_complex");
                      ("real", VStr (float_repr re));
                      ("imag", VStr (float_repr im))])
    = liftW (complex_new (VStr (float_repr re +:+ "+" +:+ float_repr im +:+ "j")))
  ∧ (signbit im = false →
     outcome (roundtrip E compressor (VComplex re im)) = Ok (VComplex re im))
  ∧ (signbit im = true →
     outcome (roundtrip E compressor (VComplex re im)) = Raise malformed).
Proof.
  intros Hre Him.
  assert (Hrt : outcome (roundtrip E compressor (VComplex re im))
                = if signbit im then Raise malformed else Ok (VComplex re im)).
  { unfold roundtrip. rewrite encode_complex, decode_complex_record.
    unfold complex_new. rewrite outcome_liftW.
    rewrite complex_of_string_repr by done.
    by destruct (signbit im). }
  split; [apply encode_complex|]. split; [apply decode_complex_record|].
  split; intros Hs; by rewrite Hrt, Hs.
Qed.

Lemma complex_round_trip_by_sign_witness :
  outcome (roundtrip (stored_env false false) VNone
             (VComplex (FFinite true [d1] [d5] None) (FInf false)))
  = Ok (VComplex (FFinite true [d1] [d5] None) (FInf false))
  ∧ outcome (roundtrip (stored_env false false) VNone
               (VComplex one (FFinite true [d2] [d0] None)))
    = Raise malformed.
Proof.
  split.
  - apply (complex_round_trip_by_sign (stored_env false false) VNone
             (FFinite true [d1] [d5] None) (FInf false)); reflexivity.
  - apply (complex_round_trip_by_sign (stored_env false false) VNone
             one (FFinite true [d2] [d0] None)); reflexivity.
Defined.



(** ** What [convert] and [unconvert] restore *)





Lemma unconvert_payload_like E c dt dl buf n :
  dt ≠ object_ →
  dl = NpType dt ∨ dl = NpDtype dt →
  backend_ok E c →
  length buf = (itemsize dt * n)%nat →
  outcome (unconvert E (VExtType 0 (payload E c dt buf)) dl (choice_value c))
  = Ok (VNdarray dt [n] buf).
Proof.
  intros Hdt [-> | ->] Hc Hlen; [rewrite unconvert_NpType|];
    by apply unconvert_payload.
Qed.


Lemma int64_array_restored E c (l : list Z) :
  backend_ok E c →
  ∃ p, convert E (choice_value c) (int64_array l) = Ok p
       ∧ outcome (unconvert E p (NpType int64) (choice_value c)) = Ok (int64_array l).
Proof.
  intros Hc. exists (VExtType 0 (payload E c int64 (int64s_to_bytes l))). split.
  - by apply convert_numeric.
  - apply unconvert_payload_like; try done; [by left|].
    by rewrite length_int64s_to_bytes.
Qed.


(** ** Round trips, kind by kind *)


Definition known_period_freq (E : Env) (freq : string) : Prop :=
  period_freq E freq = Some freq.









Lemma encode_PeriodIndex E c name freq ordinals :
  encode E c (VPeriodIndex name freq ordinals)
  = (data ← convert E c (int64_array ordinals);
     Ok (record [("typ", VStr "period_index");
                 ("klass", VStr "PeriodIndex");
                 ("name", name);
                 ("freq", VStr freq);
                 ("dtype", VStr ("period[" +:+ freq +:+ "]"));
                 ("data", data);
                 ("compress", c)])).
Proof. unfold encode. eval_isinstance. reflexivity. Qed.

Lemma decode_period_index_record E p name f f' ords c :
  _is_pandas_legacy_version E = false →
  outcome (unconvert E p (NpType int64) c) = Ok (int64_array ords) →
  Forall int64_range ords →
  period_freq E f = Some f' →
  outcome (decode E (record [("typ", VStr "period_index");
                             ("klass", VStr "PeriodIndex");
                             ("name", name);
                             ("freq", VStr f);
                             ("dtype", VStr ("period[" +:+ f +:+ "]"));
                             ("data", p);
                             ("compress", c)]))
  = PeriodIndex_new (map (period_or_nat f') ords).
Proof.
  intros Hlegacy Hun Hords Hf. unfold record.
  rewrite decode_period_index by reflexivity.
  change (getitem _ "data") with (Ok p).
  change (dict_get _ "compress") with c.
  change (getitem _ "name") with (Ok name).
  change (getitem _ "freq") with (Ok (VStr f)).
  rewrite Hlegacy.
  rewrite outcome_bind, outcome_liftW, outcome_bind, Hun, outcome_liftW.
  unfold int64_array.
  cbn [mbind result_bind is_none iter_items np_items].
  rewrite int64s_of_to_bytes by done.
  by rewrite (mapM_Period_new E f f').
Qed.








Lemma decode_index E (d : gmap string value) :
  dict_get d "typ" = VStr "index" →
  decode E (VDict d)
  = (dt ← liftW (getitem d "dtype");
     data ← liftW (getitem d "data");
     data ← unconvert E data (dtype_for E dt) (dict_get d "compress");
     liftW (
       klass ← getitem d "klass";
       cls ← globals_klass klass;
       name ← getitem d "name";
       Index_new cls data name)).
Proof. intros H. unfold decode. rewrite H. reflexivity. Qed.




Lemma decode_series E (d : gmap string value) :
  dict_get d "typ" = VStr "series" →
  decode E (VDict d)
  = (dt ← liftW (getitem d "dtype");
     pd_dtype ← liftW (pandas_dtype E (dtype_for E dt));
     index ← liftW (getitem d "index");
     cls ← liftW (klass ← getitem d "klass"; globals_klass klass);
     data ← liftW (getitem d "data");
     compress ← liftW (getitem d "compress");
     data ← unconvert E data (dtype_for E dt) compress;
     liftW (
       name ← getitem d "name";
       Series_new cls data index pd_dtype name)).
Proof. intros H. unfold decode. rewrite H. reflexivity. Qed.



Lemma shape_of_shape_tuple shape : shape_of_value (shape_tuple shape) = Ok shape.
Proof.
  unfold shape_of_value, shape_tuple.
  induction shape as [|n shape IH]; [done|].
  simpl map. simpl mapM_result. rewrite IH.
  replace (0 <=? Z.of_nat n) with true by (symmetry; apply Z.leb_le; lia).
  simpl. by rewrite Nat2Z.id.
Qed.




Lemma decode_ndarray E (d : gmap string value) :
  dict_get d "typ" = VStr "ndarray" →
  decode E (VDict d)
  = (data ← liftW (getitem d "data");
     dtype ← liftW (
       dt ← getitem d "dtype";
       match typeDict E dt with
       | Some t => Ok (NpType t)
       | None => Raise (KeyError (match dt with VStr s => s | _ => "dtype" end))
       end);
     arr ← unconvert E data dtype (dict_get d "compress");
     liftW (shape ← getitem d "shape"; reshape arr shape)).
Proof. intros H. unfold decode. rewrite H. reflexivity. Qed.




(** ** Multi-level indexes *)










Lemma decode_multi_index E (d : gmap string value) :
  dict_get d "typ" = VStr "multi_index" →
  decode E (VDict d)
  = (dt ← liftW (getitem d "dtype");
     data ← liftW (getitem d "data");
     data ← unconvert E data (dtype_for E dt) (dict_get d "compress");
     liftW (
       xs ← iter_items E data;
       data ← mapM_result (iter_items E) xs;
       klass ← getitem d "klass";
       cls ← globals_klass klass;
       names ← getitem d "names";
       from_tuples cls data names)).
Proof. intros H. unfold decode. rewrite H. reflexivity. Qed.


(** ** Frames *)











(** ** The kinds that round trip *)




(** ** The zone of a fixed offset *)

(** C1.  A timestamp tagged with a fixed offset from UTC, such as UTC+2,
    does not keep its zone: [encode] writes [tz.zone], which is null for a
    fixed offset, so the record holds no zone and [decode] returns the
    instant without one.  This is so in all surroundings, for every
    compressor and every offset. *)
Theorem fixed_offset_timestamp_loses_its_zone
    (E : Env) (compressor : value) (minutes : Z) :
  encode E compressor
    (VTimestamp 1600000000000000000 None (Some (TzFixedOffset minutes)))
  = Ok (record [("typ", VStr "timestamp"); ("value", VInt 1600000000000000000);
                ("freq", VNone); ("tz", VNone)])
  ∧ roundtrip E compressor
      (VTimestamp 1600000000000000000 None (Some (TzFixedOffset minutes)))
    = mret (VTimestamp 1600000000000000000 None None)
  ∧ VTimestamp 1600000000000000000 None None
    ≠ VTimestamp 1600000000000000000 None (Some (TzFixedOffset minutes)).
Proof. repeat split; try reflexivity. discriminate. Qed.

(** The two scenarios of the specification. *)
Example timestamp_scenario :
  encode (stored_env false false) VNone
    (VTimestamp 1600000000000000000 None (Some (TzNamed "UTC")))
  = Ok (record [("typ", VStr "timestamp"); ("value", VInt 1600000000000000000);
                ("tz", VStr "UTC"); ("freq", VNone)]).
Proof. vm_compute. reflexivity. Qed.

Example categorical_scenario :
  outcome (roundtrip (stored_env false false) VNone
             (VCategorical
                (VNdarray int8 [4%nat] [Byte.x02; Byte.x00; Byte.x01; Byte.xff])
                (VIndex KIndex VNone (VObjArray [3%nat] [VStr "a"; VStr "b"; VStr "c"]))
                false))
  = Ok (VCategorical
          (VNdarray int8 [4%nat] [Byte.x02; Byte.x00; Byte.x01; Byte.xff])
          (VIndex KIndex VNone (VObjArray [3%nat] [VStr "a"; VStr "b"; VStr "c"]))
          false).
Proof. reflexivity. Qed.

(** * Further properties of the converters *)

(** Whether the backend of a compression choice could be imported. *)
Definition installed (E : Env) (c : choice) : bool :=
  match c with
  | NoCompression => true
  | Zlib => zlib_installed E
  | Blosc => blosc_installed E
  end.

Definition not_installed (c : choice) : exn :=
  ImportError
    (match c with NoCompression => "" | Zlib => "zlib" | Blosc => "blosc" end
     +:+ " is not installed").

Lemma W_bind_Ok {A B} (a : A) (f : A → W B) : liftW (Ok a) ≫= f = f a.
Proof. unfold mbind, W_bind. simpl. by destruct (f a). Qed.

Lemma W_bind_Raise {A B} (e : exn) (f : A → W B) :
  liftW (Raise e) ≫= f = liftW (Raise e).
Proof. reflexivity. Qed.

(** A fixed-width array never reaches the test for object arrays that
    stands behind the backend checks. *)
Lemma convert_fixed_width E (c : value) dt shape buf :
  dt ≠ object_ →
  convert E c (VNdarray dt shape buf)
  = (is_zlib ← str_eq E c "zlib";
     if (is_zlib : bool) then
       _ ← _check_zlib E; Ok (VExtType 0 (zlib_compress E buf))
     else
       is_blosc ← str_eq E c "blosc";
       if (is_blosc : bool) then
         _ ← _check_blosc E; Ok (VExtType 0 (blosc_compress E buf (itemsize dt)))
       else Ok (VExtType 0 buf)).
Proof.
  intros Hdt. unfold convert. simpl array_dtype. cbn beta iota.
  change (Ok (NpDtype dt) ≫= ?f) with (f (NpDtype dt)). cbn beta.
  replace (is_categorical_dtype (VNdarray dt shape buf)) with false by reflexivity.
  rewrite is_object_dtype_np, bool_decide_eq_false_2 by done.
  assert (Hview : (if needs_i8_conversion (NpDtype dt)
                   then view_i8 (VNdarray dt shape buf)
                   else Ok (VNdarray dt shape buf))
                  = Ok (VNdarray (if is_datetimelike dt then int64 else dt) shape buf)).
  { destruct dt; reflexivity. }
  rewrite Hview. clear Hview.
  assert (Hno : is_np_object (NpDtype dt) = false) by (destruct dt; simpl; congruence).
  rewrite Hno. cbn [ravel mbind result_bind tostring dtype_itemsize].
  destruct (str_eq E c "zlib") as [[|]|]; cbn [mbind result_bind];
    [by destruct (_check_zlib E)| |done].
  destruct (str_eq E c "blosc") as [[|]|]; cbn [mbind result_bind];
    [by destruct (_check_blosc E)|done|done].
Qed.

(** X1. Selecting a backend that could not be imported: [convert] raises
    the import error of the backend's check for every fixed-width array,
    whatever its contents, and [unconvert] raises the same error for every
    payload, before it looks at the bytes and without a warning. *)
Theorem missing_backend_raises_import_error
    (E : Env) (c : choice) dt shape buf data :
  dt ≠ object_ →
  installed E c = false →
  convert E (choice_value c) (VNdarray dt shape buf) = Raise (not_installed c)
  ∧ unconvert E (VExtType 0 data) (NpDtype dt) (choice_value c)
    = liftW (Raise (not_installed c)).
Proof.
  intros Hdt Hc. split.
  - rewrite convert_fixed_width by done.
    destruct c; simpl in Hc; [done| |]; simpl.
    + unfold _check_zlib. by rewrite Hc.
    + unfold _check_blosc. by rewrite Hc.
  - unfold unconvert.
    rewrite is_object_dtype_np, bool_decide_eq_false_2 by done.
    destruct c; simpl in Hc; [done| |];
      cbn -[frombuffer _move_into_mutable_buffer].
    + unfold _check_zlib. by rewrite Hc.
    + unfold _check_blosc. by rewrite Hc.
Qed.

(** Surroundings in which zlib could not be imported. *)
Definition env_without_zlib : Env :=
  {| zlib_installed := false;
     zlib_compress := stored_compress;
     zlib_decompress := stored_decompress false;
     blosc_installed := true;
     blosc_compress := λ b _, stored_compress b;
     blosc_decompress := stored_decompress false;
     _is_pandas_legacy_version := false;
     legacy_PeriodIndex := legacy_PeriodIndex (stored_env false false);
     is_consolidated := λ _, true;
     consolidate := λ mgr, mgr;
     get_indexer := get_indexer (stored_env false false);
     np_tolist := λ _ _, [];
     np_scalars := λ _ _, [];
     date_isoformat := λ _, "";
     datetime_isoformat := λ _, "";
     datetime64_str := λ _ _, "";
     dateutil_parse := dateutil_parse (stored_env false false);
     datetime64_of_datetime := λ _, VNone;
     np_complex_of_parts := λ dt re im, VNpComplex dt re im;
     lib_str_eq := stored_str_eq;
     np_array_nested := np_array_nested (stored_env false false);
     typeDict_other := λ _, None;
     np_scalar_call := np_scalar_call (stored_env false false);
     int_other := int_other (stored_env false false);
     float_other := float_other (stored_env false false);
     to_offset := stored_offset;
     period_freq := stored_period_freq;
     index_freq := stored_index_freq;
     timezone := stored_timezone |}.

Lemma missing_backend_raises_import_error_witness :
  convert env_without_zlib (VStr "zlib")
    (VNdarray uint8 [2%nat] [Byte.x01; Byte.x02])
  = Raise (ImportError "zlib is not installed")
  ∧ unconvert env_without_zlib (VExtType 0 [Byte.x78; Byte.x01; Byte.x02])
      (NpDtype uint8) (VStr "zlib")
    = liftW (Raise (ImportError "zlib is not installed")).
Proof.
  apply (missing_backend_raises_import_error env_without_zlib Zlib uint8 [2%nat]
           [Byte.x01; Byte.x02] [Byte.x78; Byte.x01; Byte.x02]).
  - discriminate.
  - reflexivity.
Defined.



(** X3. The code of an extension value only decides how [unconvert] takes
    the bytes out of it: code 0 gives [.data], any other code goes through
    [values[1]], which is the same field.  So for a fixed-width dtype the
    payload is read alike whatever the code. *)
Theorem extension_code_is_ignored
    (E : Env) (code : Z) data (d : dtype_like) (compress : value) :
  is_categorical_dtype_like d = false →
  is_object_dtype E d = false →
  unconvert E (VExtType code data) d compress
  = unconvert E (VExtType 0 data) d compress.
Proof.
  intros Hcat Hobj. unfold unconvert. rewrite Hcat, Hobj.
  destruct code; reflexivity.
Qed.

Lemma extension_code_is_ignored_witness :
  unconvert (stored_env false false) (VExtType 5 [Byte.x01; Byte.x02])
    (NpDtype uint8) VNone
  = unconvert (stored_env false false) (VExtType 0 [Byte.x01; Byte.x02])
      (NpDtype uint8) VNone.
Proof.
  apply (extension_code_is_ignored (stored_env false false) 5
           [Byte.x01; Byte.x02] (NpDtype uint8) VNone); reflexivity.
Defined.

(** X4. A payload whose length is no multiple of the item size is refused:
    without compression [unconvert] hands the bytes to [np.frombuffer],
    whose value error comes out, and no array is built from a part of
    them. *)
Theorem truncated_payload_is_refused (E : Env) dt data :
  dt ≠ object_ →
  (length data mod itemsize dt ≠ 0)%nat →
  ∃ msg, unconvert E (VExtType 0 data) (NpDtype dt) VNone
         = liftW (Raise (ValueError msg)).
Proof.
  intros Hdt Hlen. rewrite unconvert_raw by done.
  unfold frombuffer.
  apply Nat.eqb_neq in Hlen. rewrite Hlen.
  destruct dt; try done; by eexists.
Qed.

Lemma truncated_payload_is_refused_witness :
  ∃ msg, unconvert (stored_env false false)
           (VExtType 0 [Byte.x01; Byte.x02; Byte.x03]) (NpDtype int16) VNone
         = liftW (Raise (ValueError msg)).
Proof.
  apply (truncated_payload_is_refused (stored_env false false) int16
           [Byte.x01; Byte.x02; Byte.x03]).
  - discriminate.
  - simpl. lia.
Defined.

Lemma warnings_bind_liftW {A B} (m : result A) (f : A → W B) :
  warnings (liftW m ≫= f)
  = match m with Ok a => warnings (f a) | Raise _ => [] end.
Proof. by destruct m. Qed.

(** X5. [unconvert] warns at most once, with the performance warning
    about the copy, and only on the compressed path: when the compress
    field is empty or absent it gives no warning at all. *)
Theorem unconvert_warns_at_most_once
    (E : Env) (values : value) (d : dtype_like) (compress : value) :
  (warnings (unconvert E values d compress) = []
   ∨ warnings (unconvert E values d compress) = [copy_warning])
  ∧ (truthy compress = false → warnings (unconvert E values d compress) = []).
Proof.
  assert (H : (truthy compress = false →
               warnings (unconvert E values d compress) = [])
              ∧ (warnings (unconvert E values d compress) = []
                 ∨ warnings (unconvert E values d compress) = [copy_warning])).
  2: { destruct H; by split. }
  unfold unconvert.
  destruct (is_categorical_dtype_like d); [by split; [|left]|].
  destruct (is_object_dtype E d); [by split; [|left]|].
  rewrite warnings_bind_liftW.
  destruct (d0 ← pandas_dtype E d; dtype_base d0) as [dt|]; [|by split; [|left]].
  rewrite warnings_bind_liftW.
  match goal with |- context [match ?m with Ok _ => _ | Raise _ => [] end] =>
    destruct m as [v|] end; [|by split; [|left]].
  destruct (truthy compress).
  - split; [done|].
    rewrite warnings_bind_liftW.
    match goal with |- context [match ?m with Ok _ => _ | Raise _ => [] end] =>
      destruct m as [dec|] end; [|by left].
    rewrite warnings_bind_liftW.
    destruct (as_bytes v) as [b|]; [|by left].
    rewrite warnings_bind_liftW.
    destruct (dec b) as [r|]; [|by left].
    rewrite unconvert_moved. simpl. unfold copy_warnings.
    destruct (shared r && (1 <? length (contents r))%nat); [by right|by left].
  - rewrite warnings_bind_liftW.
    destruct (as_bytes v); by split; [|left].
Qed.

Lemma unconvert_warns_at_most_once_witness :
  (warnings (unconvert (stored_env true false)
               (VExtType 0 [Byte.x78; Byte.x01; Byte.x02]) (NpDtype uint8) VNone) = []
   ∨ warnings (unconvert (stored_env true false)
                 (VExtType 0 [Byte.x78; Byte.x01; Byte.x02]) (NpDtype uint8) VNone)
     = [copy_warning])
  ∧ warnings (unconvert (stored_env true false)
                (VExtType 0 [Byte.x78; Byte.x01; Byte.x02]) (NpDtype uint8) VNone) = [].
Proof.
  pose proof (unconvert_warns_at_most_once (stored_env true false)
                (VExtType 0 [Byte.x78; Byte.x01; Byte.x02]) (NpDtype uint8) VNone)
    as [H1 H2].
  split; [exact H1 | apply H2; reflexivity].
Defined.

(** X6. Categorical values skip the converters: [convert] returns them
    as they are whatever the compressor, also one that is not installed,
    and [unconvert] with the dtype name of a categorical returns its
    argument without a warning, whatever the compress field says. *)
Theorem categorical_values_skip_the_converters
    (E : Env) (compressor compress : value) codes categories ordered :
  convert E compressor (VCategorical codes categories ordered)
  = Ok (VCategorical codes categories ordered)
  ∧ unconvert E (VCategorical codes categories ordered)
      (dtype_for E (VStr "category")) compress
    = mret (VCategorical codes categories ordered).
Proof. split; reflexivity. Qed.

(** * Further properties of the dispatch *)

(** The tags [decode] has a branch for, in the order of its tests. *)
Definition decode_tags : list string :=
  ["timestamp"; "nat"; "period"; "index"; "range_index"; "multi_index";
   "period_index"; "datetime_index"; "category"; "series"; "block_manager";
   "datetime"; "datetime64"; "date"; "timedelta"; "timedelta64";
   "block_index"; "int_index"; "ndarray"; "np_scalar"; "np_complex"].

Definition known_tag (typ : value) : bool :=
  match typ with
  | VStr s => existsb (String.eqb s) decode_tags
  | _ => false
  end.

(** The values under the typ key that are no tag and that compare with a
    string as Python itself compares: none, a string that is none of the
    tags, and the other values of Python.  An array, a series or another
    object of numpy or pandas is not among them: its comparison with the
    first tag is its own. *)
Definition no_tag (typ : value) : bool :=
  match typ with
  | VStr s => negb (existsb (String.eqb s) decode_tags)
  | VNone | VBool _ | VInt _ | VFloat _ | VComplex _ _ | VBytes _
  | VTuple _ | VList _ | VDict _ | VExtType _ _
  | VDate _ | VDatetime _ | VTimedelta _ _ _ | VTz _ => true
  | _ => false
  end.

(** X7.  [decode] is the identity on every mapping that is no record of
    the format: one without a typ key, one whose typ is null, a string that
    none of the branches tests for, or another value of Python (a number,
    bytes, a tuple, a list, a mapping).  It gives no warning and looks at
    no other key. *)
Theorem decode_leaves_other_mappings (E : Env) (d : gmap string value) :
  no_tag (dict_get d "typ") = true →
  decode E (VDict d) = mret (VDict d).
Proof.
  intros H. unfold decode. cbv zeta.
  destruct (dict_get d "typ"); try discriminate H; try reflexivity.
  cbn [no_tag] in H. apply negb_true_iff in H.
  unfold decode_tags in H. cbn [existsb] in H.
  repeat (apply orb_false_elim in H as [? H]).
  cbn [is_none str_eq].
  repeat match goal with
         | Heq : String.eqb _ _ = false |- _ => rewrite Heq; clear Heq
         end.
  reflexivity.
Qed.

Lemma decode_leaves_other_mappings_witness :
  decode (stored_env false false)
    (record [("typ", VStr "sparse_series"); ("klass", VStr "SparseSeries")])
  = mret (record [("typ", VStr "sparse_series"); ("klass", VStr "SparseSeries")]).
Proof.
  apply (decode_leaves_other_mappings (stored_env false false)
           (list_to_map [("typ", VStr "sparse_series");
                         ("klass", VStr "SparseSeries")])).
  reflexivity.
Defined.

(** With an array of more than one item under the typ key the first
    comparison has no truth value, and [decode] raises. *)
Example decode_with_an_array_as_typ :
  decode (stored_env false false)
    (record [("typ", VObjArray [2%nat] [VStr "nat"; VStr "nat"])])
  = liftW (Raise (ValueError "The truth value is ambiguous")).
Proof. reflexivity. Qed.

(** The result of [encode] is its argument or a record with a tag that
    [decode] has a branch for. *)
Definition tagged (r : value) : Prop :=
  ∃ d, r = VDict d ∧ known_tag (dict_get d "typ") = true.

Definition same_or_tagged {A} (obj : value) (m : result A) (k : A → value) : Prop :=
  ∀ a, m = Ok a → k a = obj ∨ tagged (k a).

Lemma tagged_bind {A B} obj (m : result A) (f : A → result B) k :
  (∀ a, same_or_tagged obj (f a) k) → same_or_tagged obj (m ≫= f) k.
Proof. intros Hf b. destruct m as [a|e]; simpl; [apply Hf|discriminate]. Qed.

Lemma tagged_Raise {A} obj (e : exn) k : same_or_tagged obj (@Raise A e) k.
Proof. intros a. discriminate. Qed.

Lemma tagged_record obj (kvs : list (string * value)) :
  known_tag (dict_get (list_to_map kvs) "typ") = true →
  same_or_tagged obj (Ok (record kvs)) id.
Proof. intros H a [= <-]. right. by eexists. Qed.

Lemma tagged_same obj : same_or_tagged obj (Ok obj) id.
Proof. intros a [= <-]. by left. Qed.

Ltac tagged_step :=
  lazymatch goal with
  | |- same_or_tagged _ (Ok (record _)) _ => apply tagged_record; reflexivity
  | |- same_or_tagged ?o (Ok ?o) _ => apply tagged_same
  | |- same_or_tagged _ (Raise _) _ => apply tagged_Raise
  | |- same_or_tagged _ (_ ≫= _) _ => apply tagged_bind; intros ?
  | |- same_or_tagged _ (if ?b then _ else _) _ => destruct b
  | |- same_or_tagged _ (match ?x with _ => _ end) _ => destruct x
  | |- same_or_tagged _ (let _ := _ in _) _ => cbv zeta
  end.

(** X8. Whatever [encode] returns is either its argument, unchanged, or a
    mapping whose typ is one of the tags [decode] has a branch for: the
    encoder writes no tag the decoder would pass over. *)
Theorem encode_writes_only_known_tags (E : Env) (compressor obj r : value) :
  encode E compressor obj = Ok r →
  r = obj ∨ ∃ d, r = VDict d ∧ known_tag (dict_get d "typ") = true.
Proof.
  revert r. change (same_or_tagged obj (encode E compressor obj) id).
  destruct obj;
    try match goal with
      | k : index_class |- _ => destruct k
      | d : dtype |- _ => destruct d
      | k : block_class |- _ => destruct k
      end;
    unfold encode; eval_isinstance; repeat tagged_step.
Qed.

Lemma encode_writes_only_known_tags_witness :
  record [("typ", VStr "timedelta"); ("data", VTuple [VInt 1; VInt 30; VInt 0])]
  = VTimedelta 1 30 0
  ∨ ∃ d, record [("typ", VStr "timedelta");
                 ("data", VTuple [VInt 1; VInt 30; VInt 0])] = VDict d
         ∧ known_tag (dict_get d "typ") = true.
Proof.
  apply (encode_writes_only_known_tags (stored_env false false) VNone
           (VTimedelta 1 30 0)).
  reflexivity.
Defined.

(** The values of Python and of the wire format that [encode] has no
    branch for. *)
Definition plain (v : value) : bool :=
  match v with
  | VNone | VBool _ | VInt _ | VFloat _ | VStr _ | VBytes _
  | VTuple _ | VList _ | VDict _ | VExtType _ _ => true
  | _ => false
  end.

(** X9. [encode] returns the plain values as they are, whatever the
    compressor: none, booleans, integers, floats, text, bytes, tuples,
    lists, mappings and extension values match none of its tests.  A
    mapping is not looked into, so one that carries a typ key of its own
    goes out unchanged too. *)
Theorem encode_leaves_plain_values (E : Env) (compressor obj : value) :
  plain obj = true →
  encode E compressor obj = Ok obj.
Proof.
  intros H. destruct obj; try discriminate H;
    unfold encode; eval_isinstance; reflexivity.
Qed.

Lemma encode_leaves_plain_values_witness :
  encode (stored_env false false) (VStr "zlib")
    (VList [VInt 1; record [("typ", VStr "nat")]])
  = Ok (VList [VInt 1; record [("typ", VStr "nat")]]).
Proof.
  apply (encode_leaves_plain_values (stored_env false false) (VStr "zlib")
           (VList [VInt 1; record [("typ", VStr "nat")]])).
  reflexivity.
Defined.

Lemma decode_timestamp E (d : gmap string value) :
  dict_get d "typ" = VStr "timestamp" →
  decode E (VDict d)
  = liftW (
      freq ← (if dict_has d "freq" then getitem d "freq" else getitem d "offset");
      val ← getitem d "value";
      tz ← getitem d "tz";
      Timestamp_new E val tz freq).
Proof. intros H. unfold decode. rewrite H. reflexivity. Qed.

Lemma dict_has_None (d : gmap string value) k : d !! k = None → dict_has d k = false.
Proof.
  intros H. unfold dict_has. apply bool_decide_eq_false_2.
  rewrite H. by intros [? ?].
Qed.

Lemma dict_has_Some (d : gmap string value) k v :
  d !! k = Some v → dict_has d k = true.
Proof. intros H. unfold dict_has. apply bool_decide_eq_true_2. by rewrite H. Qed.

(** X10. A timestamp record of the older layout, with the frequency under
    the key offset and no freq key, decodes as the same record with the
    frequency under freq: the offset key is read only when freq is
    absent. *)
Theorem timestamp_offset_is_the_fallback
    (E : Env) (d : gmap string value) (f : value) :
  dict_get d "typ" = VStr "timestamp" →
  d !! "freq" = None →
  d !! "offset" = Some f →
  decode E (VDict d) = decode E (VDict (<["freq" := f]> d)).
Proof.
  intros Htyp Hfreq Hoff.
  rewrite !decode_timestamp by (by rewrite ?dict_get_insert_ne).
  rewrite (dict_has_None _ _ Hfreq), (getitem_Some _ _ _ Hoff).
  rewrite (dict_has_Some _ "freq" f) by apply lookup_insert_eq.
  rewrite (getitem_Some _ "freq" f) by apply lookup_insert_eq.
  by rewrite !getitem_insert_ne.
Qed.

Lemma timestamp_offset_is_the_fallback_witness :
  decode (stored_env false false)
    (record [("typ", VStr "timestamp"); ("value", VInt 86400000000000);
             ("offset", VStr "D"); ("tz", VNone)])
  = decode (stored_env false false)
      (VDict (<["freq" := VStr "D"]>
                (list_to_map [("typ", VStr "timestamp");
                              ("value", VInt 86400000000000);
                              ("offset", VStr "D"); ("tz", VNone)]))).
Proof.
  apply (timestamp_offset_is_the_fallback (stored_env false false)
           (list_to_map [("typ", VStr "timestamp"); ("value", VInt 86400000000000);
                         ("offset", VStr "D"); ("tz", VNone)]) (VStr "D"));
    reflexivity.
Defined.

(** * Records with and without the compress key *)

(** The tags whose branch reads the compress key with [obj.get]. *)
Definition compress_optional_tags : list string :=
  ["index"; "multi_index"; "period_index"; "datetime_index"; "ndarray"].

Lemma dict_get_absent (d : gmap string value) k :
  d !! k = None → dict_get (<[k := VNone]> d) k = dict_get d k.
Proof. intros H. unfold dict_get. by rewrite lookup_insert_eq, H. Qed.

(** X11. The index kinds and the plain array read the compress key with
    [obj.get]: a record of one of these kinds that has no compress key
    decodes exactly as the same record with a null compress key, that is,
    as uncompressed. *)
Theorem absent_compress_reads_as_none
    (E : Env) (d : gmap string value) (t : string) :
  dict_get d "typ" = VStr t →
  existsb (String.eqb t) compress_optional_tags = true →
  d !! "compress" = None →
  decode E (VDict d) = decode E (VDict (<["compress" := VNone]> d)).
Proof.
  intros Htyp Ht Hc.
  assert (Htyp' : dict_get (<["compress" := VNone]> d) "typ" = VStr t)
    by (by rewrite dict_get_insert_ne).
  unfold compress_optional_tags in Ht. cbn [existsb] in Ht.
  repeat (apply orb_prop in Ht as [Ht|Ht]); try discriminate Ht;
    apply String.eqb_eq in Ht; subst t.
  - rewrite !decode_index by done.
    rewrite (dict_get_absent _ _ Hc). by rewrite !getitem_insert_ne.
  - rewrite !decode_multi_index by done.
    rewrite (dict_get_absent _ _ Hc). by rewrite !getitem_insert_ne.
  - rewrite !decode_period_index by done.
    rewrite (dict_get_absent _ _ Hc). by rewrite !getitem_insert_ne.
  - rewrite !decode_datetime_index by done.
    rewrite (dict_get_absent _ _ Hc). by rewrite !getitem_insert_ne.
  - rewrite !decode_ndarray by done.
    rewrite (dict_get_absent _ _ Hc). by rewrite !getitem_insert_ne.
Qed.

Lemma absent_compress_reads_as_none_witness :
  decode (stored_env false false)
    (record [("typ", VStr "ndarray"); ("shape", VTuple [VInt 2]);
             ("ndim", VInt 1); ("dtype", VStr "uint8");
             ("data", VExtType 0 [Byte.x01; Byte.x02])])
  = decode (stored_env false false)
      (VDict (<["compress" := VNone]>
                (list_to_map [("typ", VStr "ndarray"); ("shape", VTuple [VInt 2]);
                              ("ndim", VInt 1); ("dtype", VStr "uint8");
                              ("data", VExtType 0 [Byte.x01; Byte.x02])]))).
Proof.
  apply (absent_compress_reads_as_none (stored_env false false)
           (list_to_map [("typ", VStr "ndarray"); ("shape", VTuple [VInt 2]);
                         ("ndim", VInt 1); ("dtype", VStr "uint8");
                         ("data", VExtType 0 [Byte.x01; Byte.x02])]) "ndarray");
    reflexivity.
Defined.

Ltac raise_or_go :=
  repeat lazymatch goal with
    | |- ∃ e, liftW (Raise ?x) ≫= _ = _ => by exists x
    | |- ∃ e, liftW (Ok _) ≫= _ = _ => rewrite W_bind_Ok
    | |- ∃ e, liftW ?m ≫= _ = _ =>
        let H := fresh in destruct m eqn:H
    end.

(** X12. A series record and a block record read the compress key with
    [obj[...]]: without that key the series record does not decode and
    [create_block] builds no block; each ends in an exception, raised
    before [unconvert] is reached, so without a warning. *)
Theorem series_and_blocks_need_the_compress_key
    (E : Env) (d : gmap string value) :
  d !! "compress" = None →
  (dict_get d "typ" = VStr "series" →
   ∃ e, decode E (VDict d) = liftW (Raise e))
  ∧ (∀ axes, ∃ e, create_block E axes (VDict d) = liftW (Raise e)).
Proof.
  intros Hc. split.
  - intros Htyp. rewrite decode_series by done.
    rewrite (getitem_None _ _ Hc). raise_or_go.
  - intros axes. unfold create_block.
    rewrite (getitem_None _ _ Hc). raise_or_go.
Qed.

Lemma series_and_blocks_need_the_compress_key_witness :
  (dict_get (list_to_map [("typ", VStr "series"); ("klass", VStr "Series");
                          ("name", VNone);
                          ("index", VRangeIndex VNone 0 2 1);
                          ("dtype", VStr "uint8");
                          ("data", VExtType 0 [Byte.x01; Byte.x02])]) "typ"
   = VStr "series" →
   ∃ e, decode (stored_env false false)
          (VDict (list_to_map [("typ", VStr "series"); ("klass", VStr "Series");
                               ("name", VNone);
                               ("index", VRangeIndex VNone 0 2 1);
                               ("dtype", VStr "uint8");
                               ("data", VExtType 0 [Byte.x01; Byte.x02])]))
        = liftW (Raise e))
  ∧ (∀ axes, ∃ e,
       create_block (stored_env false false) axes
         (VDict (list_to_map [("typ", VStr "series"); ("klass", VStr "Series");
                              ("name", VNone);
                              ("index", VRangeIndex VNone 0 2 1);
                              ("dtype", VStr "uint8");
                              ("data", VExtType 0 [Byte.x01; Byte.x02])]))
       = liftW (Raise e)).
Proof.
  apply (series_and_blocks_need_the_compress_key (stored_env false false)
           (list_to_map [("typ", VStr "series"); ("klass", VStr "Series");
                         ("name", VNone);
                         ("index", VRangeIndex VNone 0 2 1);
                         ("dtype", VStr "uint8");
                         ("data", VExtType 0 [Byte.x01; Byte.x02])])).
  reflexivity.
Defined.

(** * What a round trip changes *)

(** X13. A [np.timedelta64] comes back with its count and without its
    unit: [encode] writes the integer view of the scalar, and [decode]
    builds a [np.timedelta64] from that integer alone. *)
Theorem timedelta64_comes_back_without_its_unit
    (E : Env) (compressor : value) (n : Z) (unit : string) :
  roundtrip E compressor (VTimedelta64 n unit) = mret (VTimedelta64 n "generic").
Proof. unfold roundtrip, encode. eval_isinstance. reflexivity. Qed.

(** X14. Outside the legacy mode a period index comes back with its
    frequency and its ordinals and without its name: [encode] writes the
    name, and [decode] reads it but builds the index from the periods
    alone.  The periods of the index are not all missing, and its frequency
    is one pandas knows by the name the index gives. *)
Theorem period_index_comes_back_without_its_name
    (E : Env) (c : choice) (name : value) (freq : string) (ords : list Z) :
  _is_pandas_legacy_version E = false →
  backend_ok E c →
  Forall int64_range ords →
  Exists (λ n, n ≠ iNaT) ords →
  known_period_freq E freq →
  outcome (roundtrip E (choice_value c) (VPeriodIndex name freq ords))
  = Ok (VPeriodIndex VNone freq ords).
Proof.
  intros Hlegacy Hc Hords Hsome Hfreq.
  destruct (int64_array_restored E c ords Hc) as (p & Hconv & Hun).
  unfold roundtrip. rewrite encode_PeriodIndex, Hconv.
  cbn [mbind result_bind].
  rewrite (decode_period_index_record E p name freq freq ords) by done.
  by apply PeriodIndex_new_periods.
Qed.

Lemma period_index_comes_back_without_its_name_witness :
  outcome (roundtrip (stored_env false false) (VStr "zlib")
             (VPeriodIndex (VStr "month") "M" [600; iNaT; 601]))
  = Ok (VPeriodIndex VNone "M" [600; iNaT; 601]).
Proof.
  apply (period_index_comes_back_without_its_name (stored_env false false) Zlib
           (VStr "month") "M" [600; iNaT; 601]).
  - reflexivity.
  - apply stored_env_backend_ok.
  - repeat constructor; unfold int64_range, iNaT; lia.
  - left. discriminate.
  - reflexivity.
Defined.

(** X15. The shape of an array record has to fit its payload: when the
    declared shape asks for another number of items than the payload
    holds, [decode] raises the value error of [reshape] and returns no
    array. *)
Theorem ndarray_shape_must_fit_the_payload
    (E : Env) (dt : dtype) (shape : list nat) (ndim : value) (buf : list byte)
    (n : nat) :
  typeDict E (VStr (dtype_name dt)) = Some dt →
  dt ≠ object_ →
  length buf = (itemsize dt * n)%nat →
  size_of shape ≠ n →
  ∃ msg,
    decode E (record [("typ", VStr "ndarray"); ("shape", shape_tuple shape);
                      ("ndim", ndim); ("dtype", VStr (dtype_name dt));
                      ("data", VExtType 0 buf); ("compress", VNone)])
    = liftW (Raise (ValueError msg)).
Proof.
  intros Ht Hdt Hlen Hsize. unfold record.
  rewrite decode_ndarray by reflexivity.
  change (getitem _ "dtype") with (Ok (VStr (dtype_name dt))).
  change (getitem _ "data") with (Ok (VExtType 0 buf)).
  change (dict_get _ "compress") with VNone.
  change (getitem _ "shape") with (Ok (shape_tuple shape)).
  rewrite W_bind_Ok. cbn [mbind result_bind]. rewrite Ht, W_bind_Ok.
  rewrite unconvert_NpType, unconvert_raw by done.
  rewrite (frombuffer_ok dt buf n) by done.
  rewrite W_bind_Ok. cbn [mbind result_bind].
  unfold reshape. rewrite shape_of_shape_tuple. cbn [mbind result_bind size_of].
  replace (size_of [n]) with n by (simpl; lia).
  assert (Hne : (n =? size_of shape)%nat = false) by (apply Nat.eqb_neq; congruence).
  rewrite Hne. by eexists.
Qed.

Lemma ndarray_shape_must_fit_the_payload_witness :
  ∃ msg,
    decode (stored_env false false)
      (record [("typ", VStr "ndarray"); ("shape", shape_tuple [2%nat; 2%nat]);
               ("ndim", VInt 2); ("dtype", VStr (dtype_name uint8));
               ("data", VExtType 0 [Byte.x01; Byte.x02; Byte.x03]);
               ("compress", VNone)])
    = liftW (Raise (ValueError msg)).
Proof.
  apply (ndarray_shape_must_fit_the_payload (stored_env false false) uint8
           [2%nat; 2%nat] (VInt 2) [Byte.x01; Byte.x02; Byte.x03] 3).
  - reflexivity.
  - discriminate.
  - reflexivity.
  - simpl. lia.
Defined.

(** * numpy scalars *)

Lemma string_app_nil_r (s : string) : s +:+ "" = s.
Proof. induction s as [|c s IH]; [done|]. simpl. by rewrite IH. Qed.

Definition digit_of_N (x : N) : digit :=
  match x with
  | 0 => d0 | 1 => d1 | 2 => d2 | 3 => d3 | 4 => d4
  | 5 => d5 | 6 => d6 | 7 => d7 | 8 => d8 | _ => d9
  end%N.

Lemma char_digit_pretty (x : N) :
  char_digit (pretty_N_char x) = Some (digit_of_N x).
Proof.
  destruct x as [|p]; [done|].
  do 4 (destruct p as [p|p|]; try done).
Qed.

Lemma digit_Z_of_N (x : N) : (x < 10)%N → digit_Z (digit_of_N x) = Z.of_N x.
Proof.
  intros H.
  assert (x = 0 ∨ x = 1 ∨ x = 2 ∨ x = 3 ∨ x = 4 ∨ x = 5 ∨ x = 6 ∨ x = 7
          ∨ x = 8 ∨ x = 9)%N as Hx by lia.
  repeat (destruct Hx as [-> | Hx]; [done|]). by subst x.
Qed.

Definition digits_value (acc : Z) (ds : list digit) : Z :=
  foldl (λ acc d, 10 * acc + digit_Z d) acc ds.

(** The digits [pretty] writes are read back to the number. *)
Lemma scan_pretty_N_go (x : N) :
  ∀ (s : string) (ds : list digit),
    scan_digits s = (ds, "") →
    ∃ ds', scan_digits (pretty_N_go x s) = ((ds' ++ ds)%list, "")
           ∧ (∀ a, digits_value a ds' = a * 10 ^ Z.of_nat (length ds') + Z.of_N x)
           ∧ ((0 < x)%N → ds' ≠ []).
Proof.
  induction (N.lt_wf_0 x) as [x _ IH]. intros s ds Hs.
  assert (x = 0 ∨ 0 < x)%N as [-> | Hpos] by lia.
  - exists []. rewrite pretty_N_go_0. split; [done|]. split; [|lia].
    intros a. simpl. lia.
  - rewrite pretty_N_go_step by done.
    destruct (IH (x `div` 10)%N (N.div_lt x 10 Hpos eq_refl)
                (String (pretty_N_char (x `mod` 10)) s)
                (digit_of_N (x `mod` 10) :: ds)) as (ds' & Hscan & Hval & _).
    { simpl. by rewrite char_digit_pretty, Hs. }
    exists (ds' ++ [digit_of_N (x `mod` 10)])%list.
    split; [by rewrite <- app_assoc|]. split.
    + intros a. unfold digits_value in *. rewrite foldl_app. simpl.
      rewrite Hval, digit_Z_of_N by (apply N.mod_lt; lia).
      rewrite length_app, Nat2Z.inj_add. simpl length.
      rewrite Z.pow_add_r by lia.
      rewrite N2Z.inj_div, N2Z.inj_mod.
      pose proof (Z.div_mod (Z.of_N x) 10). lia.
    + intros _. by destruct ds'.
Qed.

Lemma scan_sign_digit (s r : string) (d : digit) (ds : list digit) :
  scan_digits s = (d :: ds, r) → scan_sign s = (false, s).
Proof.
  destruct s as [|c s]; [done|].
  destruct c as [[] [] [] [] [] [] [] []]; simpl; try discriminate; reflexivity.
Qed.

Lemma int_of_text_pretty_N (x : N) (neg : bool) :
  (0 < x)%N →
  int_of_text (sign_str neg +:+ pretty_N_go x "")
  = Some (if neg then - Z.of_N x else Z.of_N x).
Proof.
  intros Hpos.
  destruct (scan_pretty_N_go x "" [] eq_refl) as (ds & Hscan & Hval & Hne).
  rewrite app_nil_r in Hscan. specialize (Hne Hpos).
  destruct ds as [|d ds]; [done|].
  assert (Hsign : scan_sign (sign_str neg +:+ pretty_N_go x "")
                  = (neg, pretty_N_go x "")).
  { destruct neg; [done|]. simpl. by apply (scan_sign_digit _ "" d ds). }
  unfold int_of_text. rewrite Hsign, Hscan.
  fold (digits_value 0 (d :: ds)). rewrite Hval. simpl. reflexivity.
Qed.

(** The decimal text of an integer is read back to the integer. *)
Lemma int_of_text_pretty (n : Z) : int_of_text (pretty n) = Some n.
Proof.
  destruct n as [|p|p].
  - reflexivity.
  - change (pretty (Z.pos p)) with (sign_str false +:+ pretty_N_go (N.pos p) "").
    by rewrite int_of_text_pretty_N.
  - change (pretty (Z.neg p)) with (sign_str true +:+ pretty_N_go (N.pos p) "").
    by rewrite int_of_text_pretty_N.
Qed.

Definition is_np_integer (d : dtype) : bool :=
  match d with
  | int8 | int16 | int32 | int64 | uint8 | uint16 | uint32 | uint64 => true
  | _ => false
  end.

(** X16. An integer numpy scalar comes back as it was: [encode] writes
    the name of its dtype and the decimal text of its value, and [decode]
    calls the scalar type of that name on the text, which reads the same
    integer.  That is so for every value the type holds, as that of every
    scalar numpy builds is; for a number outside the range of the type the
    call on its text is numpy's, and its failure becomes that of the
    fallback. *)
Theorem integer_scalars_round_trip
    (E : Env) (compressor : value) (dt : dtype) (n : Z) :
  is_np_integer dt = true →
  roundtrip E compressor (VNpInt dt n)
  = if int_fits dt n then mret (VNpInt dt n)
    else liftW (match np_scalar_call E dt (VStr (pretty n)) with
                | Ok v => Ok v
                | Raise _ => Raise (AttributeError "type")
                end).
Proof.
  intros Hdt.
  assert (Hparse : np_type_call E dt (VStr (pretty n))
                   = if int_fits dt n then Ok (VNpInt dt n)
                     else np_scalar_call E dt (VStr (pretty n))).
  { destruct dt; try discriminate Hdt; unfold np_type_call;
      by rewrite int_of_text_pretty. }
  destruct dt; try discriminate Hdt;
    unfold roundtrip, encode; eval_isinstance;
    cbn [iscomplexobj dtype_name_of getattr attrs assoc mbind result_bind
         repr_of];
    lazymatch type of Hparse with
    | np_type_call _ ?t _ = _ =>
        transitivity (liftW (match np_type_call E t (VStr (pretty n)) with
                             | Ok v => Ok v
                             | Raise _ => Raise (AttributeError "type")
                             end)); [reflexivity|]
    end;
    rewrite Hparse; by destruct (int_fits _ n).
Qed.

Lemma integer_scalars_round_trip_witness :
  roundtrip (stored_env false false) VNone (VNpInt int32 (-1204))
  = mret (VNpInt int32 (-1204)).
Proof.
  apply (integer_scalars_round_trip (stored_env false false) VNone int32 (-1204));
    reflexivity.
Defined.

Lemma decode_np_scalar E (d : gmap string value) :
  dict_get d "typ" = VStr "np_scalar" →
  str_eq E (dict_get d "sub_typ") "np_complex" = Ok false →
  decode E (VDict d)
  = liftW (
      dt ← getitem d "dtype";
      match (data ← getitem d "data";
             match dtype_for E dt with
             | NpType t => np_type_call E t data
             | _ => Raise (TypeError "object is not callable")
             end) with
      | Ok v => Ok v
      | Raise _ =>
          match dtype_for E dt with
          | NpDtype t => data ← getitem d "data"; np_type_call E t data
          | _ => Raise (AttributeError "type")
          end
      end).
Proof. intros H Hs. unfold decode. rewrite H. cbn. rewrite Hs. reflexivity. Qed.

Definition fails {A} (m : result A) : bool :=
  match m with Raise _ => true | Ok _ => false end.

(** X17. The scalar branch of [decode] calls what [dtype_for] gives and,
    on any exception, calls its [type] attribute instead.  So a record
    whose dtype resolves to a dtype object (the numbers 7, 21 and 22 and
    the datetime names of [dtype_dict]) is read by the scalar type of that
    dtype, as if the first call had not been made. *)
Theorem scalar_of_a_dtype_object_is_read_by_its_type
    (E : Env) (d : gmap string value) (dt : value) (t : dtype) :
  dict_get d "typ" = VStr "np_scalar" →
  str_eq E (dict_get d "sub_typ") "np_complex" = Ok false →
  d !! "dtype" = Some dt →
  dtype_for E dt = NpDtype t →
  decode E (VDict d) = liftW (data ← getitem d "data"; np_type_call E t data).
Proof.
  intros Htyp Hsub Hdt Hfor.
  rewrite decode_np_scalar by done.
  rewrite (getitem_Some _ _ _ Hdt). cbn [mbind result_bind].
  rewrite Hfor. by destruct (getitem d "data").
Qed.

Lemma scalar_of_a_dtype_object_is_read_by_its_type_witness :
  decode (stored_env false false)
    (VDict (list_to_map [("typ", VStr "np_scalar"); ("dtype", VInt 7);
                         ("data", VStr "12")]))
  = liftW (data ← getitem (list_to_map [("typ", VStr "np_scalar");
                                        ("dtype", VInt 7);
                                        ("data", VStr "12")]) "data";
           np_type_call (stored_env false false) int64 data).
Proof.
  apply (scalar_of_a_dtype_object_is_read_by_its_type (stored_env false false)
           (list_to_map [("typ", VStr "np_scalar"); ("dtype", VInt 7);
                         ("data", VStr "12")]) (VInt 7) int64);
    reflexivity.
Defined.

(** X18. When the dtype of a scalar record resolves to a scalar type and
    the first call fails, because the type rejects the data or because
    the data key is missing, the bare [except] takes the error away: what
    comes out is the attribute error of [dtype.type], which a scalar type
    does not have. *)
Theorem scalar_errors_are_replaced_by_the_fallback
    (E : Env) (d : gmap string value) (dt : value) (t : dtype) :
  dict_get d "typ" = VStr "np_scalar" →
  str_eq E (dict_get d "sub_typ") "np_complex" = Ok false →
  d !! "dtype" = Some dt →
  dtype_for E dt = NpType t →
  fails (data ← getitem d "data"; np_type_call E t data) = true →
  decode E (VDict d) = liftW (Raise (AttributeError "type")).
Proof.
  intros Htyp Hsub Hdt Hfor Hbad.
  rewrite decode_np_scalar by done.
  rewrite (getitem_Some _ _ _ Hdt). cbn [mbind result_bind].
  rewrite Hfor.
  by destruct (data ← getitem d "data"; np_type_call E t data).
Qed.

Lemma scalar_errors_are_replaced_by_the_fallback_witness :
  decode (stored_env false false)
    (VDict (list_to_map [("typ", VStr "np_scalar"); ("dtype", VStr "int64")]))
  = liftW (Raise (AttributeError "type")).
Proof.
  apply (scalar_errors_are_replaced_by_the_fallback (stored_env false false)
           (list_to_map [("typ", VStr "np_scalar"); ("dtype", VStr "int64")])
           (VStr "int64") int64);
    reflexivity.
Defined.

(** * Writing and reading streams *)

(** The module-level [compressor] and the files that [open] sees. *)
Record world : Type := mkWorld {
  compressor : value;
  files : gmap string (list byte);
}.

(** What [to_msgpack] takes as [path_or_buf]: a path (a [str] or a
    [Path]), [None], or an object with a [write] method, given here by the
    bytes written to it so far. *)
Inductive target : Type :=
| ToPath (path : string)
| ToNone
| ToBuffer (written : list byte).

(** What [read_msgpack] takes as [path_or_buf]: a path, a [bytes] object,
    an object with a [read] method, given by the bytes it will hand out,
    or anything else. *)
Inductive source : Type :=
| FromPath (path : string)
| FromBytes (data : list byte)
| FromFile (contents : list byte)
| FromOther (v : value).

(** What [read_msgpack] returns: the stored object or objects, or an
    [Iterator] over the source. *)
Inductive read_result : Type :=
| Stored (v : value)
| AnIterator (path_or_buf : source).

Definition not_readable : exn :=
  ValueError "path_or_buf needs to be a string file path or file-like".

Section Streams.

(** [pack(o, **kwargs)] as a function of the compressor that [encode]
    reads while packing, the keywords and the object; and
    [list(unpack(fh, encoding=encoding, **kwargs))] as a function of the
    bytes of [fh] and the keywords.  Both are the framing of the msgpack
    library around [encode] and [decode]. *)
Context (pack : value → gmap string value → value → result (list byte)).
Context (unpack : list byte → gmap string value → W (list value)).

(** [pandas.io.common.get_filepath_or_buffer] *)
Context (get_filepath_or_buffer : source → result source).

(** The inner function [writer] on a handle that holds [fh]: what was
    written stays written when a later [pack] raises. *)
Fixpoint writer (c : value) (kwargs : gmap string value) (args : list value)
    (fh : list byte) : list byte * result unit :=
  match args with
  | [] => (fh, Ok tt)
  | a :: args =>
      match pack c kwargs a with
      | Ok b => writer c kwargs args (fh ++ b)%list
      | Raise e => (fh, Raise e)
      end
  end.

(** [to_msgpack(path_or_buf, *args, **kwargs)]: the state afterwards, the
    target afterwards and what the call returns or raises.  Opening a path
    for writing is taken to succeed; mode "wb" starts from an empty file,
    mode "a+b" from the file as it is. *)
Definition to_msgpack (w : world) (path_or_buf : target) (args : list value)
    (kwargs : gmap string value) : world * target * result value :=
  let c := dict_get kwargs "compress" in
  let append := dict_get kwargs "append" in
  let kwargs := delete "append" (delete "compress" kwargs) in
  match path_or_buf with
  | ToPath p =>
      let fh := if truthy append then default [] (files w !! p) else [] in
      let out := writer c kwargs args fh in
      (mkWorld c (<[p := out.1]> (files w)), ToPath p, _ ← out.2; Ok VNone)
  | ToNone =>
      let out := writer c kwargs args [] in
      (mkWorld c (files w), ToNone, _ ← out.2; Ok (VBytes out.1))
  | ToBuffer written =>
      let out := writer c kwargs args written in
      (mkWorld c (files w), ToBuffer out.1, _ ← out.2; Ok VNone)
  end.

(** The inner function [read] on the list of the unpacked messages; the
    copy of a single array is an equal array. *)
Definition read (l : list value) : value :=
  match l with
  | [x] => x
  | _ => VList l
  end.

(** [read_msgpack(path_or_buf, encoding, iterator, **kwargs)]; the
    encoding is one of the keywords. *)
Definition read_msgpack (fs : gmap string (list byte)) (path_or_buf : source)
    (iterator : value) (kwargs : gmap string value) : W read_result :=
  path_or_buf ← liftW (get_filepath_or_buffer path_or_buf);
  if truthy iterator then mret (AnIterator path_or_buf)
  else
    let read_fh (fh : list byte) : W read_result :=
      l ← unpack fh kwargs; mret (Stored (read l)) in
    match path_or_buf with
    | FromPath p =>
        (* see if we have an actual file *)
        match fs !! p with
        | Some fh => read_fh fh
        | None => liftW (Raise not_readable)
        end
    | FromBytes data => read_fh data
    | FromFile contents => read_fh contents
    | FromOther _ => liftW (Raise not_readable)
    end.

Lemma writer_ok c kwargs args bs fh :
  mapM_result (pack c kwargs) args = Ok bs →
  writer c kwargs args fh = ((fh ++ concat bs)%list, Ok tt).
Proof.
  revert bs fh. induction args as [|a args IH]; intros bs fh H; simpl in *.
  - injection H as <-. simpl. by rewrite app_nil_r.
  - destruct (pack c kwargs a) as [b|]; [|done]. simpl in H.
    destruct (mapM_result (pack c kwargs) args) as [bs'|]; [|done].
    simpl in H. injection H as <-. rewrite (IH bs') by done.
    simpl. by rewrite app_assoc.
Qed.

Lemma writer_fails c kwargs done a rest bs e fh :
  mapM_result (pack c kwargs) done = Ok bs →
  pack c kwargs a = Raise e →
  writer c kwargs (done ++ a :: rest)%list fh = ((fh ++ concat bs)%list, Raise e).
Proof.
  revert bs fh. induction done as [|x done IH]; intros bs fh H Ha; simpl in *.
  - injection H as <-. rewrite Ha. simpl. by rewrite app_nil_r.
  - destruct (pack c kwargs x) as [b|]; [|done]. simpl in H.
    destruct (mapM_result (pack c kwargs) done) as [bs'|]; [|done].
    simpl in H. injection H as <-. rewrite (IH bs') by done.
    simpl. by rewrite app_assoc.
Qed.

Lemma writer_app c kwargs args1 args2 fh fh1 :
  writer c kwargs args1 fh = (fh1, Ok tt) →
  writer c kwargs (args1 ++ args2)%list fh = writer c kwargs args2 fh1.
Proof.
  revert fh. induction args1 as [|a args1 IH]; intros fh H; simpl in *.
  - by injection H as <-.
  - destruct (pack c kwargs a) as [b|]; [|done]. by apply IH.
Qed.

Lemma to_msgpack_path_ok w p args kwargs bs :
  mapM_result (pack (dict_get kwargs "compress")
                 (delete "append" (delete "compress" kwargs))) args = Ok bs →
  to_msgpack w (ToPath p) args kwargs
  = (mkWorld (dict_get kwargs "compress")
       (<[p := ((if truthy (dict_get kwargs "append")
                 then default [] (files w !! p) else []) ++ concat bs)%list]>
          (files w)),
     ToPath p, Ok VNone).
Proof.
  intros H. unfold to_msgpack. by rewrite (writer_ok _ _ _ bs).
Qed.

End Streams.

(** A stand-in for the framing, for evaluating the model: a [bytes]
    object is written as its bytes and anything else is refused; reading
    gives the bytes back as one message. *)
Definition raw_pack (c : value) (kwargs : gmap string value) (o : value)
  : result (list byte) :=
  match o with
  | VBytes b => Ok b
  | _ => Raise (TypeError "can't serialize")
  end.
Definition raw_unpack (fh : list byte) (kwargs : gmap string value) : W (list value) :=
  mret [VBytes fh].

(** X20. With [None] as the target, [to_msgpack] returns the packed
    messages of its arguments one after the other, in the order of the
    arguments; it touches no file, passes the keywords other than compress
    and append on to [pack], and leaves the module-level compressor set to
    the compress keyword (to [None] when there is none). *)
Theorem to_msgpack_returns_the_messages_in_order
    (pack : value → gmap string value → value → result (list byte))
    (w : world) (args : list value) (kwargs : gmap string value)
    (bs : list (list byte)) :
  mapM_result (pack (dict_get kwargs "compress")
                 (delete "append" (delete "compress" kwargs))) args = Ok bs →
  to_msgpack pack w ToNone args kwargs
  = (mkWorld (dict_get kwargs "compress") (files w), ToNone,
     Ok (VBytes (concat bs))).
Proof.
  intros H. unfold to_msgpack. by rewrite (writer_ok _ _ _ _ bs).
Qed.

Lemma to_msgpack_returns_the_messages_in_order_witness :
  to_msgpack raw_pack (mkWorld (VStr "zlib") ∅) ToNone
    [VBytes [Byte.x01]; VBytes [Byte.x02; Byte.x03]] ∅
  = (mkWorld VNone ∅, ToNone, Ok (VBytes [Byte.x01; Byte.x02; Byte.x03])).
Proof.
  etransitivity.
  - apply (to_msgpack_returns_the_messages_in_order raw_pack
           (mkWorld (VStr "zlib") ∅)
           [VBytes [Byte.x01]; VBytes [Byte.x02; Byte.x03]] ∅
           [[Byte.x01]; [Byte.x02; Byte.x03]]);
      reflexivity.
  - reflexivity.
Defined.

(** X21. With a path as the target, the file afterwards holds the packed
    messages in order, behind what it held before when append is set and
    alone when it is not; the other files stay as they are and the call
    returns [None]. *)
Theorem to_msgpack_writes_or_appends
    (pack : value → gmap string value → value → result (list byte))
    (w : world) (p : string) (args : list value) (kwargs : gmap string value)
    (bs : list (list byte)) :
  mapM_result (pack (dict_get kwargs "compress")
                 (delete "append" (delete "compress" kwargs))) args = Ok bs →
  to_msgpack pack w (ToPath p) args kwargs
  = (mkWorld (dict_get kwargs "compress")
       (<[p := ((if truthy (dict_get kwargs "append")
                 then default [] (files w !! p) else []) ++ concat bs)%list]>
          (files w)),
     ToPath p, Ok VNone).
Proof. apply to_msgpack_path_ok. Qed.

Lemma to_msgpack_writes_or_appends_witness :
  to_msgpack raw_pack (mkWorld VNone {[ "a.msg" := [Byte.x01] ]}) (ToPath "a.msg")
    [VBytes [Byte.x02]] {[ "append" := VBool true ]}
  = (mkWorld VNone
       (<["a.msg" := [Byte.x01; Byte.x02]]> {[ "a.msg" := [Byte.x01] ]}),
     ToPath "a.msg", Ok VNone).
Proof.
  etransitivity.
  - apply (to_msgpack_writes_or_appends raw_pack
           (mkWorld VNone {[ "a.msg" := [Byte.x01] ]}) "a.msg"
           [VBytes [Byte.x02]] {[ "append" := VBool true ]} [[Byte.x02]]);
      reflexivity.
  - reflexivity.
Defined.

(** X22. Writing to a path in two calls, the second with append set and
    with the same compress and other keywords, is the same as writing all
    the objects in one call: the same file, the same compressor
    afterwards, the same result, also when the second part fails. *)
Theorem appending_continues_a_write
    (pack : value → gmap string value → value → result (list byte))
    (w : world) (p : string) (args1 args2 : list value)
    (kwargs1 kwargs2 : gmap string value) :
  dict_get kwargs2 "compress" = dict_get kwargs1 "compress" →
  delete "append" (delete "compress" kwargs2)
  = delete "append" (delete "compress" kwargs1) →
  truthy (dict_get kwargs2 "append") = true →
  (to_msgpack pack w (ToPath p) args1 kwargs1).2 = Ok VNone →
  to_msgpack pack (to_msgpack pack w (ToPath p) args1 kwargs1).1.1 (ToPath p)
    args2 kwargs2
  = to_msgpack pack w (ToPath p) (args1 ++ args2)%list kwargs1.
Proof.
  intros Hc Hk Ha Hok. unfold to_msgpack in *. cbn [fst snd files] in *.
  rewrite Hc, Hk, Ha. rewrite lookup_insert_eq. cbn [default].
  set (c := dict_get kwargs1 "compress") in *.
  set (kw := delete "append" (delete "compress" kwargs1)) in *.
  set (fh := if truthy (dict_get kwargs1 "append")
             then default [] (files w !! p) else []) in *.
  destruct (writer pack c kw args1 fh) as [fh1 r1] eqn:Hw1.
  cbn [fst snd] in *. destruct r1 as [[]|]; [|done].
  rewrite (writer_app pack c kw args1 args2 fh fh1 Hw1).
  by rewrite insert_insert_eq.
Qed.

Lemma appending_continues_a_write_witness :
  to_msgpack raw_pack
    (to_msgpack raw_pack (mkWorld VNone ∅) (ToPath "a.msg")
       [VBytes [Byte.x01]] ∅).1.1
    (ToPath "a.msg") [VBytes [Byte.x02]] {[ "append" := VBool true ]}
  = to_msgpack raw_pack (mkWorld VNone ∅) (ToPath "a.msg")
      ([VBytes [Byte.x01]] ++ [VBytes [Byte.x02]])%list ∅.
Proof.
  etransitivity.
  - apply (appending_continues_a_write raw_pack (mkWorld VNone ∅) "a.msg"
           [VBytes [Byte.x01]] [VBytes [Byte.x02]] ∅
           {[ "append" := VBool true ]});
      reflexivity.
  - reflexivity.
Defined.

(** X23. When [pack] raises on one of the objects, [to_msgpack] raises
    that exception, and the file holds what was written before: the
    messages of the earlier objects, behind the old contents with append
    and alone without.  So without append a failing call has already
    thrown away what the file held, even when the first object fails. *)
Theorem a_failed_write_keeps_the_earlier_messages
    (pack : value → gmap string value → value → result (list byte))
    (w : world) (p : string) (done rest : list value) (a : value)
    (kwargs : gmap string value) (bs : list (list byte)) (e : exn) :
  mapM_result (pack (dict_get kwargs "compress")
                 (delete "append" (delete "compress" kwargs))) done = Ok bs →
  pack (dict_get kwargs "compress")
    (delete "append" (delete "compress" kwargs)) a = Raise e →
  to_msgpack pack w (ToPath p) (done ++ a :: rest)%list kwargs
  = (mkWorld (dict_get kwargs "compress")
       (<[p := ((if truthy (dict_get kwargs "append")
                 then default [] (files w !! p) else []) ++ concat bs)%list]>
          (files w)),
     ToPath p, Raise e).
Proof.
  intros H Ha. unfold to_msgpack.
  by rewrite (writer_fails _ _ _ _ _ _ bs e).
Qed.

Lemma a_failed_write_keeps_the_earlier_messages_witness :
  to_msgpack raw_pack (mkWorld VNone {[ "a.msg" := [Byte.x01] ]}) (ToPath "a.msg")
    ([] ++ VInt 5 :: [VBytes [Byte.x02]])%list ∅
  = (mkWorld VNone (<["a.msg" := []]> {[ "a.msg" := [Byte.x01] ]}),
     ToPath "a.msg", Raise (TypeError "can't serialize")).
Proof.
  etransitivity.
  - apply (a_failed_write_keeps_the_earlier_messages raw_pack
           (mkWorld VNone {[ "a.msg" := [Byte.x01] ]}) "a.msg" []
           [VBytes [Byte.x02]] (VInt 5) ∅ [] (TypeError "can't serialize"));
      reflexivity.
  - reflexivity.
Defined.

(** X24. A path that names no file is not read as data: [read_msgpack]
    falls through the test for bytes and the test for a [read] method and
    raises the value error about [path_or_buf], and it unpacks nothing. *)
Theorem a_missing_path_is_not_read
    (unpack : list byte → gmap string value → W (list value))
    (get_filepath_or_buffer : source → result source)
    (fs : gmap string (list byte)) (src : source) (p : string)
    (iterator : value) (kwargs : gmap string value) :
  get_filepath_or_buffer src = Ok (FromPath p) →
  truthy iterator = false →
  fs !! p = None →
  read_msgpack unpack get_filepath_or_buffer fs src iterator kwargs
  = liftW (Raise not_readable).
Proof.
  intros Hg Hi Hp. unfold read_msgpack. rewrite Hg, W_bind_Ok, Hi, Hp.
  reflexivity.
Qed.

Lemma a_missing_path_is_not_read_witness :
  read_msgpack raw_unpack Ok ∅ (FromPath "a.msg") (VBool false) ∅
  = liftW (Raise not_readable).
Proof.
  etransitivity.
  - apply (a_missing_path_is_not_read raw_unpack Ok ∅ (FromPath "a.msg") "a.msg"
           (VBool false) ∅);
      reflexivity.
  - reflexivity.
Defined.

(** X25. What [read_msgpack] reads from a file written by [to_msgpack]
    without append is the packed messages of that call and nothing of
    what the file held before: it unpacks exactly their concatenation,
    and returns the single object when one message comes out and the list
    of the objects otherwise. *)
Theorem reading_back_a_written_file
    (pack : value → gmap string value → value → result (list byte))
    (unpack : list byte → gmap string value → W (list value))
    (get_filepath_or_buffer : source → result source)
    (w : world) (p : string) (args : list value)
    (kwargs rkwargs : gmap string value) (bs : list (list byte)) :
  mapM_result (pack (dict_get kwargs "compress")
                 (delete "append" (delete "compress" kwargs))) args = Ok bs →
  truthy (dict_get kwargs "append") = false →
  get_filepath_or_buffer (FromPath p) = Ok (FromPath p) →
  read_msgpack unpack get_filepath_or_buffer
    (files (to_msgpack pack w (ToPath p) args kwargs).1.1)
    (FromPath p) (VBool false) rkwargs
  = (l ← unpack (concat bs) rkwargs;
     mret (Stored (match l with [x] => x | _ => VList l end))).
Proof.
  intros H Ha Hg.
  rewrite (to_msgpack_path_ok pack w p args kwargs bs H), Ha.
  cbn [fst snd files]. unfold read_msgpack.
  rewrite Hg, W_bind_Ok. cbn [truthy]. by rewrite lookup_insert_eq.
Qed.

Lemma reading_back_a_written_file_witness :
  read_msgpack raw_unpack Ok
    (files (to_msgpack raw_pack (mkWorld VNone {[ "a.msg" := [Byte.x09] ]})
              (ToPath "a.msg") [VBytes [Byte.x01]; VBytes [Byte.x02]] ∅).1.1)
    (FromPath "a.msg") (VBool false) ∅
  = (l ← raw_unpack (concat [[Byte.x01]; [Byte.x02]]) ∅;
     mret (Stored (match l with [x] => x | _ => VList l end))).
Proof.
  etransitivity.
  - apply (reading_back_a_written_file raw_pack raw_unpack Ok
           (mkWorld VNone {[ "a.msg" := [Byte.x09] ]}) "a.msg"
           [VBytes [Byte.x01]; VBytes [Byte.x02]] ∅ ∅ [[Byte.x01]; [Byte.x02]]);
      reflexivity.
  - reflexivity.
Defined.

(** X26. With iterator set, [read_msgpack] reads nothing at the time of
    the call: it returns an [Iterator] over what
    [get_filepath_or_buffer] gave, without looking for the file and
    without unpacking; and since the iterator is built from the source
    alone, the encoding and the other keywords are not handed on. *)
Theorem an_iterator_is_returned_unread
    (unpack : list byte → gmap string value → W (list value))
    (get_filepath_or_buffer : source → result source)
    (fs : gmap string (list byte)) (src : source)
    (iterator : value) (kwargs : gmap string value) :
  truthy iterator = true →
  read_msgpack unpack get_filepath_or_buffer fs src iterator kwargs
  = (path_or_buf ← liftW (get_filepath_or_buffer src);
     mret (AnIterator path_or_buf)).
Proof.
  intros Hi. unfold read_msgpack.
  destruct (get_filepath_or_buffer src) as [p|e]; [|reflexivity].
  by rewrite !W_bind_Ok, Hi.
Qed.

Lemma an_iterator_is_returned_unread_witness :
  read_msgpack raw_unpack Ok ∅ (FromPath "a.msg") (VBool true)
    {[ "encoding" := VStr "latin1" ]}
  = (path_or_buf ← liftW (Ok (FromPath "a.msg")); mret (AnIterator path_or_buf)).
Proof.
  apply (an_iterator_is_returned_unread raw_unpack Ok ∅ (FromPath "a.msg")
           (VBool true) {[ "encoding" := VStr "latin1" ]}).
  reflexivity.
Defined.

(** * Float scalars *)

Lemma scan_exponent_end (ex : option (bool * list digit)) :
  match ex with Some (_, []) => False | _ => True end →
  scan_exponent (exp_str ex +:+ "") = (ex, "").
Proof.
  intros Hex. destruct ex as [[eneg ds]|]; [|done].
  destruct ds as [|d ds]; [done|].
  assert (Hscan : scan_digits (digits_str (d :: ds) +:+ "") = (d :: ds, ""))
    by (by apply scan_digits_app).
  destruct eneg; simpl in *; by rewrite char_digit_char in *; rewrite Hscan.
Qed.

Lemma scan_unsigned_end (x : pyfloat) :
  well_formed x = true →
  scan_unsigned (signbit x) (unsigned_repr x +:+ "") = Some (x, "").
Proof.
  intros Hwf. destruct x as [|neg|neg ip fp ex]; [done|done|].
  destruct ip as [|d ip]; [done|].
  assert (Hex : match ex with Some (_, []) => False | _ => True end).
  { simpl in Hwf. destruct ex as [[? [|? ?]]|]; done. }
  pose proof (scan_exponent_end ex Hex) as Hscan_ex.
  assert (Hhead : not_digit_head (exp_str ex +:+ "")).
  { by destruct ex as [[? ?]|]. }
  unfold scan_unsigned, unsigned_repr, signbit.
  rewrite !string_app_assoc.
  assert (Hpre : ∀ p, (p = "infinity" ∨ p = "inf" ∨ p = "nan") →
                      strip_prefix p (digits_str (d :: ip) +:+ frac_str fp
                                      +:+ exp_str ex +:+ "") = None).
  { intros p [-> | [-> | ->]]; by destruct d. }
  rewrite !Hpre by auto.
  destruct fp as [|e fp].
  - change (frac_str [] +:+ exp_str ex +:+ "") with (exp_str ex +:+ "").
    rewrite scan_digits_app by done.
    assert (Hnodot : (match exp_str ex +:+ "" with
                      | String "." r1' => scan_digits r1'
                      | _ => ([], exp_str ex +:+ "")
                      end) = ([], exp_str ex +:+ "")).
    { by destruct ex as [[? ?]|]. }
    rewrite Hnodot, Hscan_ex. reflexivity.
  - change (frac_str (e :: fp) +:+ exp_str ex +:+ "")
      with (String "." (digits_str (e :: fp) +:+ exp_str ex +:+ "")).
    rewrite scan_digits_app by done.
    rewrite scan_digits_app by done.
    rewrite Hscan_ex. reflexivity.
Qed.

(** [float] reads back what [repr] wrote. *)
Lemma float_of_string_repr (x : pyfloat) :
  well_formed x = true → float_of_string (float_repr x) = Ok x.
Proof.
  intros Hwf. unfold float_of_string.
  rewrite <- (string_app_nil_r (float_repr x)).
  rewrite float_repr_sign, string_app_assoc.
  pose proof (scan_unsigned_end x Hwf) as Hscan.
  unfold scan_float.
  destruct (signbit x) eqn:Hs.
  - change (scan_sign (sign_str true +:+ unsigned_repr x +:+ ""))
      with (true, unsigned_repr x +:+ "").
    cbv beta iota. by rewrite Hscan.
  - assert (Hsign : scan_sign (sign_str false +:+ unsigned_repr x +:+ "")
                    = (false, unsigned_repr x +:+ "")).
    { destruct x as [| |neg [|d ip] fp ex]; try done. by destruct d. }
    rewrite Hsign. cbv beta iota. by rewrite Hscan.
Qed.

Definition is_np_float (d : dtype) : bool :=
  match d with float32 | float64 => true | _ => false end.

(** X27. A float numpy scalar comes back as it was: [encode] writes the
    name of its dtype and its [repr], and [decode] calls the scalar type
    of that name on the text, which reads the same float, with its sign
    (also of a zero), infinities and nan included. *)
Theorem float_scalars_round_trip
    (E : Env) (compressor : value) (dt : dtype) (x : pyfloat) :
  is_np_float dt = true →
  well_formed x = true →
  roundtrip E compressor (VNpFloat dt x) = mret (VNpFloat dt x).
Proof.
  intros Hdt Hwf.
  assert (Hparse : np_type_call E dt (VStr (float_repr x)) = Ok (VNpFloat dt x)).
  { destruct dt; try discriminate Hdt; unfold np_type_call;
      by rewrite float_of_string_repr. }
  destruct dt; try discriminate Hdt;
    unfold roundtrip, encode; eval_isinstance;
    cbn [iscomplexobj dtype_name_of getattr attrs assoc mbind result_bind
         repr_of];
    lazymatch type of Hparse with
    | np_type_call _ ?t _ = _ =>
        transitivity (liftW (match np_type_call E t (VStr (float_repr x)) with
                             | Ok v => Ok v
                             | Raise _ => Raise (AttributeError "type")
                             end)); [reflexivity|]
    end;
    by rewrite Hparse.
Qed.

Lemma float_scalars_round_trip_witness :
  roundtrip (stored_env false false) VNone
    (VNpFloat float64 (FFinite true [d0] [d0] None))
  = mret (VNpFloat float64 (FFinite true [d0] [d0] None)).
Proof.
  apply (float_scalars_round_trip (stored_env false false) VNone float64
           (FFinite true [d0] [d0] None));
    reflexivity.
Defined.
